(** * wavesurf: options, themes, events and the HTML render pipeline

    A shallow embedding of the Python package [wavesurf] (modules
    [_options], [_theme], [_controls], [_events], [_plugins], [_html],
    [_audio], [_core] and [_layouts]) together with the properties its
    specification states about it.

    Conventions of the embedding:
    - a Python [str] is a [string]; text outside ASCII is held UTF-8
      encoded, one [ascii] per byte;
    - a Python [int] is a [Z];
    - a value of type [Any] is a [PyVal], the JSON-serialisable fragment
      of Python's values (dictionaries are keyed by strings and keep
      their insertion order, as Python's do);
    - a function that can raise returns a [result];
    - what the package only calls is a parameter of the embedding:
      [soundfile], [base64] and [torch] (the class [Audio.Codec]), the
      table of printable characters [repr] consults (the class
      [Py.Unicode]), the text of wavesurfer.js and the identifiers
      [uuid4] draws. *)

From Stdlib Require Import String Ascii ZArith NArith List Lia Bool DecimalString.
From stdpp Require Import gmap strings sorting.
Import ListNotations.

#[local] Set Warnings "-register-all".

(** stdpp keeps [String.append] folded; the proofs below unfold it. *)
#[local] Arguments String.append !_ _ / : simpl nomatch.

Open Scope Z_scope.
Open Scope list_scope.
Open Scope string_scope.

(** ** Python values and the library functions the package calls *)

Module Py.

(** The double quote and the line feed, which a string literal cannot
    hold conveniently. *)
Definition DQ : string := String "034"%char EmptyString.
Definition LF : string := String "010"%char EmptyString.

(** Exceptions, by class, with the argument they are raised with. *)
Inductive exn : Type :=
| TypeError (msg : string)
| ValueError (msg : string)
| KeyError (arg : string)
| LibraryError (msg : string).

Inductive result (A : Type) : Type :=
| Ok (a : A)
| Raise (e : exn).
Arguments Ok {A} a.
Arguments Raise {A} e.

Definition bind {A B : Type} (r : result A) (k : A -> result B) : result B :=
  match r with
  | Ok a => k a
  | Raise e => Raise e
  end.

Definition raises {A : Type} (r : result A) : Prop :=
  match r with
  | Ok _ => False
  | Raise _ => True
  end.

(** A [float] is kept by the text [float.__repr__] gives for it; the
    three non-finite values are told apart because [json] spells them
    its own way. *)
Inductive PyFloat : Type :=
| FNaN
| FInf
| FNegInf
| FRepr (r : string).

Inductive PyVal : Type :=
| VNone
| VBool (b : bool)
| VInt (z : Z)
| VFloat (f : PyFloat)
| VStr (s : string)
| VList (l : list PyVal)
| VDict (d : list (string * PyVal)).

(** [v is None] *)
Definition is_None (v : PyVal) : bool :=
  match v with
  | VNone => true
  | _ => false
  end.

(** [str(n)] for an [int]. *)
Definition int_str (z : Z) : string := NilZero.string_of_int (Z.to_int z).

(** [sep.join(parts)] *)
Definition join (sep : string) (parts : list string) : string :=
  String.concat sep parts.

(** *** Dictionaries

    A [dict] with string keys in insertion order.  [d[k] = v] keeps the
    position of a key that is already there and appends a new one. *)
Definition dict (V : Type) : Type := list (string * V).

Fixpoint dict_get {V : Type} (d : dict V) (k : string) : option V :=
  match d with
  | [] => None
  | (k', v) :: d' => if String.eqb k' k then Some v else dict_get d' k
  end.

Definition dict_get_default {V : Type} (d : dict V) (k : string) (dflt : V) : V :=
  match dict_get d k with
  | Some v => v
  | None => dflt
  end.

Definition dict_contains {V : Type} (d : dict V) (k : string) : bool :=
  match dict_get d k with
  | Some _ => true
  | None => false
  end.

Fixpoint dict_set {V : Type} (d : dict V) (k : string) (v : V) : dict V :=
  match d with
  | [] => [(k, v)]
  | (k', v') :: d' =>
      if String.eqb k' k then (k', v) :: d' else (k', v') :: dict_set d' k v
  end.

(** [d.setdefault(k, v)], for its effect on [d]. *)
Definition dict_setdefault {V : Type} (d : dict V) (k : string) (v : V) : dict V :=
  if dict_contains d k then d else dict_set d k v.

Fixpoint dict_remove {V : Type} (d : dict V) (k : string) : dict V :=
  match d with
  | [] => []
  | (k', v') :: d' =>
      if String.eqb k' k then d' else (k', v') :: dict_remove d' k
  end.

(** [d.pop(k, dflt)]: the value popped and the dictionary left. *)
Definition dict_pop {V : Type} (d : dict V) (k : string) (dflt : V) : V * dict V :=
  (dict_get_default d k dflt, dict_remove d k).

(** [d.update(other)] *)
Definition dict_update {V : Type} (d other : dict V) : dict V :=
  fold_left (fun acc kv => dict_set acc (fst kv) (snd kv)) other d.

Definition dict_keys {V : Type} (d : dict V) : list string := map fst d.

(** *** Lists: [l.append(x)] and [l.extend(xs)], for their effect *)
Definition append {A : Type} (l : list A) (x : A) : list A := (l ++ [x])%list.
Definition extend {A : Type} (l xs : list A) : list A := (l ++ xs)%list.

(** *** Strings *)

(** [s.replace(c, r)] for a one-character [c]. *)
Fixpoint replace_char (c : ascii) (r : string) (s : string) : string :=
  match s with
  | EmptyString => EmptyString
  | String a s' =>
      if Ascii.eqb a c then r ++ replace_char c r s'
      else String a (replace_char c r s')
  end.

(** [html.escape(s, quote=True)]: the ampersand first, then the angle
    brackets, then both quotes, in the order of the standard library. *)
Definition html_escape (s : string) : string :=
  let s := replace_char "&" "&amp;" s in
  let s := replace_char "<" "&lt;" s in
  let s := replace_char ">" "&gt;" s in
  let s := replace_char "034" "&quot;" s in
  replace_char "'" "&#x27;" s.

(** [s.startswith((p1, p2))] *)
Definition startswith_any (ps : list string) (s : string) : bool :=
  existsb (fun p => String.prefix p s) ps.

(** [s[:-1]] *)
Fixpoint drop_last (s : string) : string :=
  match s with
  | EmptyString => EmptyString
  | String a EmptyString => EmptyString
  | String a s' => String a (drop_last s')
  end.

(** [s.lower()], on the ASCII letters. *)
Definition lower_char (a : ascii) : ascii :=
  let n := N_of_ascii a in
  if ((65 <=? n) && (n <=? 90))%N then ascii_of_N (n + 32) else a.

Fixpoint lower (s : string) : string :=
  match s with
  | EmptyString => EmptyString
  | String a s' => String (lower_char a) (lower s')
  end.

(** [pat in s] *)
Definition occurs_in (pat s : string) : Prop :=
  exists pre post : string, s = pre ++ pat ++ post.

Fixpoint has_char (c : ascii) (s : string) : bool :=
  match s with
  | EmptyString => false
  | String a s' => Ascii.eqb a c || has_char c s'
  end.

Definition hex_digit (n : N) : ascii :=
  match n with
  | 0 => "0" | 1 => "1" | 2 => "2" | 3 => "3" | 4 => "4" | 5 => "5"
  | 6 => "6" | 7 => "7" | 8 => "8" | 9 => "9" | 10 => "a" | 11 => "b"
  | 12 => "c" | 13 => "d" | 14 => "e" | _ => "f"
  end%N%char.

(** ['{0:02x}'.format(n)] and ['{0:04x}'.format(n)] for [n] that fits. *)
Definition hex2 (n : N) : string :=
  String (hex_digit (N.land (N.shiftr n 4) 15))
    (String (hex_digit (N.land n 15)) EmptyString).

Definition hex4 (n : N) : string := hex2 (N.shiftr n 8) ++ hex2 (N.land n 255).

(** The code points of a UTF-8 encoded text.  A byte that starts no
    well-formed sequence stands for itself; a Python [str] never holds
    one. *)
Fixpoint utf8_decode (s : string) : list N :=
  match s with
  | EmptyString => []
  | String c0 s1 =>
      let b0 := N_of_ascii c0 in
      let cont (c : ascii) := N.land (N_of_ascii c) 63 in
      if (b0 <? 192)%N then b0 :: utf8_decode s1
      else
        match s1 with
        | EmptyString => [b0]
        | String c1 s2 =>
            if (b0 <? 224)%N then
              (N.shiftl (N.land b0 31) 6 + cont c1)%N :: utf8_decode s2
            else
              match s2 with
              | EmptyString => b0 :: utf8_decode s1
              | String c2 s3 =>
                  if (b0 <? 240)%N then
                    (N.shiftl (N.land b0 15) 12 + N.shiftl (cont c1) 6
                     + cont c2)%N :: utf8_decode s3
                  else
                    match s3 with
                    | EmptyString => b0 :: utf8_decode s1
                    | String c3 s4 =>
                        (N.shiftl (N.land b0 7) 18 + N.shiftl (cont c1) 12
                         + N.shiftl (cont c2) 6 + cont c3)%N :: utf8_decode s4
                    end
              end
        end
  end.

(** *** [json.dumps]

    with its defaults: [ensure_ascii=True], [allow_nan=True], the
    separators [", "] and [": "], no sorting of keys. *)

(** What [json.encoder.py_encode_basestring_ascii] puts for one code
    point. *)
Definition json_escape_cp (cp : N) : string :=
  if (cp =? 34)%N then "\" ++ DQ
  else if (cp =? 92)%N then "\\"
  else if (cp =? 10)%N then "\n"
  else if (cp =? 13)%N then "\r"
  else if (cp =? 9)%N then "\t"
  else if (cp =? 8)%N then "\b"
  else if (cp =? 12)%N then "\f"
  else if ((32 <=? cp) && (cp <=? 126))%N then String (ascii_of_N cp) EmptyString
  else if (cp <? 65536)%N then "\u" ++ hex4 cp
  else
    let n := (cp - 65536)%N in
    "\u" ++ hex4 (N.lor 55296 (N.land (N.shiftr n 10) 1023))
    ++ "\u" ++ hex4 (N.lor 56320 (N.land n 1023)).

Definition json_quote (s : string) : string :=
  DQ ++ String.concat EmptyString (map json_escape_cp (utf8_decode s)) ++ DQ.

Definition json_float (f : PyFloat) : string :=
  match f with
  | FNaN => "NaN"
  | FInf => "Infinity"
  | FNegInf => "-Infinity"
  | FRepr r => r
  end.

Fixpoint json_dumps (v : PyVal) : string :=
  match v with
  | VNone => "null"
  | VBool true => "true"
  | VBool false => "false"
  | VInt z => int_str z
  | VFloat f => json_float f
  | VStr s => json_quote s
  | VList l => "[" ++ join ", " (map json_dumps l) ++ "]"
  | VDict d =>
      "{" ++ join ", "
               (map (fun kv => json_quote (fst kv) ++ ": " ++ json_dumps (snd kv)) d)
      ++ "}"
  end.

(** *** [repr] and [str] *)

(** [str.isprintable] of one character outside ASCII, given by its
    code point: a fact of the Unicode database the interpreter was
    built with, which [repr] consults. *)
Class Unicode : Type := { isprintable : N -> bool }.

(** The characters of a UTF-8 encoded text, each as its code point and
    its bytes, cut the way [utf8_decode] cuts them. *)
Fixpoint utf8_chars (s : string) : list (N * string) :=
  match s with
  | EmptyString => []
  | String c0 s1 =>
      let b0 := N_of_ascii c0 in
      let cont (c : ascii) := N.land (N_of_ascii c) 63 in
      let one := String c0 EmptyString in
      if (b0 <? 192)%N then (b0, one) :: utf8_chars s1
      else
        match s1 with
        | EmptyString => [(b0, one)]
        | String c1 s2 =>
            if (b0 <? 224)%N then
              ((N.shiftl (N.land b0 31) 6 + cont c1)%N,
               String c0 (String c1 EmptyString)) :: utf8_chars s2
            else
              match s2 with
              | EmptyString => (b0, one) :: utf8_chars s1
              | String c2 s3 =>
                  if (b0 <? 240)%N then
                    ((N.shiftl (N.land b0 15) 12 + N.shiftl (cont c1) 6
                      + cont c2)%N,
                     String c0 (String c1 (String c2 EmptyString)))
                    :: utf8_chars s3
                  else
                    match s3 with
                    | EmptyString => (b0, one) :: utf8_chars s1
                    | String c3 s4 =>
                        ((N.shiftl (N.land b0 7) 18 + N.shiftl (cont c1) 12
                          + N.shiftl (cont c2) 6 + cont c3)%N,
                         String c0
                           (String c1 (String c2 (String c3 EmptyString))))
                        :: utf8_chars s4
                    end
              end
        end
  end.

Section with_unicode.
Context `{Unicode}.

(** One character of a text inside [repr]'s quotes [q], as
    [unicode_repr] writes it: the quote and the backslash escaped,
    the control characters of ASCII as [\t], [\n], [\r] or [\xNN], a
    character outside ASCII copied when it is printable and written
    [\xNN], [\uNNNN] or [\UNNNNNNNN] when it is not. *)
Definition repr_char (q : ascii) (ch : N * string) : string :=
  let (cp, bytes) := ch in
  if ((cp =? N_of_ascii q) || (cp =? 92))%N then String "\" bytes
  else if (cp =? 9)%N then "\t"
  else if (cp =? 10)%N then "\n"
  else if (cp =? 13)%N then "\r"
  else if ((cp <? 32) || (cp =? 127))%N then "\x" ++ hex2 cp
  else if (cp <? 127)%N then bytes
  else if isprintable cp then bytes
  else if (cp <? 256)%N then "\x" ++ hex2 cp
  else if (cp <? 65536)%N then "\u" ++ hex4 cp
  else "\U" ++ hex4 (N.shiftr cp 16) ++ hex4 (N.land cp 65535).

Definition repr_chars (q : ascii) (s : string) : string :=
  String.concat EmptyString (map (repr_char q) (utf8_chars s)).

(** [repr(s)] for a [str]: single quotes, unless the text has a single
    quote and no double quote. *)
Definition repr_str (s : string) : string :=
  let q : ascii :=
    if has_char "'" s && negb (has_char "034" s) then "034"%char else "'"%char in
  String q (repr_chars q s ++ String q EmptyString).

Definition repr_float (f : PyFloat) : string :=
  match f with
  | FNaN => "nan"
  | FInf => "inf"
  | FNegInf => "-inf"
  | FRepr r => r
  end.

Fixpoint repr (v : PyVal) : string :=
  match v with
  | VNone => "None"
  | VBool true => "True"
  | VBool false => "False"
  | VInt z => int_str z
  | VFloat f => repr_float f
  | VStr s => repr_str s
  | VList l => "[" ++ join ", " (map repr l) ++ "]"
  | VDict d =>
      "{" ++ join ", " (map (fun kv => repr_str (fst kv) ++ ": " ++ repr (snd kv)) d)
      ++ "}"
  end.

(** [str(v)], which is also how an f-string formats [{v}]. *)
Definition str (v : PyVal) : string :=
  match v with
  | VStr s => s
  | _ => repr v
  end.

End with_unicode.

(** [s.split(c)] for a one-character separator. *)
Fixpoint split_char (c : ascii) (s : string) : list string :=
  match s with
  | EmptyString => [EmptyString]
  | String a s' =>
      if Ascii.eqb a c then EmptyString :: split_char c s'
      else
        match split_char c s' with
        | h :: t => String a h :: t
        | [] => [String a EmptyString]
        end
  end.

(** Truth of a [str | None]: [None] and the empty text are false. *)
Definition truthy (o : option string) : bool :=
  match o with
  | Some (String _ _) => true
  | _ => false
  end.

(** *** Calls with keyword arguments

    [f(k1=.., k2=..)] for a function [fname] whose parameters are
    [params]: Python raises [TypeError] for the first keyword that
    names no parameter, before the body runs. *)
Definition call_kw {A : Type} (fname : string) (params keywords : list string)
  (body : result A) : result A :=
  match find (fun k => negb (existsb (String.eqb k) params)) keywords with
  | Some k =>
      Raise (TypeError (fname ++ "() got an unexpected keyword argument '"
                        ++ k ++ "'"))
  | None => body
  end.

End Py.
(** ** [_options]: the option set and its wire names *)

Module WaveSurferOptions.
Import Py.

(** The table from the Python names to the names wavesurfer.js reads. *)
Definition _SNAKE_TO_CAMEL : dict string :=
  [ ("audio_rate", "audioRate");
    ("auto_center", "autoCenter");
    ("auto_scroll", "autoScroll");
    ("autoplay", "autoplay");
    ("backend", "backend");
    ("bar_align", "barAlign");
    ("bar_gap", "barGap");
    ("bar_height", "barHeight");
    ("bar_min_height", "barMinHeight");
    ("bar_radius", "barRadius");
    ("bar_width", "barWidth");
    ("blob_mime_type", "blobMimeType");
    ("container", "container");
    ("csp_nonce", "cspNonce");
    ("cursor_color", "cursorColor");
    ("cursor_width", "cursorWidth");
    ("drag_to_seek", "dragToSeek");
    ("duration", "duration");
    ("fetch_params", "fetchParams");
    ("fill_parent", "fillParent");
    ("height", "height");
    ("hide_scrollbar", "hideScrollbar");
    ("interact", "interact");
    ("media_controls", "mediaControls");
    ("max_peak", "maxPeak");
    ("min_px_per_sec", "minPxPerSec");
    ("normalize", "normalize");
    ("progress_color", "progressColor");
    ("render_function", "renderFunction");
    ("sample_rate", "sampleRate");
    ("split_channels", "splitChannels");
    ("url", "url");
    ("wave_color", "waveColor");
    ("width", "width") ].

(** The dataclass.  Python does not enforce the annotations (given here
    as comments), so every field holds a [PyVal]; [VNone] is the
    default and means the option is absent. *)
Record t : Type := mk {
  audio_rate : PyVal      (* float | None *);
  auto_center : PyVal     (* bool | None *);
  auto_scroll : PyVal     (* bool | None *);
  autoplay : PyVal        (* bool | None *);
  backend : PyVal         (* str | None *);
  bar_align : PyVal       (* str | None *);
  bar_gap : PyVal         (* int | None *);
  bar_height : PyVal      (* float | None *);
  bar_min_height : PyVal  (* int | None *);
  bar_radius : PyVal      (* int | None *);
  bar_width : PyVal       (* int | None *);
  blob_mime_type : PyVal  (* str | None *);
  csp_nonce : PyVal       (* str | None *);
  cursor_color : PyVal    (* str | None *);
  cursor_width : PyVal    (* int | None *);
  drag_to_seek : PyVal    (* bool | dict | None *);
  duration : PyVal        (* float | None *);
  fetch_params : PyVal    (* dict | None *);
  fill_parent : PyVal     (* bool | None *);
  height : PyVal          (* int | str | None *);
  hide_scrollbar : PyVal  (* bool | None *);
  interact : PyVal        (* bool | None *);
  media_controls : PyVal  (* bool | None *);
  max_peak : PyVal        (* float | None *);
  min_px_per_sec : PyVal  (* int | None *);
  normalize : PyVal       (* bool | None *);
  progress_color : PyVal  (* str | list[str] | None *);
  render_function : PyVal (* str | None *);
  sample_rate : PyVal     (* int | None *);
  split_channels : PyVal  (* list[dict] | None *);
  url : PyVal             (* str | None *);
  wave_color : PyVal      (* str | list[str] | None *);
  width : PyVal           (* int | str | None *)
}.

(** [dataclasses.fields], by name and in declaration order. *)
Definition fields : list string :=
  [ "audio_rate"; "auto_center"; "auto_scroll"; "autoplay";
    "backend"; "bar_align"; "bar_gap"; "bar_height";
    "bar_min_height"; "bar_radius"; "bar_width"; "blob_mime_type";
    "csp_nonce"; "cursor_color"; "cursor_width"; "drag_to_seek";
    "duration"; "fetch_params"; "fill_parent"; "height";
    "hide_scrollbar"; "interact"; "media_controls"; "max_peak";
    "min_px_per_sec"; "normalize"; "progress_color"; "render_function";
    "sample_rate"; "split_channels"; "url"; "wave_color";
    "width" ].

(** [getattr(self, name)] for the name of a field. *)
Definition getattr (self : t) (name : string) : PyVal :=
  if String.eqb name "audio_rate" then audio_rate self
  else if String.eqb name "auto_center" then auto_center self
  else if String.eqb name "auto_scroll" then auto_scroll self
  else if String.eqb name "autoplay" then autoplay self
  else if String.eqb name "backend" then backend self
  else if String.eqb name "bar_align" then bar_align self
  else if String.eqb name "bar_gap" then bar_gap self
  else if String.eqb name "bar_height" then bar_height self
  else if String.eqb name "bar_min_height" then bar_min_height self
  else if String.eqb name "bar_radius" then bar_radius self
  else if String.eqb name "bar_width" then bar_width self
  else if String.eqb name "blob_mime_type" then blob_mime_type self
  else if String.eqb name "csp_nonce" then csp_nonce self
  else if String.eqb name "cursor_color" then cursor_color self
  else if String.eqb name "cursor_width" then cursor_width self
  else if String.eqb name "drag_to_seek" then drag_to_seek self
  else if String.eqb name "duration" then duration self
  else if String.eqb name "fetch_params" then fetch_params self
  else if String.eqb name "fill_parent" then fill_parent self
  else if String.eqb name "height" then height self
  else if String.eqb name "hide_scrollbar" then hide_scrollbar self
  else if String.eqb name "interact" then interact self
  else if String.eqb name "media_controls" then media_controls self
  else if String.eqb name "max_peak" then max_peak self
  else if String.eqb name "min_px_per_sec" then min_px_per_sec self
  else if String.eqb name "normalize" then normalize self
  else if String.eqb name "progress_color" then progress_color self
  else if String.eqb name "render_function" then render_function self
  else if String.eqb name "sample_rate" then sample_rate self
  else if String.eqb name "split_channels" then split_channels self
  else if String.eqb name "url" then url self
  else if String.eqb name "wave_color" then wave_color self
  else if String.eqb name "width" then width self
  else VNone.

(** The constructor called with the keywords [kw]: each field from its
    keyword, [None] when it is not given. *)
Definition of_dict (kw : dict PyVal) : t :=
  {| audio_rate := dict_get_default kw "audio_rate" VNone;
     auto_center := dict_get_default kw "auto_center" VNone;
     auto_scroll := dict_get_default kw "auto_scroll" VNone;
     autoplay := dict_get_default kw "autoplay" VNone;
     backend := dict_get_default kw "backend" VNone;
     bar_align := dict_get_default kw "bar_align" VNone;
     bar_gap := dict_get_default kw "bar_gap" VNone;
     bar_height := dict_get_default kw "bar_height" VNone;
     bar_min_height := dict_get_default kw "bar_min_height" VNone;
     bar_radius := dict_get_default kw "bar_radius" VNone;
     bar_width := dict_get_default kw "bar_width" VNone;
     blob_mime_type := dict_get_default kw "blob_mime_type" VNone;
     csp_nonce := dict_get_default kw "csp_nonce" VNone;
     cursor_color := dict_get_default kw "cursor_color" VNone;
     cursor_width := dict_get_default kw "cursor_width" VNone;
     drag_to_seek := dict_get_default kw "drag_to_seek" VNone;
     duration := dict_get_default kw "duration" VNone;
     fetch_params := dict_get_default kw "fetch_params" VNone;
     fill_parent := dict_get_default kw "fill_parent" VNone;
     height := dict_get_default kw "height" VNone;
     hide_scrollbar := dict_get_default kw "hide_scrollbar" VNone;
     interact := dict_get_default kw "interact" VNone;
     media_controls := dict_get_default kw "media_controls" VNone;
     max_peak := dict_get_default kw "max_peak" VNone;
     min_px_per_sec := dict_get_default kw "min_px_per_sec" VNone;
     normalize := dict_get_default kw "normalize" VNone;
     progress_color := dict_get_default kw "progress_color" VNone;
     render_function := dict_get_default kw "render_function" VNone;
     sample_rate := dict_get_default kw "sample_rate" VNone;
     split_channels := dict_get_default kw "split_channels" VNone;
     url := dict_get_default kw "url" VNone;
     wave_color := dict_get_default kw "wave_color" VNone;
     width := dict_get_default kw "width" VNone |}.

(** [WaveSurferOptions()] *)
Definition default : t := of_dict [].

Definition to_js_dict (self : t) : dict PyVal :=
  fold_left
    (fun (result : dict PyVal) (f_name : string) =>
       let value := getattr self f_name in
       if is_None value then result
       else
         let camel_key := dict_get_default _SNAKE_TO_CAMEL f_name f_name in
         dict_set result camel_key value)
    fields [].

Definition to_json `{Unicode} (self : t) : string :=
  let js_dict := to_js_dict self in
  let (render_fn, js_dict) := dict_pop js_dict "renderFunction" VNone in
  let json_str := json_dumps (VDict js_dict) in
  if negb (is_None render_fn) then
    drop_last json_str ++ ", " ++ DQ ++ "renderFunction" ++ DQ ++ ": "
    ++ str render_fn ++ "}"
  else json_str.

(** The class method, called as [from_kwargs] is called everywhere,
    with the keywords [kwargs] unpacked.  Its first parameter is [cls],
    so a keyword of that name is an error of the call (worded as
    CPython 3.10 and later word it) and the body does not run. *)
Definition from_kwargs (kwargs : dict PyVal) : result t :=
  if dict_contains kwargs "cls" then
    Raise (TypeError
             ("WaveSurferOptions.from_kwargs() got multiple values for "
              ++ "argument 'cls'"))
  else
    let known := fields in
    let filtered :=
      List.filter (fun kv => existsb (String.eqb (fst kv)) known) kwargs in
    Ok (of_dict filtered).

Definition merge (self : t) (overrides : dict PyVal) : t :=
  let current := map (fun f_name => (f_name, getattr self f_name)) fields in
  let known := fields in
  let current :=
    fold_left
      (fun (current : dict PyVal) (kv : string * PyVal) =>
         if existsb (String.eqb (fst kv)) known
         then dict_set current (fst kv) (snd kv)
         else current)
      overrides current in
  of_dict current.

End WaveSurferOptions.

(** ** [_theme]: themes and their registry *)

Module Theme.
Import Py.

(** The frozen dataclass, each field with the type of its annotation:
    a colour is a text or a list of texts, hence a [PyVal]. *)
Record t : Type := mk {
  wave_color : PyVal;
  progress_color : PyVal;
  cursor_color : option string;
  bar_width : option Z;
  bar_gap : option Z;
  bar_radius : option Z;
  height : option Z;
  background : string;
  border : string;
  border_radius : string;
  padding : string;
  font_family : string;
  title_color : string;
  title_font_size : string;
  title_font_weight : string;
  title_marker_color : option string;
  title_marker_shape : option string;
  play_button_style : string;
  play_button_color : string;
  play_button_bg : string;
  play_button_hover_glow : option string;
  time_color : string;
  top_accent : option string;
  background_pattern : option string;
  card_margin_bottom : string
}.

(** [Theme()], every field at its default. *)
Definition default : t :=
  {| wave_color := VNone;
     progress_color := VNone;
     cursor_color := None;
     bar_width := None;
     bar_gap := None;
     bar_radius := None;
     height := None;
     background := "#1a1a2e";
     border := "1px solid rgba(255, 255, 255, 0.08)";
     border_radius := "12px";
     padding := "20px 24px";
     font_family := "-apple-system, BlinkMacSystemFont, system-ui, sans-serif";
     title_color := "rgba(255, 255, 255, 0.85)";
     title_font_size := "0.8rem";
     title_font_weight := "600";
     title_marker_color := None;
     title_marker_shape := None;
     play_button_style := "circle";
     play_button_color := "#ffffff";
     play_button_bg := "rgba(255, 255, 255, 0.12)";
     play_button_hover_glow := None;
     time_color := "rgba(255, 255, 255, 0.4)";
     top_accent := None;
     background_pattern := None;
     card_margin_bottom := "8px" |}.

Definition of_option {A : Type} (inj : A -> PyVal) (o : option A) : PyVal :=
  match o with
  | Some a => inj a
  | None => VNone
  end.

(** [dataclasses.fields], by name and in declaration order. *)
Definition fields : list string :=
  [ "wave_color"; "progress_color"; "cursor_color"; "bar_width";
    "bar_gap"; "bar_radius"; "height"; "background";
    "border"; "border_radius"; "padding"; "font_family";
    "title_color"; "title_font_size"; "title_font_weight"; "title_marker_color";
    "title_marker_shape"; "play_button_style"; "play_button_color"; "play_button_bg";
    "play_button_hover_glow"; "time_color"; "top_accent"; "background_pattern";
    "card_margin_bottom" ].

(** [getattr(self, name)] for the name of a field. *)
Definition getattr (self : t) (name : string) : PyVal :=
  if String.eqb name "wave_color" then wave_color self
  else if String.eqb name "progress_color" then progress_color self
  else if String.eqb name "cursor_color" then of_option VStr (cursor_color self)
  else if String.eqb name "bar_width" then of_option VInt (bar_width self)
  else if String.eqb name "bar_gap" then of_option VInt (bar_gap self)
  else if String.eqb name "bar_radius" then of_option VInt (bar_radius self)
  else if String.eqb name "height" then of_option VInt (height self)
  else if String.eqb name "background" then VStr (background self)
  else if String.eqb name "border" then VStr (border self)
  else if String.eqb name "border_radius" then VStr (border_radius self)
  else if String.eqb name "padding" then VStr (padding self)
  else if String.eqb name "font_family" then VStr (font_family self)
  else if String.eqb name "title_color" then VStr (title_color self)
  else if String.eqb name "title_font_size" then VStr (title_font_size self)
  else if String.eqb name "title_font_weight" then VStr (title_font_weight self)
  else if String.eqb name "title_marker_color" then of_option VStr (title_marker_color self)
  else if String.eqb name "title_marker_shape" then of_option VStr (title_marker_shape self)
  else if String.eqb name "play_button_style" then VStr (play_button_style self)
  else if String.eqb name "play_button_color" then VStr (play_button_color self)
  else if String.eqb name "play_button_bg" then VStr (play_button_bg self)
  else if String.eqb name "play_button_hover_glow" then of_option VStr (play_button_hover_glow self)
  else if String.eqb name "time_color" then VStr (time_color self)
  else if String.eqb name "top_accent" then of_option VStr (top_accent self)
  else if String.eqb name "background_pattern" then of_option VStr (background_pattern self)
  else if String.eqb name "card_margin_bottom" then VStr (card_margin_bottom self)
  else VNone.

Definition waveform_fields : gset string :=
  {[ "wave_color"; "progress_color"; "cursor_color";
     "bar_width"; "bar_gap"; "bar_radius"; "height" ]}.

Definition waveform_overrides (self : t) : dict PyVal :=
  map (fun f_name => (f_name, getattr self f_name))
    (List.filter
       (fun f_name =>
          bool_decide (f_name ∈ waveform_fields)
          && negb (is_None (getattr self f_name)))
       fields).

Definition DARK : t :=
  {| wave_color := VStr "#8888aa";
     progress_color := VStr "#6c63ff";
     cursor_color := Some "#6c63ff";
     bar_width := Some 2;
     bar_gap := Some 1;
     bar_radius := Some 2;
     height := Some 80;
     background := "#1a1a2e";
     border := "1px solid rgba(255, 255, 255, 0.08)";
     border_radius := "12px";
     padding := "20px 24px";
     font_family := "-apple-system, BlinkMacSystemFont, system-ui, sans-serif";
     title_color := "rgba(255, 255, 255, 0.85)";
     title_font_size := "0.8rem";
     title_font_weight := "600";
     title_marker_color := None;
     title_marker_shape := None;
     play_button_style := "circle";
     play_button_color := "#ffffff";
     play_button_bg := "rgba(108, 99, 255, 0.25)";
     play_button_hover_glow := None;
     time_color := "rgba(255, 255, 255, 0.4)";
     top_accent := None;
     background_pattern := None;
     card_margin_bottom := "8px" |}.

Definition LIGHT : t :=
  {| wave_color := VStr "#555577";
     progress_color := VStr "#4a56e2";
     cursor_color := Some "#4a56e2";
     bar_width := Some 2;
     bar_gap := Some 1;
     bar_radius := Some 2;
     height := Some 80;
     background := "#f8f8fc";
     border := "1px solid rgba(0, 0, 0, 0.08)";
     border_radius := "12px";
     padding := "20px 24px";
     font_family := "-apple-system, BlinkMacSystemFont, system-ui, sans-serif";
     title_color := "rgba(0, 0, 0, 0.8)";
     title_font_size := "0.8rem";
     title_font_weight := "600";
     title_marker_color := None;
     title_marker_shape := None;
     play_button_style := "circle";
     play_button_color := "#333333";
     play_button_bg := "rgba(74, 86, 226, 0.12)";
     play_button_hover_glow := None;
     time_color := "rgba(0, 0, 0, 0.45)";
     top_accent := None;
     background_pattern := None;
     card_margin_bottom := "8px" |}.

End Theme.

Module ThemeRegistry.
Import Py.

(** The registry object: the themes by name and the name of the
    default. *)
Record t : Type := mk {
  _themes : gmap string Theme.t;
  _default : string
}.

Definition __init__ : t := {| _themes := ∅; _default := "dark" |}.

(** What a caller can hand to [register]: a [Theme], or an object of
    another class, known by [type(obj).__name__]. *)
Inductive PyObj : Type :=
| ObjTheme (theme : Theme.t)
| ObjOther (type_name : string).

(** The argument of [resolve], of type [Theme | str | None]. *)
Inductive ThemeArg : Type :=
| ArgNone
| ArgName (name : string)
| ArgTheme (theme : Theme.t).

Definition register (self : t) (name : string) (theme : PyObj) : result t :=
  match theme with
  | ObjOther type_name =>
      Raise (TypeError ("Expected a Theme instance, got " ++ type_name))
  | ObjTheme theme =>
      Ok {| _themes := <[name := theme]> (_themes self);
            _default := _default self |}
  end.

(** [sorted(self._themes)]: the names in the order of their code
    points, which is the order of their UTF-8 bytes. *)
Definition names (self : t) : list string :=
  merge_sort String.leb (map fst (map_to_list (_themes self))).

Definition get `{Unicode} (self : t) (name : string) : result Theme.t :=
  match _themes self !! name with
  | Some theme => Ok theme
  | None =>
      let available := join ", " (names self) in
      Raise (KeyError ("Unknown theme " ++ repr_str name
                       ++ ". Available: " ++ available))
  end.

Definition __getitem__ `{Unicode} (self : t) (name : string)
  : result Theme.t :=
  get self name.

Definition __setitem__ (self : t) (name : string) (theme : PyObj) : result t :=
  register self name theme.

Definition __contains__ (self : t) (name : string) : bool :=
  bool_decide (is_Some (_themes self !! name)).

(** The property [default] and its setter. *)
Definition default (self : t) : string := _default self.

Definition set_default `{Unicode} (self : t) (name : string) : result t :=
  if negb (__contains__ self name) then
    Raise (KeyError ("Cannot set default to unregistered theme " ++ repr_str name))
  else Ok {| _themes := _themes self; _default := name |}.

Definition enable `{Unicode} (self : t) (name : string) : result t :=
  set_default self name.

(** [self._themes[self._default]] raises [KeyError(key)] for a missing
    key. *)
Definition resolve `{Unicode} (self : t) (theme : ThemeArg)
  : result Theme.t :=
  match theme with
  | ArgNone =>
      match _themes self !! _default self with
      | Some t => Ok t
      | None => Raise (KeyError (_default self))
      end
  | ArgName name => get self name
  | ArgTheme theme => Ok theme
  end.

(** The module-level registry, as the two calls at the end of the
    module leave it. *)
Definition themes : t :=
  {| _themes := <["light" := Theme.LIGHT]> (<["dark" := Theme.DARK]> ∅);
     _default := "dark" |}.

End ThemeRegistry.

(** ** [_controls]: the control bar *)

Module Controls.
Import Py.

Record t : Type := mk {
  show_play_button : bool;
  show_time : bool;
  show_volume : bool;
  show_playback_rate : bool;
  play_button_style : option string;
  layout : string
}.

(** [Controls()] *)
Definition default : t :=
  {| show_play_button := true;
     show_time := true;
     show_volume := false;
     show_playback_rate := false;
     play_button_style := None;
     layout := "bottom" |}.

Definition effective_style (self : t) (theme : Theme.t) : string :=
  match play_button_style self with
  | Some style => style
  | None => Theme.play_button_style theme
  end.

Definition _shield_button_html (uid : string) (theme : Theme.t) : string :=
  let glow :=
    match Theme.play_button_hover_glow theme with
    | Some ((String _ _) as g) =>
        " this.style.filter='" ++ g ++ "';"
    | _ => EmptyString
    end in
  "<button id=" ++ DQ ++ "play-" ++ uid ++ DQ ++ " style=" ++ DQ ++ LF
  ++ "  width: 36px; height: 40px; border: none; cursor: pointer;" ++ LF
  ++ "  display: flex; align-items: center; justify-content: " ++ "center;"
  ++ LF ++ "  padding: 0; background: transparent; position: relative;" ++ LF
  ++ "  transition: transform 0.2s ease, filter 0.2s ease;" ++ LF ++ DQ
  ++ " onmouseover=" ++ DQ ++ "this.style.transform='scale(1.1)';" ++ glow
  ++ DQ ++ LF ++ "   onmouseout=" ++ DQ
  ++ "this.style.transform='scale(1)'; this.style.filter='none'" ++ DQ ++ LF
  ++ ">" ++ LF ++ "  <svg style=" ++ DQ
  ++ "position: absolute; inset: 0; width: 100%; height: 100%;" ++ DQ ++ LF
  ++ "       viewBox=" ++ DQ ++ "0 0 36 40" ++ DQ ++ " fill=" ++ DQ ++ "none"
  ++ DQ ++ " xmlns=" ++ DQ ++ "http://www.w3.org/2000/svg" ++ DQ ++ ">" ++ LF
  ++ "    <path d=" ++ DQ
  ++ "M18 0L36 6V22C36 31 27 37.5 18 40C9 37.5 0 31 0 22V6L18 0Z" ++ DQ ++ LF
  ++ "          fill=" ++ DQ ++ "url(#copperGrad-" ++ uid ++ ")" ++ DQ
  ++ "/>" ++ LF ++ "    <defs>" ++ LF ++ "      <linearGradient id=" ++ DQ
  ++ "copperGrad-" ++ uid ++ DQ ++ " x1=" ++ DQ ++ "0" ++ DQ ++ " y1=" ++ DQ
  ++ "0" ++ DQ ++ " x2=" ++ DQ ++ "36" ++ DQ ++ " y2=" ++ DQ ++ "40" ++ DQ
  ++ ">" ++ LF ++ "        <stop offset=" ++ DQ ++ "0%" ++ DQ
  ++ " stop-color=" ++ DQ ++ "#d4a96a" ++ DQ ++ "/>" ++ LF
  ++ "        <stop offset=" ++ DQ ++ "100%" ++ DQ ++ " stop-color=" ++ DQ
  ++ "#b98b5a" ++ DQ ++ "/>" ++ LF ++ "      </linearGradient>" ++ LF
  ++ "    </defs>" ++ LF ++ "  </svg>" ++ LF ++ "  <span id=" ++ DQ
  ++ "icon-" ++ uid ++ DQ ++ " style=" ++ DQ ++ LF
  ++ "    position: relative; z-index: 1; color: "
  ++ (Theme.play_button_color theme) ++ ";" ++ LF
  ++ "    font-size: 11px; margin-left: 2px; line-height: 1;" ++ LF ++ "  "
  ++ DQ ++ ">&#9654;</span>" ++ LF ++ "</button>".

Definition _circle_button_html (uid : string) (theme : Theme.t) : string :=
  "<button id=" ++ DQ ++ "play-" ++ uid ++ DQ ++ " style=" ++ DQ ++ LF
  ++ "  width: 36px; height: 36px; border-radius: 50%; border: "
  ++ "none; cursor: pointer;" ++ LF
  ++ "  display: flex; align-items: center; justify-content: " ++ "center;"
  ++ LF ++ "  padding: 0; background: " ++ (Theme.play_button_bg theme)
  ++ ";" ++ LF ++ "  color: " ++ (Theme.play_button_color theme)
  ++ "; font-size: 13px;" ++ LF
  ++ "  transition: transform 0.15s ease, opacity 0.15s ease;" ++ LF ++ DQ
  ++ " onmouseover=" ++ DQ ++ "this.style.transform='scale(1.08)'; "
  ++ "this.style.opacity='0.85'" ++ DQ ++ LF ++ "   onmouseout=" ++ DQ
  ++ "this.style.transform='scale(1)'; this.style.opacity='1'" ++ DQ ++ LF
  ++ ">" ++ LF ++ "  <span id=" ++ DQ ++ "icon-" ++ uid ++ DQ ++ " style="
  ++ DQ ++ "margin-left: 2px; line-height: 1;" ++ DQ ++ ">&#9654;</span>"
  ++ LF ++ "</button>".

Definition _minimal_button_html (uid : string) (theme : Theme.t) : string :=
  "<button id=" ++ DQ ++ "play-" ++ uid ++ DQ ++ " style=" ++ DQ ++ LF
  ++ "  border: none; cursor: pointer; background: transparent;" ++ LF
  ++ "  color: " ++ (Theme.play_button_color theme)
  ++ "; font-size: 18px; padding: 4px 8px;" ++ LF
  ++ "  transition: opacity 0.15s ease;" ++ LF ++ DQ ++ " onmouseover=" ++ DQ
  ++ "this.style.opacity='0.7'" ++ DQ ++ LF ++ "   onmouseout=" ++ DQ
  ++ "this.style.opacity='1'" ++ DQ ++ LF ++ ">" ++ LF ++ "  <span id=" ++ DQ
  ++ "icon-" ++ uid ++ DQ ++ ">&#9654;</span>" ++ LF ++ "</button>".

Definition build_controls_html (uid : string) (controls : t) (theme : Theme.t)
  : string :=
  let parts : list string := [] in
  let parts :=
    if show_play_button controls then
      let style := effective_style controls theme in
      if String.eqb style "shield" then
        append parts (_shield_button_html uid theme)
      else if String.eqb style "minimal" then
        append parts (_minimal_button_html uid theme)
      else append parts (_circle_button_html uid theme)
    else parts in
  let parts :=
    if show_time controls then
      append parts
        ("<span id=" ++ DQ ++ "time-" ++ uid ++ DQ ++ " style=" ++ DQ
    ++ "font-size: 0.72rem; font-weight: 500; color: "
    ++ (Theme.time_color theme)
    ++ "; font-variant-numeric: tabular-nums; letter-spacing: " ++ "0.02em;"
    ++ DQ ++ ">0:00 / 0:00</span>")
    else parts in
  let parts :=
    if show_volume controls then
      let accent :=
        match Theme.cursor_color theme with
        | Some ((String _ _) as c) => c
        | _ => "#6c63ff"
        end in
      append parts
        ("<input id=" ++ DQ ++ "volume-" ++ uid ++ DQ ++ " type=" ++ DQ ++ "range"
    ++ DQ ++ " min=" ++ DQ ++ "0" ++ DQ ++ " max=" ++ DQ ++ "1" ++ DQ
    ++ " step=" ++ DQ ++ "0.05" ++ DQ ++ " value=" ++ DQ ++ "1" ++ DQ
    ++ " style=" ++ DQ ++ "width: 80px; accent-color: " ++ accent ++ ";"
    ++ DQ ++ ">")
    else parts in
  let parts :=
    if show_playback_rate controls then
      append parts
        ("<select id=" ++ DQ ++ "rate-" ++ uid ++ DQ ++ " style=" ++ DQ
    ++ "background: transparent; color: " ++ (Theme.time_color theme)
    ++ "; border: 1px solid rgba(255,255,255,0.15); border-radius: "
    ++ "4px; padding: 2px 4px; font-size: 0.7rem;" ++ DQ ++ "><option value="
    ++ DQ ++ "0.5" ++ DQ ++ ">0.5x</option><option value=" ++ DQ ++ "0.75"
    ++ DQ ++ ">0.75x</option><option value=" ++ DQ ++ "1" ++ DQ
    ++ " selected>1x</option><option value=" ++ DQ ++ "1.25" ++ DQ
    ++ ">1.25x</option><option value=" ++ DQ ++ "1.5" ++ DQ
    ++ ">1.5x</option><option value=" ++ DQ ++ "2" ++ DQ
    ++ ">2x</option></select>")
    else parts in
  match parts with
  | [] => EmptyString
  | _ =>
    "<div id=" ++ DQ ++ "controls-" ++ uid ++ DQ ++ " style=" ++ DQ
    ++ "display: flex; align-items: center; gap: 14px; margin-top: "
    ++ "14px;" ++ DQ ++ ">" ++ join EmptyString parts ++ "</div>"
  end.

Definition build_controls_js (uid : string) (controls : t) (ws_var : string)
  : string :=
  let lines : list string := [
      "var fmt = function(s) { var m = Math.floor(s / 60); var sec "
      ++ "= Math.floor(s % 60); return m + " ++ DQ ++ ":" ++ DQ
      ++ " + (sec < 10 ? " ++ DQ ++ "0" ++ DQ ++ " : " ++ DQ ++ DQ
      ++ ") + sec;};" ] in
  let lines :=
    if show_play_button controls then
      extend lines [
      "var btn = document.getElementById(" ++ DQ ++ "play-" ++ uid ++ DQ
      ++ ");";
      "var iconEl = document.getElementById(" ++ DQ ++ "icon-" ++ uid ++ DQ
      ++ ");";
      "btn.addEventListener(" ++ DQ ++ "click" ++ DQ ++ ", function() { "
      ++ ws_var ++ ".playPause(); });";
      ws_var ++ ".on(" ++ DQ ++ "play" ++ DQ
      ++ ", function() { iconEl.innerHTML = " ++ DQ ++ "&#9646;&#9646;" ++ DQ
      ++ "; });";
      ws_var ++ ".on(" ++ DQ ++ "pause" ++ DQ
      ++ ", function() { iconEl.innerHTML = " ++ DQ ++ "&#9654;" ++ DQ
      ++ "; });" ]
    else lines in
  let lines :=
    if show_time controls then
      extend lines [
      "var timeEl = document.getElementById(" ++ DQ ++ "time-" ++ uid ++ DQ
      ++ ");";
      ws_var ++ ".on(" ++ DQ ++ "audioprocess" ++ DQ
      ++ ", function(t) { timeEl.textContent = fmt(t) + " ++ DQ ++ " / "
      ++ DQ ++ " + fmt(" ++ ws_var ++ ".getDuration()); });";
      ws_var ++ ".on(" ++ DQ ++ "ready" ++ DQ
      ++ ", function() { timeEl.textContent = " ++ DQ ++ "0:00 / " ++ DQ
      ++ " + fmt(" ++ ws_var ++ ".getDuration()); });" ]
    else lines in
  let lines :=
    if show_volume controls then
      extend lines [
      "var volEl = document.getElementById(" ++ DQ ++ "volume-" ++ uid ++ DQ
      ++ ");";
      "volEl.addEventListener(" ++ DQ ++ "input" ++ DQ ++ ", function() { "
      ++ ws_var ++ ".setVolume(parseFloat(this.value)); });" ]
    else lines in
  let lines :=
    if show_playback_rate controls then
      extend lines [
      "var rateEl = document.getElementById(" ++ DQ ++ "rate-" ++ uid ++ DQ
      ++ ");";
      "rateEl.addEventListener(" ++ DQ ++ "change" ++ DQ ++ ", function() { "
      ++ ws_var ++ ".setPlaybackRate(parseFloat(this.value)); });" ]
    else lines in
  join LF lines.

Definition controls_height (controls : t) : Z :=
  if negb (show_play_button controls || show_time controls
           || show_volume controls || show_playback_rate controls)
  then 0
  else 54.

End Controls.

(** ** [_events]: event handlers *)

Module EventHandler.
Import Py.

(** The parameters wavesurfer.js passes to the callback of each event. *)
Definition EVENT_PARAMS : dict (list string) :=
  [ ("audioprocess", ["currentTime"]);
    ("click", ["relativeX"; "relativeY"]);
    ("dblclick", ["relativeX"; "relativeY"]);
    ("decode", ["duration"]);
    ("destroy", []);
    ("drag", ["relativeX"]);
    ("dragend", ["relativeX"]);
    ("dragstart", ["relativeX"]);
    ("error", ["error"]);
    ("finish", []);
    ("init", []);
    ("interaction", ["newTime"]);
    ("load", ["url"]);
    ("loading", ["percent"]);
    ("pause", []);
    ("play", []);
    ("ready", ["duration"]);
    ("redraw", []);
    ("redrawcomplete", []);
    ("resize", []);
    ("scroll", ["visibleStartTime"; "visibleEndTime"; "scrollLeft"; "scrollRight"]);
    ("seeking", ["currentTime"]);
    ("timeupdate", ["currentTime"]);
    ("zoom", ["minPxPerSec"]) ].

Record t : Type := mk {
  event : string;
  js : string;
  once : bool
}.

Definition to_js (self : t) (ws_var : string) : string :=
  let params := dict_get_default EVENT_PARAMS (event self) [] in
  let param_list := join ", " params in
  let method := if once self then "once" else "on" in
  ws_var ++ "." ++ method ++ "(" ++ DQ ++ event self ++ DQ ++ ", function("
  ++ param_list ++ ") { " ++ js self ++ " });".

End EventHandler.

(** ** [_plugins]: plugin configurations *)

Module PluginConfig.
Import Py.

Record t : Type := mk {
  name : string;
  options : dict PyVal;
  js_source : option string
}.

Definition to_js_create (self : t) : string :=
  let opts :=
    match options self with
    | [] => "{}"
    | _ => json_dumps (VDict (options self))
    end in
  name self ++ ".create(" ++ opts ++ ")".

End PluginConfig.

(** ** [_html]: the markup and script of a player, and the iframe *)

Module Html.
Import Py.

Section with_bundle.

(** The text of [wavesurfer.min.js], read once when the module is
    imported; the file ships with the package and is not part of its
    Python source. *)
Variable _WAVESURFER_JS : string.

Definition _build_title_html (title : string) (theme : Theme.t) : string :=
  let marker :=
    match Theme.title_marker_color theme, Theme.title_marker_shape theme with
    | Some ((String _ _) as color), Some ((String _ _) as shape) =>
        "<span style=" ++ DQ
        ++ "width: 8px; height: 9px; flex-shrink: 0; background: " ++ color
        ++ "; clip-path: " ++ shape ++ ";" ++ DQ ++ "></span>"
    | _, _ => EmptyString
    end in
  let safe_title := html_escape title in
  "<div style=" ++ DQ ++ "font-size: " ++ Theme.title_font_size theme
  ++ "; font-weight: " ++ Theme.title_font_weight theme ++ "; color: "
  ++ Theme.title_color theme
  ++ "; margin-bottom: 14px; display: flex; align-items: center; "
  ++ "gap: 10px; font-family: " ++ Theme.font_family theme ++ ";" ++ DQ
  ++ ">" ++ marker ++ safe_title ++ "</div>".

Definition _build_container_html (uid : string) (title : option string)
  (theme : Theme.t) (controls_html : string) : string :=
  let accent :=
    match Theme.top_accent theme with
    | Some ((String _ _) as top_accent) =>
        "<div style=" ++ DQ
        ++ "position: absolute; top: 0; left: 0; right: 0; height: 2px; "
        ++ "background: " ++ top_accent ++ "; z-index: 1;" ++ DQ ++ "></div>"
    | _ => EmptyString
    end in
  let pattern :=
    match Theme.background_pattern theme with
    | Some ((String _ _) as background_pattern) =>
        "<div style=" ++ DQ
        ++ "position: absolute; inset: 0; background-image: "
        ++ background_pattern ++ "; pointer-events: none; z-index: 0;" ++ DQ
        ++ "></div>"
    | _ => EmptyString
    end in
  let title_html :=
    match title with
    | Some ((String _ _) as title) => _build_title_html title theme
    | _ => EmptyString
    end in
  let controls_section := controls_html in
  "<div id=" ++ DQ ++ "player-" ++ uid ++ DQ ++ " style=" ++ DQ
  ++ "background: " ++ Theme.background theme ++ "; border-radius: "
  ++ Theme.border_radius theme ++ "; padding: " ++ Theme.padding theme
  ++ "; border: " ++ Theme.border theme ++ "; font-family: "
  ++ Theme.font_family theme ++ "; margin-bottom: "
  ++ Theme.card_margin_bottom theme
  ++ "; position: relative; overflow: hidden;" ++ DQ ++ ">" ++ accent
  ++ pattern ++ "<div style=" ++ DQ ++ "position: relative; z-index: 1;"
  ++ DQ ++ ">" ++ title_html ++ "<div id=" ++ DQ ++ "waveform-" ++ uid ++ DQ
  ++ " style=" ++ DQ ++ "border-radius: 8px; overflow: hidden;" ++ DQ
  ++ "></div>" ++ controls_section ++ "</div></div>".

Definition _build_wavesurfer_js (uid url : string)
  (options : WaveSurferOptions.t) (events : option (list EventHandler.t))
  (plugins : option (list PluginConfig.t)) (controls_js : string) : string :=
  let js_opts := WaveSurferOptions.to_js_dict options in
  let js_opts := dict_set js_opts "container" (VStr ("#waveform-" ++ uid)) in
  let js_opts := dict_set js_opts "url" (VStr url) in
  let js_opts := dict_setdefault js_opts "hideScrollbar" (VBool true) in
  let js_opts := dict_setdefault js_opts "cursorWidth" (VInt 2) in
  let opts_json := json_dumps (VDict js_opts) in
  let lines : list string := [
      "(function() {";
      "  var ws = WaveSurfer.create(" ++ opts_json ++ ");" ] in
  let lines :=
    match plugins with
    | Some ((_ :: _) as plugins) =>
        fold_left
          (fun lines plugin =>
             append lines
               ("  ws.registerPlugin(" ++ PluginConfig.to_js_create plugin ++ ");"))
          plugins lines
    | _ => lines
    end in
  let lines :=
    match events with
    | Some ((_ :: _) as events) =>
        fold_left
          (fun lines handler =>
             append lines ("  " ++ EventHandler.to_js handler "ws"))
          events lines
    | _ => lines
    end in
  let lines :=
    match controls_js with
    | String _ _ =>
        fold_left (fun lines line => append lines ("  " ++ line))
          (split_char "010" controls_js) lines
    | EmptyString => lines
    end in
  let lines := append lines "})();" in
  join LF lines.

Definition build_player_html (uid url : string) (title : option string)
  (options : WaveSurferOptions.t) (theme : Theme.t) (controls : Controls.t)
  (events : option (list EventHandler.t))
  (plugins : option (list PluginConfig.t)) : string :=
  let controls_html := Controls.build_controls_html uid controls theme in
  let controls_js := Controls.build_controls_js uid controls "ws" in
  let container := _build_container_html uid title theme controls_html in
  let js_block :=
    _build_wavesurfer_js uid url options events plugins controls_js in
  container ++ LF ++ "<script>" ++ LF ++ js_block ++ LF ++ "</script>".

(** The parameters of [wrap_in_iframe], as its [def] names them. *)
Definition wrap_in_iframe_params : list string := ["body_html"; "height"].

Definition wrap_in_iframe (body_html : string) (height : Z) : string :=
  let full_page :=
    "<!DOCTYPE html><html><head><style>body { margin: 0; "
    ++ "background: transparent; }</style><script>" ++ _WAVESURFER_JS
    ++ "</script></head><body>" ++ body_html ++ "</body></html>" in
  let escaped := html_escape full_page in
  "<iframe srcdoc=" ++ DQ ++ escaped ++ DQ ++ " style=" ++ DQ
  ++ "width: 100%; height: " ++ int_str height
  ++ "px; border: none; overflow: hidden;" ++ DQ ++ " allow=" ++ DQ
  ++ "autoplay" ++ DQ ++ "></iframe>".

(** The parameters of [estimate_player_height], as its [def] names
    them. *)
Definition estimate_player_height_params : list string :=
  ["title"; "theme"; "controls"].

Definition estimate_player_height (title : option string) (theme : Theme.t)
  (controls : Controls.t) : Z :=
  let padding_v := 40 in
  let title_h := if truthy title then 28 + 14 else 0 in
  let waveform_h :=
    match Theme.height theme with
    | Some h => if Z.eqb h 0 then 80 else h
    | None => 80
    end in
  let ctrl_h := Controls.controls_height controls in
  let margin := 8 in
  padding_v + title_h + waveform_h + ctrl_h + margin.

End with_bundle.

End Html.

(** ** [_audio]: from an audio input to a URL *)

Module Audio.
Import Py.

(** The collaborators of the module, which the package only calls:
    numpy arrays and torch tensors, [soundfile] and [base64].
    - [_torch_to_numpy t] is [t.detach().cpu().float().numpy()], or
      the exception it raises for a tensor that has no array form;
    - [sf_write a sr] is the content of the buffer after
      [sf.write(file=buf, data=a, samplerate=sr, format="WAV",
      subtype="PCM_16")], or the exception the call raises for data or
      a rate the library refuses;
    - [sf_read path] is [sf.read(file=path, dtype="float32")] with the
      rate made an [int], or the exception it raises for a file that
      is missing or cannot be decoded;
    - [b64encode b] is [base64.b64encode(b).decode("ascii")]. *)
Class Codec : Type := {
  ndarray : Type;
  tensor : Type;
  _torch_to_numpy : tensor -> result ndarray;
  sf_write : ndarray -> Z -> result string;
  sf_read : string -> result (ndarray * Z);
  b64encode : string -> string
}.

Section with_codec.
Context `{Codec}.

(** What a caller can pass as [audio], told apart the way
    [resolve_audio] tells it apart.  A [Path] is held by its [str];
    any other object by [type(audio).__name__]. *)
Inductive AudioInput : Type :=
| AudioArray (a : ndarray)
| AudioTensor (t : tensor)
| AudioStr (s : string)
| AudioPath (path_str : string)
| AudioOther (type_name : string).

Definition audio_to_data_url (audio : ndarray) (sr : Z) : result string :=
  bind (sf_write audio sr) (fun buf =>
  let b64 := b64encode buf in
  Ok ("data:audio/wav;base64," ++ b64)).

Definition load_audio_file (path : string) : result (ndarray * Z) :=
  sf_read path.

(** The dash of the error message, U+2014, in UTF-8. *)
Definition EM_DASH : string :=
  String "226" (String "128" (String "148" EmptyString)).

Definition type_name (audio : AudioInput) : string :=
  match audio with
  | AudioArray _ => "ndarray"
  | AudioTensor _ => "Tensor"
  | AudioStr _ => "str"
  | AudioPath _ => "PosixPath"
  | AudioOther name => name
  end.

Definition resolve_audio (audio : AudioInput) (sr : option Z)
  : result (string * option Z) :=
  bind
    match audio with
    | AudioTensor t => bind (_torch_to_numpy t) (fun a => Ok (AudioArray a))
    | _ => Ok audio
    end
    (fun audio =>
  match audio with
  | AudioArray a =>
      match sr with
      | None =>
          Raise (ValueError
                   "sr (sample rate) is required when passing a numpy array")
      | Some sr =>
          bind (audio_to_data_url a sr) (fun url => Ok (url, Some sr))
      end
  | AudioStr path_str | AudioPath path_str =>
      if startswith_any ["http://"; "https://"] path_str then Ok (path_str, sr)
      else
        bind (load_audio_file path_str)
          (fun r =>
             let (data, file_sr) := r in
             bind (audio_to_data_url data file_sr)
               (fun url => Ok (url, Some file_sr)))
  | _ =>
      Raise (TypeError
               ("audio must be a numpy array, torch tensor, file path, "
                ++ "or URL string " ++ EM_DASH ++ " got " ++ type_name audio))
  end).

End with_codec.

End Audio.

(** ** [_core]: the player *)

Module WaveSurfer.
Import Py Audio.

Section with_world.
Context `{Codec} `{Unicode}.

(** The text of [wavesurfer.min.js] (see [Html]). *)
Variable _WAVESURFER_JS : string.

(** [uuid.uuid4().hex], for the [n]-th identifier the process draws.
    The functions that draw identifiers take the number drawn so far
    and return the new number with their result. *)
Variable uuid4_hex : nat -> string.

Record t : Type := mk {
  audio : AudioInput;
  sr : option Z;
  title : option string;
  theme : Theme.t;
  controls : Controls.t;
  events : list EventHandler.t;
  plugins : list PluginConfig.t;
  _extra_options : dict PyVal
}.

(** [l or None] *)
Definition or_None {A : Type} (l : list A) : option (list A) :=
  match l with
  | [] => None
  | _ => Some l
  end.

(** The constructor.  It resolves [theme] against the module-level
    registry, passed here in the state [themes] it has at the call. *)
Definition __init__ (themes : ThemeRegistry.t) (audio : AudioInput)
  (sr : option Z) (title : option string) (theme : ThemeRegistry.ThemeArg)
  (controls : option Controls.t) (events : option (list EventHandler.t))
  (plugins : option (list PluginConfig.t)) (on_ready : option string)
  (options : dict PyVal) : result t :=
  bind (ThemeRegistry.resolve themes theme) (fun theme =>
  let controls :=
    match controls with
    | Some c => c
    | None => Controls.default
    end in
  let events :=
    match events with
    | Some ((_ :: _) as l) => l
    | _ => []
    end in
  let plugins :=
    match plugins with
    | Some ((_ :: _) as l) => l
    | _ => []
    end in
  let events :=
    match on_ready with
    | Some ((String _ _) as on_ready) =>
        append events
          {| EventHandler.event := "ready";
             EventHandler.js := on_ready;
             EventHandler.once := true |}
    | _ => events
    end in
  Ok {| audio := audio; sr := sr; title := title; theme := theme;
        controls := controls; events := events; plugins := plugins;
        _extra_options := options |}).

Definition _build_options (self : t) : result WaveSurferOptions.t :=
  let merged := Theme.waveform_overrides (theme self) in
  let merged := dict_update merged (_extra_options self) in
  WaveSurferOptions.from_kwargs merged.

(** [uuid.uuid4().hex[:12]] *)
Definition fresh_uid (drawn : nat) : string * nat :=
  (String.substring 0 12 (uuid4_hex drawn), S drawn).

Definition to_html (self : t) (drawn : nat) : result (string * nat) :=
  bind (resolve_audio (audio self) (sr self)) (fun r =>
  let (url, _sr) := r in
  let (uid, drawn) := fresh_uid drawn in
  bind (_build_options self) (fun options =>
  let player :=
    Html.build_player_html uid url (title self) options (theme self)
      (controls self) (or_None (events self)) (or_None (plugins self)) in
  bind
    (call_kw "estimate_player_height" Html.estimate_player_height_params
       ["title"; "theme"; "controls"; "options"; "plugins"]
       (Ok (Html.estimate_player_height (title self) (theme self)
              (controls self))))
    (fun height =>
  let plugin_names :=
    match plugins self with
    | [] => None
    | ps => Some (map (fun p => lower (PluginConfig.name p)) ps)
    end in
  bind
    (call_kw "wrap_in_iframe" Html.wrap_in_iframe_params
       ["body_html"; "height"; "plugin_names"]
       (Ok (Html.wrap_in_iframe _WAVESURFER_JS player height)))
    (fun html => Ok (html, drawn))))).

Definition _repr_html_ (self : t) (drawn : nat) : result (string * nat) :=
  to_html self drawn.

End with_world.

End WaveSurfer.

(** ** [_layouts]: several players in one iframe *)

Module Layouts.
Import Py Audio.

(** The display wrapper [_core._CompareResult]. *)
Record _CompareResult : Type := mk_CompareResult { _html : string }.

Definition _repr_html_ (self : _CompareResult) : string := _html self.

Section with_world.
Context `{Codec}.
Variable _WAVESURFER_JS : string.
Variable uuid4_hex : nat -> string.

(** The state of the loop over the players. *)
Record loop_state : Type := mk_loop {
  cards : list string;
  max_card_height : Z;
  n_drawn : nat
}.

(** One turn of the loop. *)
Definition loop_body (st : loop_state) (player : WaveSurfer.t)
  : result loop_state :=
  bind (resolve_audio (WaveSurfer.audio player) (WaveSurfer.sr player))
    (fun r =>
  let (url, _sr) := r in
  let (uid, drawn) := WaveSurfer.fresh_uid uuid4_hex (n_drawn st) in
  bind (WaveSurfer._build_options player) (fun options =>
  let card :=
    Html.build_player_html uid url (WaveSurfer.title player) options
      (WaveSurfer.theme player) (WaveSurfer.controls player)
      (WaveSurfer.or_None (WaveSurfer.events player))
      (WaveSurfer.or_None (WaveSurfer.plugins player)) in
  let cards := append (cards st) card in
  bind
    (call_kw "estimate_player_height" Html.estimate_player_height_params
       ["title"; "theme"; "controls"]
       (Ok (Html.estimate_player_height (WaveSurfer.title player)
              (WaveSurfer.theme player) (WaveSurfer.controls player))))
    (fun h =>
  let max_card_height :=
    if Z.ltb (max_card_height st) h then h else max_card_height st in
  Ok {| cards := cards; max_card_height := max_card_height;
        n_drawn := drawn |}))).

Fixpoint loop (players : list WaveSurfer.t) (st : loop_state)
  : result loop_state :=
  match players with
  | [] => Ok st
  | player :: players => bind (loop_body st player) (loop players)
  end.

Definition compare (players : list WaveSurfer.t) (columns : Z) (drawn : nat)
  : result (_CompareResult * nat) :=
  bind (loop players {| cards := []; max_card_height := 0; n_drawn := drawn |})
    (fun st =>
  let cards := cards st in
  let max_card_height := max_card_height st in
  let '(grid_style, total_height) :=
    if Z.ltb 1 columns then
      let grid_style :=
        "display: grid; grid-template-columns: repeat(" ++ int_str columns
        ++ ", 1fr); gap: 8px;" in
      let rows := - (- Z.of_nat (List.length cards) / columns) in
      (grid_style, rows * max_card_height + 8)
    else
      ("display: grid; gap: 8px;", Z.of_nat (List.length cards) * max_card_height) in
  let body :=
    "<div style=" ++ DQ ++ grid_style ++ DQ ++ ">" ++ join EmptyString cards ++ "</div>" in
  bind
    (call_kw "wrap_in_iframe" Html.wrap_in_iframe_params
       ["body_html"; "height"]
       (Ok (Html.wrap_in_iframe _WAVESURFER_JS body total_height)))
    (fun iframe => Ok ({| _html := iframe |}, n_drawn st))).

Definition grid (players : list WaveSurfer.t) (columns : Z) (drawn : nat)
  : result (_CompareResult * nat) :=
  compare players columns drawn.

End with_world.

End Layouts.

(** * Notions used to state the properties *)

Module Notions.
Import Py.

(** The wire name of an option field and whether the field has a
    value, as [to_js_dict] computes them. *)
Definition camel (f_name : string) : string :=
  dict_get_default WaveSurferOptions._SNAKE_TO_CAMEL f_name f_name.

Definition present (self : WaveSurferOptions.t) (f_name : string) : bool :=
  negb (is_None (WaveSurferOptions.getattr self f_name)).

(** White space between the tokens of JSON and of JavaScript. *)
Fixpoint skip_ws (s : string) : string :=
  match s with
  | String a s' =>
      if existsb (Ascii.eqb a) [" "; "009"; "010"; "013"]%char then skip_ws s'
      else s
  | EmptyString => EmptyString
  end.

(** A condition every JSON object and every JavaScript object literal
    meets: the text opens with a brace, and what follows the brace,
    after white space, is not a comma (a member or the closing brace
    comes first). *)
Definition object_opens_well (s : string) : bool :=
  match s with
  | String "{" rest =>
      match skip_ws rest with
      | String "," _ => false
      | _ => true
      end
  | _ => false
  end.

(** No ["<"] of the text has an ["s"] right after it. *)
Fixpoint no_lt_s (s : string) : bool :=
  match s with
  | EmptyString => true
  | String a s' =>
      negb (Ascii.eqb a "<"
            && match s' with
               | String b _ => Ascii.eqb b "s"
               | EmptyString => false
               end)
      && no_lt_s s'
  end.

(** The title of the escaping test. *)
Definition xss_title : string :=
  "<script>alert(" ++ DQ ++ "xss" ++ DQ ++ ")</script>".

(** The registry keeps its default registered. *)
Definition default_registered (self : ThemeRegistry.t) : Prop :=
  is_Some (ThemeRegistry._themes self !! ThemeRegistry._default self).

Section with_world.
Context `{Audio.Codec}.
Variable uuid4_hex : nat -> string.

(** The estimated height of the card of a player, and the card itself
    when the audio resolved to [url] and [drawn] identifiers had been
    drawn before. *)
Definition height_of (player : WaveSurfer.t) : Z :=
  Html.estimate_player_height (WaveSurfer.title player)
    (WaveSurfer.theme player) (WaveSurfer.controls player).

(** A player whose option set can be built: it was not given the
    keyword [cls]. *)
Definition buildable (player : WaveSurfer.t) : Prop :=
  dict_contains (WaveSurfer._extra_options player) "cls" = false.

(** The option set of a player that is [buildable]. *)
Definition options_of (player : WaveSurfer.t) : WaveSurferOptions.t :=
  match WaveSurfer._build_options player with
  | Ok options => options
  | Raise _ => WaveSurferOptions.default
  end.

Definition card_of (player : WaveSurfer.t) (url : string) (drawn : nat)
  : string :=
  Html.build_player_html (fst (WaveSurfer.fresh_uid uuid4_hex drawn)) url
    (WaveSurfer.title player) (options_of player)
    (WaveSurfer.theme player) (WaveSurfer.controls player)
    (WaveSurfer.or_None (WaveSurfer.events player))
    (WaveSurfer.or_None (WaveSurfer.plugins player)).

Fixpoint cards_of (players : list WaveSurfer.t) (urls : list string)
  (drawn : nat) : list string :=
  match players, urls with
  | player :: players, url :: urls =>
      card_of player url drawn :: cards_of players urls (S drawn)
  | _, _ => []
  end.

(** Each player can be rendered: its audio resolves, to the URL of
    the same rank, and its option set can be built. *)
Definition all_render (players : list WaveSurfer.t) (urls : list string)
  : Prop :=
  Forall2
    (fun player url =>
       (exists rate,
          Audio.resolve_audio (WaveSurfer.audio player) (WaveSurfer.sr player)
          = Ok (url, rate))
       /\ buildable player)
    players urls.

End with_world.

End Notions.

(** * Examples: concrete option sets, registries and players *)

Module Examples.
Import Py.

(** [WaveSurferOptions(bar_width=3, height=80, normalize=True)] *)
Definition three_set : WaveSurferOptions.t :=
  WaveSurferOptions.of_dict
    [("bar_width", VInt 3); ("height", VInt 80); ("normalize", VBool true)].

Definition with_render_function : WaveSurferOptions.t :=
  WaveSurferOptions.of_dict
    [("bar_width", VInt 3);
     ("render_function",
      VStr "function(peaks, ctx) { ctx.fillRect(0,0,100,100); }")].

Definition render_function_alone : WaveSurferOptions.t :=
  WaveSurferOptions.of_dict [("render_function", VStr "function(a) {}")].

Definition unknown_handler : EventHandler.t :=
  {| EventHandler.event := "bogus";
     EventHandler.js := "console.log(1);";
     EventHandler.once := false |}.

(** A registry with one theme registered and the default it was
    created with. *)
Definition only_custom : ThemeRegistry.t :=
  {| ThemeRegistry._themes := <["custom" := Theme.default]> ∅;
     ThemeRegistry._default := "dark" |}.

(** Stand-ins for the collaborators, enough to run the examples:
    arrays are lists of samples, no file can be read, and the encoder
    gives the same four bytes for every array. *)
Definition demo_codec : Audio.Codec :=
  {| Audio.ndarray := list Z;
     Audio.tensor := list Z;
     Audio._torch_to_numpy := fun t => Ok t;
     Audio.sf_write := fun _ _ => Ok "RIFF";
     Audio.sf_read := fun path => Raise (LibraryError ("Error opening " ++ path));
     Audio.b64encode := fun _ => "UklGRg==" |}.

(** The same, with a writer that refuses a rate that is not positive,
    as the one of [soundfile] does. *)
Definition strict_codec : Audio.Codec :=
  {| Audio.ndarray := list Z;
     Audio.tensor := list Z;
     Audio._torch_to_numpy := fun t => Ok t;
     Audio.sf_write :=
       fun _ sr =>
         if Z.leb sr 0 then
           Raise (LibraryError "Error opening <_io.BytesIO>: Format not recognised.")
         else Ok "RIFF";
     Audio.sf_read := fun path => Raise (LibraryError ("Error opening " ++ path));
     Audio.b64encode := fun _ => "UklGRg==" |}.

(** A stand-in for the Unicode database: right on Latin-1, where the
    controls of the upper half, the no-break space and the soft hyphen
    are not printable; everything beyond is taken printable. *)
#[export] Instance demo_unicode : Unicode :=
  {| isprintable := fun cp => negb ((cp <? 161) || (cp =? 173))%N |}.

Definition demo_js : string := "var WaveSurfer = {};".

Definition demo_uuid4_hex (n : nat) : string :=
  "0123456789abcdef0123456789abcde" ++ int_str (Z.of_nat n mod 10).

(** [WaveSurfer(audio="https://example.com/audio.wav", title=title,
    theme=theme)] *)
Definition url_player (title : option string) (theme : Theme.t)
  : @WaveSurfer.t demo_codec :=
  {| WaveSurfer.audio := Audio.AudioStr "https://example.com/audio.wav";
     WaveSurfer.sr := None;
     WaveSurfer.title := title;
     WaveSurfer.theme := theme;
     WaveSurfer.controls := Controls.default;
     WaveSurfer.events := [];
     WaveSurfer.plugins := [];
     WaveSurfer._extra_options := [] |}.

(** [DARK.replace(height=-200)] *)
Definition sunken_theme : Theme.t :=
  {| Theme.wave_color := Theme.wave_color Theme.DARK;
     Theme.progress_color := Theme.progress_color Theme.DARK;
     Theme.cursor_color := Theme.cursor_color Theme.DARK;
     Theme.bar_width := Theme.bar_width Theme.DARK;
     Theme.bar_gap := Theme.bar_gap Theme.DARK;
     Theme.bar_radius := Theme.bar_radius Theme.DARK;
     Theme.height := Some (-200);
     Theme.background := Theme.background Theme.DARK;
     Theme.border := Theme.border Theme.DARK;
     Theme.border_radius := Theme.border_radius Theme.DARK;
     Theme.padding := Theme.padding Theme.DARK;
     Theme.font_family := Theme.font_family Theme.DARK;
     Theme.title_color := Theme.title_color Theme.DARK;
     Theme.title_font_size := Theme.title_font_size Theme.DARK;
     Theme.title_font_weight := Theme.title_font_weight Theme.DARK;
     Theme.title_marker_color := Theme.title_marker_color Theme.DARK;
     Theme.title_marker_shape := Theme.title_marker_shape Theme.DARK;
     Theme.play_button_style := Theme.play_button_style Theme.DARK;
     Theme.play_button_color := Theme.play_button_color Theme.DARK;
     Theme.play_button_bg := Theme.play_button_bg Theme.DARK;
     Theme.play_button_hover_glow := Theme.play_button_hover_glow Theme.DARK;
     Theme.time_color := Theme.time_color Theme.DARK;
     Theme.top_accent := Theme.top_accent Theme.DARK;
     Theme.background_pattern := Theme.background_pattern Theme.DARK;
     Theme.card_margin_bottom := Theme.card_margin_bottom Theme.DARK |}.

End Examples.

(** * More of the package *)

(** ** [_events]: the factory class methods *)

Module EventFactories.
Import Py.

Definition on_audioprocess (js : string) (once : bool) : EventHandler.t :=
  {| EventHandler.event := "audioprocess"; EventHandler.js := js;
     EventHandler.once := once |}.

Definition on_click (js : string) (once : bool) : EventHandler.t :=
  {| EventHandler.event := "click"; EventHandler.js := js;
     EventHandler.once := once |}.

Definition on_dblclick (js : string) (once : bool) : EventHandler.t :=
  {| EventHandler.event := "dblclick"; EventHandler.js := js;
     EventHandler.once := once |}.

Definition on_decode (js : string) (once : bool) : EventHandler.t :=
  {| EventHandler.event := "decode"; EventHandler.js := js;
     EventHandler.once := once |}.

Definition on_destroy (js : string) (once : bool) : EventHandler.t :=
  {| EventHandler.event := "destroy"; EventHandler.js := js;
     EventHandler.once := once |}.

Definition on_drag (js : string) (once : bool) : EventHandler.t :=
  {| EventHandler.event := "drag"; EventHandler.js := js;
     EventHandler.once := once |}.

Definition on_dragend (js : string) (once : bool) : EventHandler.t :=
  {| EventHandler.event := "dragend"; EventHandler.js := js;
     EventHandler.once := once |}.

Definition on_dragstart (js : string) (once : bool) : EventHandler.t :=
  {| EventHandler.event := "dragstart"; EventHandler.js := js;
     EventHandler.once := once |}.

Definition on_error (js : string) (once : bool) : EventHandler.t :=
  {| EventHandler.event := "error"; EventHandler.js := js;
     EventHandler.once := once |}.

Definition on_finish (js : string) (once : bool) : EventHandler.t :=
  {| EventHandler.event := "finish"; EventHandler.js := js;
     EventHandler.once := once |}.

Definition on_init (js : string) (once : bool) : EventHandler.t :=
  {| EventHandler.event := "init"; EventHandler.js := js;
     EventHandler.once := once |}.

Definition on_interaction (js : string) (once : bool) : EventHandler.t :=
  {| EventHandler.event := "interaction"; EventHandler.js := js;
     EventHandler.once := once |}.

Definition on_load (js : string) (once : bool) : EventHandler.t :=
  {| EventHandler.event := "load"; EventHandler.js := js;
     EventHandler.once := once |}.

Definition on_loading (js : string) (once : bool) : EventHandler.t :=
  {| EventHandler.event := "loading"; EventHandler.js := js;
     EventHandler.once := once |}.

Definition on_pause (js : string) (once : bool) : EventHandler.t :=
  {| EventHandler.event := "pause"; EventHandler.js := js;
     EventHandler.once := once |}.

Definition on_play (js : string) (once : bool) : EventHandler.t :=
  {| EventHandler.event := "play"; EventHandler.js := js;
     EventHandler.once := once |}.

Definition on_ready (js : string) (once : bool) : EventHandler.t :=
  {| EventHandler.event := "ready"; EventHandler.js := js;
     EventHandler.once := once |}.

Definition on_redraw (js : string) (once : bool) : EventHandler.t :=
  {| EventHandler.event := "redraw"; EventHandler.js := js;
     EventHandler.once := once |}.

Definition on_redrawcomplete (js : string) (once : bool) : EventHandler.t :=
  {| EventHandler.event := "redrawcomplete"; EventHandler.js := js;
     EventHandler.once := once |}.

Definition on_resize (js : string) (once : bool) : EventHandler.t :=
  {| EventHandler.event := "resize"; EventHandler.js := js;
     EventHandler.once := once |}.

Definition on_scroll (js : string) (once : bool) : EventHandler.t :=
  {| EventHandler.event := "scroll"; EventHandler.js := js;
     EventHandler.once := once |}.

Definition on_seeking (js : string) (once : bool) : EventHandler.t :=
  {| EventHandler.event := "seeking"; EventHandler.js := js;
     EventHandler.once := once |}.

Definition on_timeupdate (js : string) (once : bool) : EventHandler.t :=
  {| EventHandler.event := "timeupdate"; EventHandler.js := js;
     EventHandler.once := once |}.

Definition on_zoom (js : string) (once : bool) : EventHandler.t :=
  {| EventHandler.event := "zoom"; EventHandler.js := js;
     EventHandler.once := once |}.

(** The factories, in the order the class declares them. *)
Definition factories : list (string -> bool -> EventHandler.t) :=
  [ on_audioprocess; on_click; on_dblclick; on_decode; on_destroy;
    on_drag; on_dragend; on_dragstart; on_error; on_finish;
    on_init; on_interaction; on_load; on_loading; on_pause;
    on_play; on_ready; on_redraw; on_redrawcomplete; on_resize;
    on_scroll; on_seeking; on_timeupdate; on_zoom ].

End EventFactories.

(** ** [_core]: the builder methods *)

Module Builders.
Import Py Audio.

(** Truth of a value: [bool(v)]. *)
Definition truthy_val (v : PyVal) : bool :=
  match v with
  | VNone => false
  | VBool b => b
  | VInt z => negb (Z.eqb z 0)
  | VFloat (FRepr r) => negb (String.eqb r "0.0" || String.eqb r "-0.0")
  | VFloat _ => true
  | VStr s => negb (String.eqb s EmptyString)
  | VList l => match l with [] => false | _ => true end
  | VDict d => match d with [] => false | _ => true end
  end.

Section with_codec.
Context `{Codec} `{Unicode}.

(** The parameters the builders pass by keyword to the constructor. *)
Definition passed_by_keyword : list string :=
  ["audio"; "sr"; "title"; "theme"; "controls"; "events"; "plugins"].

(** The call [WaveSurfer(audio=.., sr=.., title=.., theme=..,
    controls=.., events=.., plugins=.., **opts)] of the builders.
    A key of [opts] that is also passed by keyword is an error of the
    call (worded as CPython 3.11 words it); the key [on_ready] binds
    the parameter of that name, and a handler keeps its [js] only to
    format it, so a value that is not a text is kept by its [str];
    the other keys are what the constructor collects as options. *)
Definition construct (themes : ThemeRegistry.t) (audio : AudioInput)
  (sr : option Z) (title : option string) (theme : ThemeRegistry.ThemeArg)
  (controls : Controls.t) (events : list EventHandler.t)
  (plugins : list PluginConfig.t) (opts : dict PyVal)
  : result WaveSurfer.t :=
  match
    find (fun k => existsb (String.eqb k) passed_by_keyword) (dict_keys opts)
  with
  | Some k =>
      Raise (TypeError
               ("wavesurf._core.WaveSurfer() got multiple values for "
                ++ "keyword argument '" ++ k ++ "'"))
  | None =>
      let on_ready :=
        match dict_get opts "on_ready" with
        | Some v => if truthy_val v then Some (str v) else None
        | None => None
        end in
      let options := dict_remove opts "on_ready" in
      WaveSurfer.__init__ themes audio sr title theme (Some controls)
        (Some events) (Some plugins) on_ready options
  end.

(** [{**a, **b}] *)
Definition dict_merge {V : Type} (a b : dict V) : dict V := dict_update a b.

(** [with_options] called with the keywords [kwargs]; a keyword named
    [self] is an error of this call. *)
Definition with_options (themes : ThemeRegistry.t) (self : WaveSurfer.t)
  (kwargs : dict PyVal) : result WaveSurfer.t :=
  if dict_contains kwargs "self" then
    Raise (TypeError
             "WaveSurfer.with_options() got multiple values for argument 'self'")
  else
  let new_opts := dict_merge (WaveSurfer._extra_options self) kwargs in
  construct themes (WaveSurfer.audio self) (WaveSurfer.sr self)
    (WaveSurfer.title self) (ThemeRegistry.ArgTheme (WaveSurfer.theme self))
    (WaveSurfer.controls self) (WaveSurfer.events self)
    (WaveSurfer.plugins self) new_opts.

(** [theme] is a [Theme] or a name, not [None]. *)
Definition with_theme (themes : ThemeRegistry.t) (self : WaveSurfer.t)
  (theme : Theme.t + string) : result WaveSurfer.t :=
  let theme :=
    match theme with
    | inl theme => ThemeRegistry.ArgTheme theme
    | inr name => ThemeRegistry.ArgName name
    end in
  construct themes (WaveSurfer.audio self) (WaveSurfer.sr self)
    (WaveSurfer.title self) theme (WaveSurfer.controls self)
    (WaveSurfer.events self) (WaveSurfer.plugins self)
    (WaveSurfer._extra_options self).

Definition with_events (themes : ThemeRegistry.t) (self : WaveSurfer.t)
  (handlers : list EventHandler.t) : result WaveSurfer.t :=
  construct themes (WaveSurfer.audio self) (WaveSurfer.sr self)
    (WaveSurfer.title self) (ThemeRegistry.ArgTheme (WaveSurfer.theme self))
    (WaveSurfer.controls self)
    (WaveSurfer.events self ++ handlers)%list (WaveSurfer.plugins self)
    (WaveSurfer._extra_options self).

Definition with_plugins (themes : ThemeRegistry.t) (self : WaveSurfer.t)
  (configs : list PluginConfig.t) : result WaveSurfer.t :=
  construct themes (WaveSurfer.audio self) (WaveSurfer.sr self)
    (WaveSurfer.title self) (ThemeRegistry.ArgTheme (WaveSurfer.theme self))
    (WaveSurfer.controls self) (WaveSurfer.events self)
    (WaveSurfer.plugins self ++ configs)%list
    (WaveSurfer._extra_options self).

End with_codec.

End Builders.

(** ** More notions *)

Module MoreNotions.
Import Py.

(** The options [_build_wavesurfer_js] passes to [WaveSurfer.create]. *)
Definition player_js_opts (uid url : string) (options : WaveSurferOptions.t)
  : dict PyVal :=
  let js_opts := WaveSurferOptions.to_js_dict options in
  let js_opts := dict_set js_opts "container" (VStr ("#waveform-" ++ uid)) in
  let js_opts := dict_set js_opts "url" (VStr url) in
  let js_opts := dict_setdefault js_opts "hideScrollbar" (VBool true) in
  dict_setdefault js_opts "cursorWidth" (VInt 2).

(** The registries a program can reach from the module-level one by
    calls of [register] and [enable] that return. *)
Inductive reachable `{Unicode} : ThemeRegistry.t -> Prop :=
| reach_themes : reachable ThemeRegistry.themes
| reach_register (r r' : ThemeRegistry.t) (name : string)
    (theme : ThemeRegistry.PyObj) :
    reachable r -> ThemeRegistry.register r name theme = Ok r' -> reachable r'
| reach_enable (r r' : ThemeRegistry.t) (name : string) :
    reachable r -> ThemeRegistry.enable r name = Ok r' -> reachable r'.

(** The keys of a dictionary are distinct, as those of a [dict] are. *)
Definition well_formed {V : Type} (d : dict V) : Prop :=
  List.NoDup (dict_keys d).

(** No control is shown. *)
Definition no_controls (c : Controls.t) : bool :=
  negb (Controls.show_play_button c || Controls.show_time c
        || Controls.show_volume c || Controls.show_playback_rate c).

(** The order of [sorted] on texts. *)
Definition str_le (a b : string) : Prop := String.leb a b = true.

(** The names of the fields of a theme that describe the waveform. *)
Definition waveform_names : list string :=
  ["wave_color"; "progress_color"; "cursor_color"; "bar_width"; "bar_gap";
   "bar_radius"; "height"].

(** The opening of an element with the identifier of a control:
    [<tag id="kind-uid"]. *)
Definition element_id (tag kind uid : string) : string :=
  "<" ++ tag ++ " id=" ++ DQ ++ kind ++ "-" ++ uid ++ DQ.

(** The look-up of that element in the script:
    [document.getElementById("kind-uid")]. *)
Definition element_lookup (kind uid : string) : string :=
  "document.getElementById(" ++ DQ ++ kind ++ "-" ++ uid ++ DQ ++ ")".

(** [Controls(show_play_button=False, show_time=False)]: nothing
    shown. *)
Definition hidden_controls : Controls.t :=
  {| Controls.show_play_button := false;
     Controls.show_time := false;
     Controls.show_volume := false;
     Controls.show_playback_rate := false;
     Controls.play_button_style := None;
     Controls.layout := "bottom" |}.

(** The characters [html.escape] replaces. *)
Definition html_special : list ascii := ["&"; "<"; ">"; "034"; "'"]%char.

(** The names the constructor binds to a parameter of its own: a
    keyword with one of them never reaches the options. *)
Definition bound_names : list string :=
  ["audio"; "sr"; "title"; "theme"; "controls"; "events"; "plugins";
   "on_ready"].

(** Options as the constructor collects them. *)
Definition plain_options {V : Type} (d : dict V) : Prop :=
  forall k, In k bound_names -> ~ In k (dict_keys d).

(** The handler the constructor makes of [on_ready]. *)
Definition ready_handler (js : string) : EventHandler.t :=
  {| EventHandler.event := "ready";
     EventHandler.js := js;
     EventHandler.once := true |}.

(** The handlers a value passed as [on_ready] adds: one, when the
    value is true and its text is not empty. *)
Definition ready_handlers `{Unicode} (v : option PyVal)
  : list EventHandler.t :=
  match v with
  | Some v =>
      if Builders.truthy_val v then
        match str v with
        | String _ _ => [ready_handler (str v)]
        | EmptyString => []
        end
      else []
  | None => []
  end.

(** The body [compare] wraps: the cards in one container. *)
Definition grid_body (grid_style : string) (cards : list string) : string :=
  "<div style=" ++ DQ ++ grid_style ++ DQ ++ ">" ++ join EmptyString cards
  ++ "</div>".

End MoreNotions.

(** * Properties *)

(** ** Dictionaries and texts *)

Module PyFacts.
Import Py.

(** Membership of a given element in a given list. *)
Ltac in_list := simpl; repeat (first [left; reflexivity | right]).

Lemma dict_get_not_in {V : Type} (d : dict V) (k : string) :
  ~ In k (dict_keys d) -> dict_get d k = None.
Proof.
  induction d as [|[k' v] d IH]; simpl; intros Hn; [reflexivity|].
  destruct (String.eqb_spec k' k) as [->|Hne].
  - exfalso. apply Hn. now left.
  - apply IH. intros Hin. apply Hn. now right.
Qed.

Lemma dict_get_in {V : Type} (d : dict V) (k : string) (v : V) :
  dict_get d k = Some v -> In k (dict_keys d).
Proof.
  induction d as [|[k' v'] d IH]; simpl; [discriminate|].
  destruct (String.eqb_spec k' k) as [->|Hne]; intros Hg.
  - now left.
  - right. now apply IH.
Qed.

Lemma dict_get_not_in_inv {V : Type} (d : dict V) (k : string) :
  In k (dict_keys d) -> dict_get d k <> None.
Proof.
  induction d as [|[k' v] d IH]; simpl; intros Hin; [contradiction|].
  destruct (String.eqb_spec k' k) as [->|Hne]; [discriminate|].
  destruct Hin as [Heq|Hin]; [contradiction|]. now apply IH.
Qed.

Lemma dict_set_fresh {V : Type} (d : dict V) (k : string) (v : V) :
  ~ In k (dict_keys d) -> dict_set d k v = (d ++ [(k, v)])%list.
Proof.
  induction d as [|[k' v'] d IH]; simpl; intros Hn; [reflexivity|].
  destruct (String.eqb_spec k' k) as [->|Hne].
  - exfalso. apply Hn. now left.
  - f_equal. apply IH. intros Hin. apply Hn. now right.
Qed.

Lemma dict_remove_not_in {V : Type} (d : dict V) (k : string) :
  ~ In k (dict_keys d) -> dict_remove d k = d.
Proof.
  induction d as [|[k' v'] d IH]; simpl; intros Hn; [reflexivity|].
  destruct (String.eqb_spec k' k) as [->|Hne].
  - exfalso. apply Hn. now left.
  - f_equal. apply IH. intros Hin. apply Hn. now right.
Qed.

Lemma dict_remove_gone {V : Type} (d : dict V) (k : string) :
  List.NoDup (dict_keys d) -> ~ In k (dict_keys (dict_remove d k)).
Proof.
  induction d as [|[k' v'] d IH]; simpl; intros Hnd; [tauto|].
  inversion Hnd as [|? ? Hk' Hnd']; subst.
  destruct (String.eqb_spec k' k) as [->|Hne]; [exact Hk'|].
  simpl. intros [Heq|Hin]; [contradiction|]. now apply IH.
Qed.

(** The value of a key in a dictionary built from distinct keys. *)
Lemma dict_get_map {A V : Type} (key : A -> string) (val : A -> V)
  (l : list A) (a : A) :
  List.NoDup (map key l) -> In a l ->
  dict_get (map (fun x => (key x, val x)) l) (key a) = Some (val a).
Proof.
  induction l as [|x l IH]; simpl; intros Hnd Hin; [contradiction|].
  inversion Hnd as [|? ? Hx Hnd']; subst.
  destruct Hin as [->|Hin].
  - now rewrite String.eqb_refl.
  - destruct (String.eqb_spec (key x) (key a)) as [Heq|Hne].
    + exfalso. apply Hx. rewrite Heq. now apply in_map.
    + now apply IH.
Qed.

Lemma drop_last_app_char (s : string) (c : ascii) :
  drop_last (s ++ String c EmptyString) = s.
Proof.
  induction s as [|a s IH]; simpl; [reflexivity|].
  rewrite IH. destruct s; reflexivity.
Qed.

Lemma string_app_nil_r (a : string) : a ++ EmptyString = a.
Proof. induction a as [|x a IH]; simpl; [reflexivity|now rewrite IH]. Qed.

Lemma string_app_assoc (a b c : string) : (a ++ b) ++ c = a ++ (b ++ c).
Proof. induction a as [|x a IH]; simpl; [reflexivity|now rewrite IH]. Qed.

End PyFacts.

(** ** The option set *)

Module BuildFacts.
Import Py PyFacts Audio WaveSurfer Notions.

Lemma dict_contains_set {V : Type} (d : dict V) (k0 k : string) (v : V) :
  dict_contains (dict_set d k0 v) k = dict_contains d k || String.eqb k0 k.
Proof.
  unfold dict_contains.
  induction d as [|[k' v'] d IH]; simpl.
  - now destruct (String.eqb k0 k).
  - destruct (String.eqb_spec k' k0) as [->|Hne]; simpl.
    + destruct (String.eqb k0 k); [reflexivity|now rewrite orb_false_r].
    + destruct (String.eqb k' k); [reflexivity|exact IH].
Qed.

Lemma dict_contains_update {V : Type} (d other : dict V) (k : string) :
  dict_contains (dict_update d other) k
  = dict_contains d k || dict_contains other k.
Proof.
  unfold dict_update. revert d.
  induction other as [|[k0 v] other IH]; intros d; cbn [fold_left fst snd].
  - unfold dict_contains at 3. simpl. now rewrite orb_false_r.
  - rewrite IH, dict_contains_set. unfold dict_contains at 4. simpl.
    destruct (String.eqb k0 k); simpl.
    + now rewrite !orb_true_r.
    + now rewrite orb_false_r.
Qed.

(** A theme gives no keyword named [cls]. *)
Lemma waveform_overrides_no_cls (theme : Theme.t) :
  dict_contains (Theme.waveform_overrides theme) "cls" = false.
Proof.
  unfold dict_contains. rewrite dict_get_not_in; [reflexivity|].
  unfold Theme.waveform_overrides, dict_keys. rewrite map_map. cbn [fst].
  rewrite map_id. intros Hin. apply filter_In in Hin.
  destruct Hin as [Hin _]. simpl in Hin. intuition discriminate.
Qed.

Section with_codec.
Context `{Codec}.

(** What [_build_options] does, by whether the player was given the
    keyword [cls]. *)
Lemma build_options_cases (self : t) :
  _build_options self
  = if dict_contains (_extra_options self) "cls" then
      Raise (TypeError
               ("WaveSurferOptions.from_kwargs() got multiple values for "
                ++ "argument 'cls'"))
    else Ok (options_of self).
Proof.
  unfold options_of, _build_options, WaveSurferOptions.from_kwargs.
  cbv zeta. rewrite dict_contains_update, waveform_overrides_no_cls.
  cbn [orb]. now destruct (dict_contains (_extra_options self) "cls").
Qed.

Lemma build_options_buildable (self : t) :
  buildable self -> _build_options self = Ok (options_of self).
Proof.
  unfold buildable. intros Hb. now rewrite build_options_cases, Hb.
Qed.

End with_codec.

End BuildFacts.

Module OptionsProps.
Import Py PyFacts WaveSurferOptions Notions Examples.

Lemma present_true (self : t) (f : string) :
  present self f = true <-> getattr self f <> VNone.
Proof.
  unfold present. destruct (getattr self f); simpl; split;
    try congruence; try discriminate; intros Hne; now elim Hne.
Qed.

(** Every field has its entry in the table, and no two fields share a
    wire name. *)
Lemma fields_mapped :
  Forall (fun f => dict_get _SNAKE_TO_CAMEL f = Some (camel f)) fields.
Proof. repeat constructor. Qed.

Lemma camel_fields_NoDup : List.NoDup (map camel fields).
Proof.
  apply (NoDup_count_occ' string_dec).
  intros x Hin. vm_compute in Hin.
  repeat (destruct Hin as [<-|Hin]; [vm_compute; reflexivity|]).
  contradiction.
Qed.

(** The loop of [to_js_dict], from any dictionary that has none of the
    keys to come. *)
Lemma to_js_dict_loop (self : t) (fs : list string) (acc : dict PyVal) :
  List.NoDup (map camel fs) ->
  (forall f, In f fs -> ~ In (camel f) (dict_keys acc)) ->
  fold_left
    (fun (result : dict PyVal) (f_name : string) =>
       let value := getattr self f_name in
       if is_None value then result
       else
         let camel_key := dict_get_default _SNAKE_TO_CAMEL f_name f_name in
         dict_set result camel_key value)
    fs acc
  = (acc ++ map (fun f => (camel f, getattr self f))
              (List.filter (present self) fs))%list.
Proof.
  revert acc. induction fs as [|f fs IH]; intros acc Hnd Hfresh.
  - simpl. now rewrite app_nil_r.
  - inversion Hnd as [|? ? Hf Hnd']; subst.
    assert (Hp : present self f = negb (is_None (getattr self f)))
      by reflexivity.
    cbn [fold_left List.filter]. cbv zeta. rewrite Hp.
    destruct (is_None (getattr self f)) eqn:Hnone; cbn [negb].
    + apply IH; [exact Hnd'|]. intros f' Hin. apply Hfresh. now right.
    + rewrite dict_set_fresh by (apply Hfresh; now left).
      rewrite IH; [|exact Hnd'|].
      * cbn [map]. now rewrite <- app_assoc.
      * intros f' Hin Hk. unfold dict_keys in Hk.
        rewrite map_app in Hk. apply in_app_or in Hk.
        destruct Hk as [Hk|[Hk|[]]].
        -- apply (Hfresh f'); [now right|exact Hk].
        -- apply Hf. cbn [fst] in Hk. fold (camel f) in Hk.
           rewrite Hk. now apply in_map.
Qed.

(** [to_js_dict] in closed form: the fields that have a value, in
    declaration order, each under its wire name. *)
Lemma to_js_dict_closed (self : t) :
  to_js_dict self
  = map (fun f => (camel f, getattr self f)) (List.filter (present self) fields).
Proof.
  unfold to_js_dict.
  rewrite to_js_dict_loop; [reflexivity|apply camel_fields_NoDup|].
  intros f _ [].
Qed.

Lemma to_js_dict_keys (self : t) :
  dict_keys (to_js_dict self) = map camel (List.filter (present self) fields).
Proof.
  rewrite to_js_dict_closed. unfold dict_keys. rewrite map_map. reflexivity.
Qed.

Lemma NoDup_map_filter {A B : Type} (f : A -> B) (p : A -> bool) (l : list A) :
  List.NoDup (map f l) -> List.NoDup (map f (List.filter p l)).
Proof.
  induction l as [|a l IH]; simpl; intros Hnd; [constructor|].
  inversion Hnd as [|? ? Ha Hnd']; subst.
  destruct (p a); simpl; [|now apply IH].
  constructor; [|now apply IH].
  intros Hin. apply Ha. apply in_map_iff in Hin.
  destruct Hin as (x & Hx & Hin). apply filter_In in Hin.
  rewrite <- Hx. apply in_map. tauto.
Qed.

Lemma to_js_dict_NoDup (self : t) : List.NoDup (dict_keys (to_js_dict self)).
Proof.
  rewrite to_js_dict_keys. apply NoDup_map_filter, camel_fields_NoDup.
Qed.

Lemma camel_inj_fields (f g : string) :
  In f fields -> In g fields -> camel f = camel g -> f = g.
Proof.
  intros Hf Hg. vm_compute in Hf.
  repeat (destruct Hf as [<-|Hf];
          [vm_compute in Hg;
           repeat (destruct Hg as [<-|Hg];
                   [vm_compute; first [reflexivity|discriminate]|]);
           contradiction|]).
  contradiction.
Qed.

Lemma to_js_dict_get (self : t) (f : string) :
  In f fields ->
  dict_get (to_js_dict self) (camel f)
  = if present self f then Some (getattr self f) else None.
Proof.
  intros Hin. rewrite to_js_dict_closed.
  destruct (present self f) eqn:Hp.
  - apply (dict_get_map camel (getattr self)).
    + apply NoDup_map_filter, camel_fields_NoDup.
    + apply filter_In. tauto.
  - apply dict_get_not_in. unfold dict_keys. rewrite map_map. cbn [fst].
    intros Hk. apply in_map_iff in Hk. destruct Hk as (g & Hg & Hgin).
    apply filter_In in Hgin. destruct Hgin as [Hgin Hgp].
    apply camel_inj_fields in Hg; [|assumption|assumption].
    subst g. congruence.
Qed.

Lemma pop_render_function (self : t) :
  dict_get_default (to_js_dict self) "renderFunction" VNone
  = render_function self.
Proof.
  assert (Hin : In "render_function" fields) by in_list.
  pose proof (to_js_dict_get self "render_function" Hin) as Hg.
  change (camel "render_function") with "renderFunction" in Hg.
  unfold dict_get_default. rewrite Hg. unfold present.
  change (getattr self "render_function") with (render_function self).
  destruct (render_function self); reflexivity.
Qed.

Lemma json_dumps_dict_closes (d : dict PyVal) :
  exists body : string,
    json_dumps (VDict d) = body ++ "}"
    /\ drop_last (json_dumps (VDict d)) = body.
Proof.
  eexists. cbn [json_dumps]. split.
  - rewrite <- string_app_assoc. reflexivity.
  - rewrite <- string_app_assoc. apply drop_last_app_char.
Qed.

(** C5: the wire record has no key for a field left absent, and for a
    field that has a value it has exactly one key, the wire name the
    table [_SNAKE_TO_CAMEL] gives the field, holding that value; it has
    no other key. *)
Theorem to_js_dict_one_key_per_present_field (self : t) :
  (forall f, In f fields -> getattr self f = VNone ->
     ~ In (camel f) (dict_keys (to_js_dict self)))
  /\ (forall f, In f fields -> getattr self f <> VNone ->
        dict_get _SNAKE_TO_CAMEL f = Some (camel f)
        /\ count_occ string_dec (dict_keys (to_js_dict self)) (camel f) = 1%nat
        /\ dict_get (to_js_dict self) (camel f) = Some (getattr self f))
  /\ (forall k, In k (dict_keys (to_js_dict self)) ->
        exists f, In f fields /\ getattr self f <> VNone /\ camel f = k).
Proof.
  split; [|split].
  - intros f Hin Hnone Hk. apply dict_get_not_in_inv in Hk.
    rewrite to_js_dict_get in Hk by assumption.
    unfold present in Hk. rewrite Hnone in Hk. now apply Hk.
  - intros f Hin Hval. apply present_true in Hval.
    assert (Hg : dict_get (to_js_dict self) (camel f) = Some (getattr self f)).
    { rewrite to_js_dict_get by assumption. now rewrite Hval. }
    split; [|split; [|exact Hg]].
    + exact (proj1 (List.Forall_forall _ _) fields_mapped f Hin).
    + apply (proj1 (NoDup_count_occ' string_dec _) (to_js_dict_NoDup self)).
      now apply (dict_get_in _ _ (getattr self f)).
  - intros k Hk. rewrite to_js_dict_keys in Hk. apply in_map_iff in Hk.
    destruct Hk as (f & Hf & Hin). apply filter_In in Hin.
    destruct Hin as [Hin Hp]. exists f.
    split; [exact Hin|split; [now apply present_true|exact Hf]].
Qed.


Lemma to_js_dict_one_key_per_present_field_witness :
  ~ In "audioRate" (dict_keys (to_js_dict three_set))
  /\ dict_get (to_js_dict three_set) "barWidth" = Some (VInt 3).
Proof.
  destruct (to_js_dict_one_key_per_present_field three_set) as (Habs & Hval & _).
  split.
  - apply (Habs "audio_rate"); [in_list|reflexivity].
  - apply (Hval "bar_width"); [in_list|discriminate].
Defined.

(** What [to_json] returns, by whether [render_function] has a value. *)
Lemma to_json_cases `{Unicode} (self : t) :
  to_json self
  = match render_function self with
    | VNone => json_dumps (VDict (dict_remove (to_js_dict self) "renderFunction"))
    | code =>
        drop_last
          (json_dumps (VDict (dict_remove (to_js_dict self) "renderFunction")))
        ++ ", " ++ DQ ++ "renderFunction" ++ DQ ++ ": " ++ str code ++ "}"
    end.
Proof.
  unfold to_json, dict_pop. rewrite pop_render_function.
  destruct (render_function self); reflexivity.
Qed.

Lemma absent_render_function_not_key (self : t) :
  render_function self = VNone ->
  dict_remove (to_js_dict self) "renderFunction" = to_js_dict self.
Proof.
  intros Hnone. apply dict_remove_not_in. intros Hk.
  apply dict_get_not_in_inv in Hk.
  change "renderFunction" with (camel "render_function") in Hk.
  rewrite to_js_dict_get in Hk by in_list.
  unfold present in Hk.
  change (getattr self "render_function") with (render_function self) in Hk.
  rewrite Hnone in Hk. now apply Hk.
Qed.

(** C2, as the code has it: when [render_function] has a value,
    [to_js_dict] does hold it, under the key [renderFunction]; it is
    [to_json] that pops the key from the mapping before it encodes the
    mapping, and that puts the value back as text. *)
Theorem render_function_popped_by_to_json `{Unicode} (self : t) :
  render_function self <> VNone ->
  dict_get (to_js_dict self) "renderFunction" = Some (render_function self)
  /\ (let (render_fn, js_dict) :=
        dict_pop (to_js_dict self) "renderFunction" VNone in
      render_fn = render_function self
      /\ ~ In "renderFunction" (dict_keys js_dict)
      /\ to_json self
         = drop_last (json_dumps (VDict js_dict))
           ++ ", " ++ DQ ++ "renderFunction" ++ DQ ++ ": " ++ str render_fn
           ++ "}").
Proof.
  intros Hval. split.
  - change "renderFunction" with (camel "render_function").
    rewrite to_js_dict_get by in_list. unfold present.
    change (getattr self "render_function") with (render_function self).
    destruct (render_function self); [now elim Hval|reflexivity..].
  - unfold dict_pop. rewrite pop_render_function.
    split; [reflexivity|split].
    + apply dict_remove_gone, to_js_dict_NoDup.
    + rewrite to_json_cases.
      destruct (render_function self); [now elim Hval|reflexivity..].
Qed.


Lemma render_function_popped_by_to_json_witness :
  dict_get (to_js_dict with_render_function) "renderFunction"
  = Some (render_function with_render_function).
Proof.
  apply (render_function_popped_by_to_json with_render_function).
  discriminate.
Defined.

(** C2, as stated, fails: the wire record of an option set whose
    [render_function] has a value does have the key [renderFunction]. *)
Lemma to_js_dict_keeps_render_function :
  ~ (forall self : t,
       render_function self <> VNone ->
       ~ In "renderFunction" (dict_keys (to_js_dict self))).
Proof.
  intros Hall. apply (Hall with_render_function); [discriminate|].
  vm_compute. right. left. reflexivity.
Qed.

(** C3: [to_json] is the JSON text of the wire record without the key
    [renderFunction]; when [render_function] has a value, that text
    with [, "renderFunction": ] and the value as it is, unquoted, put
    in before the brace that closes it; when it has none, the result is
    the JSON text of the wire record. *)
Theorem to_json_splices_render_function `{Unicode} (self : t) :
  let wire := dict_remove (to_js_dict self) "renderFunction" in
  exists body : string,
    json_dumps (VDict wire) = body ++ "}"
    /\ to_json self
       = match render_function self with
         | VNone => json_dumps (VDict (to_js_dict self))
         | code =>
             body ++ ", " ++ DQ ++ "renderFunction" ++ DQ ++ ": " ++ str code
             ++ "}"
         end.
Proof.
  intros wire.
  destruct (json_dumps_dict_closes wire) as (body & Hbody & Hdrop).
  exists body. split; [exact Hbody|].
  rewrite to_json_cases. fold wire. rewrite Hdrop.
  destruct (render_function self) eqn:Hrf; try reflexivity.
  unfold wire. now rewrite absent_render_function_not_key.
Qed.

(** An option set in which only [render_function] can have a value. *)
Lemma only_render_function (self : t) :
  (forall f, In f fields -> f <> "render_function" -> getattr self f = VNone) ->
  self = of_dict [("render_function", render_function self)].
Proof.
  intros Hothers.
  assert (Hall : Forall (fun f => f <> "render_function" -> getattr self f = VNone)
                   fields).
  { apply List.Forall_forall. intros f Hin. now apply Hothers. }
  clear Hothers. destruct self. unfold fields in Hall.
  repeat match goal with
         | Hf : Forall _ (_ :: _) |- _ =>
             let Hhd := fresh "Hhd" in
             inversion Hf as [|? ? Hhd Htl]; clear Hf; subst;
             first [ specialize (Hhd ltac:(discriminate)); cbv in Hhd;
                     rewrite Hhd in *
                   | clear Hhd ];
             rename Htl into Hf
         end.
  reflexivity.
Qed.

(** C9: for an option set whose only field with a value is
    [render_function], [to_json] returns the brace, a comma and the
    spliced member; the text begins with the two characters of "{,",
    which no JSON object and no JavaScript object literal begins
    with. *)
Theorem to_json_render_function_alone `{Unicode} (self : t) :
  render_function self <> VNone ->
  (forall f, In f fields -> f <> "render_function" -> getattr self f = VNone) ->
  to_json self
  = "{, " ++ DQ ++ "renderFunction" ++ DQ ++ ": " ++ str (render_function self)
    ++ "}"
  /\ String.prefix "{," (to_json self) = true
  /\ object_opens_well (to_json self) = false.
Proof.
  intros Hval Hothers. apply only_render_function in Hothers.
  assert (Heq : to_json self
                = "{, " ++ DQ ++ "renderFunction" ++ DQ ++ ": "
                  ++ str (render_function self) ++ "}").
  { rewrite Hothers at 1.
    destruct (render_function self); [now elim Hval|reflexivity..]. }
  rewrite Heq. repeat split.
Qed.


Lemma to_json_render_function_alone_witness :
  String.prefix "{," (to_json render_function_alone) = true.
Proof.
  apply (to_json_render_function_alone render_function_alone).
  - discriminate.
  - intros f Hin Hne. simpl in Hin.
    repeat (destruct Hin as [<-|Hin]; [first [reflexivity|now elim Hne]|]).
    contradiction.
Defined.

End OptionsProps.

(** ** Event handlers *)

Module EventProps.
Import Py PyFacts EventHandler Examples.

(** C10: the table of event parameters has 24 entries, and for a
    handler whose event is none of them [to_js], which has no raising
    path, gives the binding statement with an empty parameter list. *)
Theorem to_js_unknown_event (self : t) (ws_var : string) :
  ~ In (event self) (dict_keys EVENT_PARAMS) ->
  List.length EVENT_PARAMS = 24%nat
  /\ to_js self ws_var
     = ws_var ++ "." ++ (if once self then "once" else "on") ++ "(" ++ DQ
       ++ event self ++ DQ ++ ", function() { " ++ js self ++ " });".
Proof.
  intros Hunknown. split; [reflexivity|].
  unfold to_js, dict_get_default.
  rewrite (dict_get_not_in _ _ Hunknown). reflexivity.
Qed.


Lemma to_js_unknown_event_witness :
  to_js unknown_handler "ws"
  = "ws.on(" ++ DQ ++ "bogus" ++ DQ ++ ", function() { console.log(1); });".
Proof.
  apply (to_js_unknown_event unknown_handler "ws").
  simpl. intros Hin.
  repeat (destruct Hin as [Heq|Hin]; [discriminate Heq|]).
  contradiction.
Defined.

End EventProps.

(** ** The theme registry *)

Module RegistryProps.
Import Py PyFacts ThemeRegistry Notions Examples.

(** The calls at the end of the module build [themes]. *)
Lemma themes_built :
  bind (register __init__ "dark" (ObjTheme Theme.DARK))
    (fun r => register r "light" (ObjTheme Theme.LIGHT))
  = Ok themes.
Proof. reflexivity. Qed.

Lemma contains_spec (self : t) (name : string) :
  __contains__ self name = true <-> is_Some (_themes self !! name).
Proof.
  unfold __contains__. split.
  - intros Hb. now apply bool_decide_eq_true in Hb.
  - intros Hs. now apply bool_decide_eq_true.
Qed.

(** [enable] succeeds exactly for a registered name, and only changes
    the default. *)
Lemma enable_Ok `{Unicode} (self self' : t) (name : string) :
  enable self name = Ok self' ->
  is_Some (_themes self !! name)
  /\ _themes self' = _themes self /\ _default self' = name.
Proof.
  unfold enable, set_default.
  destruct (__contains__ self name) eqn:Hc; simpl; [|discriminate].
  intros Heq. injection Heq as <-. apply contains_spec in Hc. now split.
Qed.

Lemma enable_unregistered `{Unicode} (self : t) (name : string) :
  _themes self !! name = None -> raises (enable self name).
Proof.
  intros Hnone. unfold enable, set_default.
  destruct (__contains__ self name) eqn:Hc; simpl; [|exact I].
  apply contains_spec in Hc. rewrite Hnone in Hc. now destruct Hc.
Qed.

(** The default stays registered: it is so in [themes], and [register]
    and [enable] keep it so. *)

Lemma themes_default_registered : default_registered themes.
Proof. unfold default_registered. vm_compute. eauto. Qed.

Lemma register_default_registered (self self' : t) (name : string)
  (theme : PyObj) :
  default_registered self -> register self name theme = Ok self' ->
  default_registered self'.
Proof.
  unfold default_registered, register. intros Hd.
  destruct theme as [theme|tn]; [|discriminate].
  intros Heq. injection Heq as <-. simpl.
  destruct (decide (name = _default self)) as [->|Hne].
  - rewrite lookup_insert_eq. eauto.
  - rewrite lookup_insert_ne by exact Hne. exact Hd.
Qed.

Lemma enable_default_registered `{Unicode} (self self' : t)
  (name : string) :
  enable self name = Ok self' -> default_registered self'.
Proof.
  intros He. apply enable_Ok in He. destruct He as (Hs & Ht & Hd).
  unfold default_registered. now rewrite Ht, Hd.
Qed.

(** C4, as the code has it: when the name of the current default is
    registered, [resolve(None)] returns the theme registered under it;
    [resolve] of a [Theme] returns that theme; and after [enable(name)]
    has succeeded, [resolve(None)] returns the theme registered under
    [name]. *)
Theorem resolve_None_when_default_registered `{Unicode} (self : t) :
  (forall theme : Theme.t,
     _themes self !! _default self = Some theme ->
     resolve self ArgNone = Ok theme)
  /\ (forall theme : Theme.t, resolve self (ArgTheme theme) = Ok theme)
  /\ (forall (name : string) (self' : t),
        enable self name = Ok self' ->
        exists theme : Theme.t,
          _themes self !! name = Some theme
          /\ _themes self' !! name = Some theme
          /\ resolve self' ArgNone = Ok theme).
Proof.
  split; [|split].
  - intros theme Hd. unfold resolve. now rewrite Hd.
  - reflexivity.
  - intros name self' He. apply enable_Ok in He.
    destruct He as ([theme Hth] & Ht & Hd). exists theme.
    split; [exact Hth|]. rewrite Ht. split; [exact Hth|].
    unfold resolve. now rewrite Hd, Ht, Hth.
Qed.

Lemma resolve_None_when_default_registered_witness :
  resolve themes ArgNone = Ok Theme.DARK
  /\ (exists theme : Theme.t,
        _themes themes !! "light" = Some theme
        /\ _themes {| _themes := _themes themes; _default := "light" |} !! "light"
           = Some theme
        /\ resolve {| _themes := _themes themes; _default := "light" |} ArgNone
           = Ok theme).
Proof.
  destruct (resolve_None_when_default_registered themes) as (Hnone & _ & Hen).
  split.
  - apply Hnone. reflexivity.
  - apply (Hen "light"). reflexivity.
Defined.


Lemma only_custom_built :
  register __init__ "custom" (ObjTheme Theme.default) = Ok only_custom.
Proof. reflexivity. Qed.

(** C4, as stated, fails: with a theme registered, but none under the
    name of the default, [resolve(None)] raises [KeyError]. *)
Lemma resolve_None_raises_without_default :
  ~ (forall self : t,
       (exists (name : string) (theme : Theme.t),
          _themes self !! name = Some theme) ->
       exists theme : Theme.t,
         resolve self ArgNone = Ok theme
         /\ _themes self !! _default self = Some theme).
Proof.
  intros Hall.
  destruct (Hall only_custom) as (theme & Hres & _).
  - exists "custom", Theme.default. reflexivity.
  - assert (Hraise : resolve only_custom ArgNone = Raise (KeyError "dark"))
      by reflexivity.
    rewrite Hraise in Hres. discriminate.
Qed.

End RegistryProps.

(** ** Audio resolution *)

Module AudioProps.
Import Py PyFacts Audio.

Section with_codec.
Context `{Codec}.

(** C8, as the code has it: for an array (and for a tensor, once it
    is made one), [resolve_audio] raises its [ValueError] when no sample
    rate is given; with a rate it hands the array and the rate to the
    writer, and returns a [data:] URL and that rate when the writer
    returns, the error of the writer when it raises; a text that
    starts with [http://] or [https://] comes back as it is, with the
    rate that was passed, absent or not; an object of another type
    raises a [TypeError] whose message ends with the name of the
    type. *)
Theorem resolve_audio_dispatch :
  (forall (a : ndarray) (sr : option Z),
     resolve_audio (AudioArray a) sr
     = match sr with
       | None =>
           Raise (ValueError
                    "sr (sample rate) is required when passing a numpy array")
       | Some rate =>
           match sf_write a rate with
           | Ok buf =>
               Ok ("data:audio/wav;base64," ++ b64encode buf, Some rate)
           | Raise e => Raise e
           end
       end)
  /\ (forall (t : tensor) (sr : option Z),
        resolve_audio (AudioTensor t) sr
        = match _torch_to_numpy t with
          | Ok a => resolve_audio (AudioArray a) sr
          | Raise e => Raise e
          end)
  /\ (forall (rest : string) (sr : option Z),
        resolve_audio (AudioStr ("http://" ++ rest)) sr
        = Ok ("http://" ++ rest, sr)
        /\ resolve_audio (AudioStr ("https://" ++ rest)) sr
           = Ok ("https://" ++ rest, sr))
  /\ (forall (name : string) (sr : option Z),
        resolve_audio (AudioOther name) sr
        = Raise (TypeError
                   ("audio must be a numpy array, torch tensor, file path, "
                    ++ "or URL string " ++ EM_DASH ++ " got " ++ name))).
Proof.
  split; [|split; [|split]].
  - intros a [rate|]; [|reflexivity].
    unfold resolve_audio, audio_to_data_url. cbn [bind].
    destruct (sf_write a rate) as [buf|e]; reflexivity.
  - intros t sr. unfold resolve_audio.
    destruct (_torch_to_numpy t) as [a|e]; reflexivity.
  - intros rest sr. split; destruct rest; reflexivity.
  - reflexivity.
Qed.

(** What [audio_to_data_url] returns, by what the writer does. *)
Lemma audio_to_data_url_cases (a : ndarray) (rate : Z) :
  audio_to_data_url a rate
  = match sf_write a rate with
    | Ok buf => Ok ("data:audio/wav;base64," ++ b64encode buf)
    | Raise e => Raise e
    end.
Proof.
  unfold audio_to_data_url. destruct (sf_write a rate); reflexivity.
Qed.

(** A text is passed through only for those two prefixes: any other
    text is taken for a path and read. *)
Lemma resolve_audio_path (s : string) (sr : option Z) :
  startswith_any ["http://"; "https://"] s = false ->
  resolve_audio (AudioStr s) sr
  = bind (sf_read s)
      (fun r =>
         bind (audio_to_data_url (fst r) (snd r))
           (fun url => Ok (url, Some (snd r)))).
Proof.
  intros Hno. unfold resolve_audio, load_audio_file. cbn [bind]. rewrite Hno.
  destruct (sf_read s) as [[data file_sr]|e]; reflexivity.
Qed.

End with_codec.

(** C8, as stated, fails: a rate does not make the call return.  With
    a writer that refuses the rate 0, as the one of [soundfile] does,
    an array with that rate gives the error of the writer and no
    URL. *)
Lemma resolve_audio_rate_refused :
  ~ (forall (codec : Codec) (a : @ndarray codec) (rate : Z),
       exists url : string,
         @resolve_audio codec (AudioArray a) (Some rate)
         = Ok (url, Some rate)).
Proof.
  intros Hall. destruct (Hall Examples.strict_codec [0; 1; 0] 0) as [url Heq].
  discriminate Heq.
Qed.

End AudioProps.

(** ** Escaping by the iframe wrapper *)

Module HtmlProps.
Import Py PyFacts Notions Examples.

Lemma has_char_app (c : ascii) (a b : string) :
  has_char c (a ++ b) = has_char c a || has_char c b.
Proof.
  induction a as [|x a IH]; simpl; [reflexivity|].
  rewrite IH. now rewrite orb_assoc.
Qed.

(** [replace] removes the character it replaces, and brings in no
    character that neither the text nor the replacement has. *)
Lemma replace_char_removes (c : ascii) (r s : string) :
  has_char c r = false -> has_char c (replace_char c r s) = false.
Proof.
  intros Hr. induction s as [|a s IH]; simpl; [reflexivity|].
  destruct (Ascii.eqb a c) eqn:Hac.
  - rewrite has_char_app, Hr, IH. reflexivity.
  - simpl. now rewrite Hac, IH.
Qed.

Lemma replace_char_keeps_out (c d : ascii) (r s : string) :
  has_char c r = false -> has_char c s = false ->
  has_char c (replace_char d r s) = false.
Proof.
  intros Hr. induction s as [|a s IH]; simpl; [reflexivity|].
  intros Hs. apply orb_false_iff in Hs. destruct Hs as [Hac Hs].
  destruct (Ascii.eqb a d).
  - rewrite has_char_app, Hr, IH by exact Hs. reflexivity.
  - simpl. now rewrite Hac, IH.
Qed.

Lemma html_escape_no_lt (s : string) : has_char "<" (html_escape s) = false.
Proof.
  unfold html_escape.
  do 3 (apply replace_char_keeps_out; [reflexivity|]).
  apply replace_char_removes. reflexivity.
Qed.

Lemma uint_str_no_lt (d : Decimal.uint) :
  has_char "<" (NilEmpty.string_of_uint d) = false.
Proof. induction d; simpl; assumption || reflexivity. Qed.

Lemma int_str_no_lt (z : Z) : has_char "<" (int_str z) = false.
Proof.
  unfold int_str, NilZero.string_of_int, NilZero.string_of_uint.
  destruct (Z.to_int z) as [d|d]; destruct d; simpl;
    try reflexivity; apply uint_str_no_lt.
Qed.

Lemma no_lt_s_app (a b : string) :
  has_char "<" a = false -> no_lt_s (a ++ b) = no_lt_s b.
Proof.
  induction a as [|x a IH]; simpl; [reflexivity|].
  intros Hx. apply orb_false_iff in Hx. destruct Hx as [Hx Ha].
  rewrite Hx. simpl. now apply IH.
Qed.

Lemma no_lt_s_cons (x : ascii) (s : string) :
  Ascii.eqb x "<" = false -> no_lt_s (String x s) = no_lt_s s.
Proof. intros Hx. simpl. now rewrite Hx. Qed.

Lemma no_lt_s_lt (b : ascii) (s : string) :
  Ascii.eqb b "s" = false ->
  no_lt_s (String "<" (String b s)) = no_lt_s (String b s).
Proof. intros Hb. cbn [no_lt_s]. now rewrite Hb. Qed.

(** A text that holds ["<script>alert"] has a ["<"] with an ["s"]
    after it. *)
Lemma occurs_script_lt_s (s : string) :
  occurs_in "<script>alert" s -> no_lt_s s = false.
Proof.
  intros (pre & post & ->).
  induction pre as [|a pre IH]; simpl; [reflexivity|].
  simpl in IH. rewrite IH. apply andb_false_r.
Qed.

(** The markup the wrapper returns has two ["<"], that of [<iframe]
    and that of [</iframe>]. *)
Lemma wrap_in_iframe_no_lt_s (js body_html : string) (height : Z) :
  no_lt_s (Html.wrap_in_iframe js body_html height) = true.
Proof.
  unfold Html.wrap_in_iframe. cbv zeta.
  match goal with
  | |- no_lt_s (_ ++ ?rest) = true =>
      change (no_lt_s (String "<" (String "i" ("frame srcdoc=" ++ rest)))
              = true)
  end.
  rewrite no_lt_s_lt by reflexivity.
  rewrite no_lt_s_cons by reflexivity.
  repeat rewrite no_lt_s_app
    by first [reflexivity | apply html_escape_no_lt | apply int_str_no_lt].
  reflexivity.
Qed.

(** C6: whatever the other arguments of the render, the markup of a
    player whose title is [<script>alert("xss")</script>], once wrapped
    in the iframe, does not hold the text [<script>alert]. *)
Theorem xss_title_never_unescaped (js uid url : string)
  (options : WaveSurferOptions.t) (theme : Theme.t) (controls : Controls.t)
  (events : option (list EventHandler.t))
  (plugins : option (list PluginConfig.t)) (height : Z) :
  ~ occurs_in "<script>alert"
      (Html.wrap_in_iframe js
         (Html.build_player_html uid url (Some xss_title) options theme
            controls events plugins)
         height).
Proof.
  intros Hocc. apply occurs_script_lt_s in Hocc.
  rewrite wrap_in_iframe_no_lt_s in Hocc. discriminate.
Qed.

End HtmlProps.

(** ** Rendering one player *)

Module CoreProps.
Import Py PyFacts Audio WaveSurfer Notions Examples.

Section with_world.
Context `{Codec}.
Variable _WAVESURFER_JS : string.
Variable uuid4_hex : nat -> string.

(** The two keyword calls of [to_html] against the two signatures in
    [_html]: the first one already names a parameter that is not
    there. *)
Lemma estimate_player_height_call_rejected {A : Type} (body : result A) :
  call_kw "estimate_player_height" Html.estimate_player_height_params
    ["title"; "theme"; "controls"; "options"; "plugins"] body
  = Raise (TypeError
             "estimate_player_height() got an unexpected keyword argument 'options'").
Proof. reflexivity. Qed.

(** C1, on the code: for a player whose audio resolves, [to_html] does
    not return the markup; it raises the [TypeError] of the call to
    [estimate_player_height] (for a player that was given the keyword
    [cls], the [TypeError] of the call to [from_kwargs], which comes
    before), and [_repr_html_] does what [to_html] does. *)
Theorem to_html_raises_TypeError (self : t) (drawn : nat) (url : string)
  (rate : option Z) :
  resolve_audio (audio self) (sr self) = Ok (url, rate) ->
  to_html _WAVESURFER_JS uuid4_hex self drawn
  = Raise (TypeError
             (if dict_contains (_extra_options self) "cls" then
                "WaveSurferOptions.from_kwargs() got multiple values for "
                ++ "argument 'cls'"
              else
                "estimate_player_height() got an unexpected keyword "
                ++ "argument 'options'"))
  /\ _repr_html_ _WAVESURFER_JS uuid4_hex self drawn
     = to_html _WAVESURFER_JS uuid4_hex self drawn.
Proof.
  intros Hres. split; [|reflexivity].
  unfold to_html. rewrite Hres. cbn [bind fresh_uid].
  rewrite BuildFacts.build_options_cases.
  destruct (dict_contains (_extra_options self) "cls"); reflexivity.
Qed.

(** No player is rendered by [to_html]: when the audio does not
    resolve, the exception of [resolve_audio] comes out instead. *)
Lemma to_html_always_raises (self : t) (drawn : nat) :
  raises (to_html _WAVESURFER_JS uuid4_hex self drawn).
Proof.
  unfold to_html.
  destruct (resolve_audio (audio self) (sr self)) as [[url rate]|e];
    [|exact I].
  cbn [bind fresh_uid].
  destruct (_build_options self) as [options|e]; exact I.
Qed.

End with_world.

(** [WaveSurfer(audio="https://example.com/audio.wav").to_html()] *)
Lemma to_html_raises_TypeError_witness :
  @to_html demo_codec demo_js demo_uuid4_hex (url_player None Theme.DARK) 0
  = Raise (TypeError
             "estimate_player_height() got an unexpected keyword argument 'options'").
Proof.
  apply (@to_html_raises_TypeError demo_codec demo_js demo_uuid4_hex
           (url_player None Theme.DARK) 0%nat
           "https://example.com/audio.wav" None).
  reflexivity.
Defined.

(** The constructor builds that player from the module-level registry. *)
Lemma url_player_built :
  @__init__ demo_codec demo_unicode ThemeRegistry.themes
    (AudioStr "https://example.com/audio.wav") None None ThemeRegistry.ArgNone
    None None None None []
  = Ok (url_player None Theme.DARK).
Proof. reflexivity. Qed.

End CoreProps.

(** ** Laying out several players *)

Module LayoutProps.
Import Py PyFacts Audio WaveSurfer Layouts Notions Examples.

Section with_world.
Context `{Codec}.
Variable _WAVESURFER_JS : string.
Variable uuid4_hex : nat -> string.

Lemma loop_body_Ok (st : loop_state) (player : WaveSurfer.t) (url : string)
  (rate : option Z) :
  resolve_audio (audio player) (sr player) = Ok (url, rate) ->
  buildable player ->
  loop_body uuid4_hex st player
  = Ok {| cards := (cards st ++ [card_of uuid4_hex player url (n_drawn st)])%list;
          max_card_height := Z.max (max_card_height st) (height_of player);
          n_drawn := S (n_drawn st) |}.
Proof.
  intros Hres Hbuild. unfold loop_body. rewrite Hres.
  cbn [bind fresh_uid call_kw].
  rewrite (BuildFacts.build_options_buildable player Hbuild). cbn [bind].
  unfold card_of, height_of, append. cbn [fst fresh_uid].
  change (call_kw "estimate_player_height" Html.estimate_player_height_params
            ["title"; "theme"; "controls"] ?b) with b.
  cbn [bind]. do 2 f_equal.
  destruct (Z.ltb_spec (max_card_height st)
              (Html.estimate_player_height (title player) (theme player)
                 (controls player))); lia.
Qed.

(** The loop of [compare], by induction on the players. *)
Lemma loop_Ok (players : list WaveSurfer.t) (urls : list string)
  (st : loop_state) :
  all_render players urls ->
  loop uuid4_hex players st
  = Ok {| cards := (cards st ++ cards_of uuid4_hex players urls (n_drawn st))%list;
          max_card_height :=
            fold_left Z.max (map height_of players) (max_card_height st);
          n_drawn := (n_drawn st + List.length players)%nat |}.
Proof.
  intros Hall. revert st.
  induction Hall as [|player url players urls [[rate Hres] Hbuild] Hall IH];
    intros st.
  - simpl. rewrite app_nil_r, Nat.add_0_r. now destruct st.
  - cbn [loop]. rewrite (loop_body_Ok st player url rate Hres Hbuild).
    cbn [bind]. rewrite IH. cbn [cards max_card_height n_drawn].
    cbn [cards_of map fold_left List.length].
    rewrite <- app_assoc, Nat.add_succ_r. reflexivity.
Qed.

(** What [compare] returns for more than one column. *)
Lemma compare_columns (players : list WaveSurfer.t) (urls : list string)
  (columns : Z) (drawn : nat) :
  1 < columns -> all_render players urls ->
  compare _WAVESURFER_JS uuid4_hex players columns drawn
  = Ok ({| _html :=
             Html.wrap_in_iframe _WAVESURFER_JS
               ("<div style=" ++ DQ
                ++ ("display: grid; grid-template-columns: repeat("
                    ++ int_str columns ++ ", 1fr); gap: 8px;")
                ++ DQ ++ ">"
                ++ join EmptyString (cards_of uuid4_hex players urls drawn) ++ "</div>")
               (- (- Z.of_nat (List.length (cards_of uuid4_hex players urls drawn))
                   / columns)
                * fold_left Z.max (map height_of players) 0 + 8) |},
        (drawn + List.length players)%nat).
Proof.
  intros Hcols Hall. unfold compare. rewrite (loop_Ok _ _ _ Hall).
  cbn [bind cards max_card_height n_drawn app].
  destruct (Z.ltb_spec 1 columns) as [_|Hle]; [|lia].
  reflexivity.
Qed.

(** C7, as the code has it: four players that can be rendered (the
    audio of each resolves, and none was given the keyword [cls], for
    which its option set is not built), in two columns, give one
    container whose style declares [repeat(2, 1fr)], in an iframe
    whose height is [ceil(4/2) = 2] times the largest estimated card
    height, or 0 when every estimate is below 0, plus 8. *)
Theorem compare_four_in_two_columns (p1 p2 p3 p4 : WaveSurfer.t)
  (u1 u2 u3 u4 : string) (r1 r2 r3 r4 : option Z) (drawn : nat) :
  resolve_audio (audio p1) (sr p1) = Ok (u1, r1) ->
  resolve_audio (audio p2) (sr p2) = Ok (u2, r2) ->
  resolve_audio (audio p3) (sr p3) = Ok (u3, r3) ->
  resolve_audio (audio p4) (sr p4) = Ok (u4, r4) ->
  buildable p1 -> buildable p2 -> buildable p3 -> buildable p4 ->
  compare _WAVESURFER_JS uuid4_hex [p1; p2; p3; p4] 2 drawn
  = Ok ({| _html :=
             Html.wrap_in_iframe _WAVESURFER_JS
               ("<div style=" ++ DQ
                ++ "display: grid; grid-template-columns: repeat(2, 1fr); gap: 8px;"
                ++ DQ ++ ">"
                ++ join EmptyString
                     [card_of uuid4_hex p1 u1 drawn;
                      card_of uuid4_hex p2 u2 (S drawn);
                      card_of uuid4_hex p3 u3 (S (S drawn));
                      card_of uuid4_hex p4 u4 (S (S (S drawn)))]
                ++ "</div>")
               (2 * Z.max 0
                      (Z.max (height_of p1)
                         (Z.max (height_of p2)
                            (Z.max (height_of p3) (height_of p4))))
                + 8) |},
        (drawn + 4)%nat).
Proof.
  intros H1 H2 H3 H4 B1 B2 B3 B4.
  assert (Hall : all_render [p1; p2; p3; p4] [u1; u2; u3; u4]).
  { repeat constructor; try assumption; eexists; eassumption. }
  rewrite (compare_columns _ _ 2 drawn ltac:(lia) Hall).
  cbn [cards_of List.length map fold_left].
  replace (Z.max (Z.max (Z.max (Z.max 0 (height_of p1)) (height_of p2))
                    (height_of p3)) (height_of p4))
    with (Z.max 0
            (Z.max (height_of p1)
               (Z.max (height_of p2) (Z.max (height_of p3) (height_of p4)))))
    by lia.
  reflexivity.
Qed.

(** When some estimate is not below 0, that is the largest estimate. *)
Lemma floor_is_max (h1 h2 h3 h4 : Z) :
  0 <= h1 \/ 0 <= h2 \/ 0 <= h3 \/ 0 <= h4 ->
  Z.max 0 (Z.max h1 (Z.max h2 (Z.max h3 h4)))
  = Z.max h1 (Z.max h2 (Z.max h3 h4)).
Proof. lia. Qed.

(** In the markup [compare] returns, whatever the titles of the
    players, the text [<script>alert] does not occur. *)
Lemma compare_never_unescaped (players : list WaveSurfer.t) (columns : Z)
  (drawn drawn' : nat) (r : _CompareResult) :
  compare _WAVESURFER_JS uuid4_hex players columns drawn = Ok (r, drawn') ->
  ~ occurs_in "<script>alert" (_repr_html_ r).
Proof.
  unfold compare.
  destruct (loop uuid4_hex players _) as [st|e]; cbn [bind]; [|discriminate].
  destruct (if Z.ltb 1 columns then _ else _) as [grid_style total_height].
  change (call_kw "wrap_in_iframe" Html.wrap_in_iframe_params
            ["body_html"; "height"] ?b) with b.
  cbn [bind]. intros Heq. injection Heq as <- _. cbn [_repr_html_ _html].
  intros Hocc. apply HtmlProps.occurs_script_lt_s in Hocc.
  rewrite HtmlProps.wrap_in_iframe_no_lt_s in Hocc. discriminate.
Qed.

End with_world.

(** Four players with the same title and theme, from a URL. *)
Lemma compare_four_in_two_columns_witness :
  exists r : _CompareResult,
    @compare demo_codec demo_js demo_uuid4_hex
      [url_player (Some "A") Theme.DARK; url_player (Some "B") Theme.DARK;
       url_player (Some "C") Theme.DARK; url_player (Some "D") Theme.DARK]
      2 0
    = Ok (r, 4%nat).
Proof.
  eexists.
  apply (@compare_four_in_two_columns demo_codec demo_js demo_uuid4_hex
           (url_player (Some "A") Theme.DARK) (url_player (Some "B") Theme.DARK)
           (url_player (Some "C") Theme.DARK) (url_player (Some "D") Theme.DARK)
           "https://example.com/audio.wav" "https://example.com/audio.wav"
           "https://example.com/audio.wav" "https://example.com/audio.wav"
           None None None None 0%nat); reflexivity.
Defined.

(** C7, as stated, fails: with a theme whose [height] is -200 every
    card is estimated at -56, and the iframe is given [2 * 0 + 8]
    and not [2 * (-56) + 8]. *)
Lemma compare_height_is_not_twice_max :
  ~ (forall (p1 p2 p3 p4 : @WaveSurfer.t demo_codec) (u1 u2 u3 u4 : string)
       (r1 r2 r3 r4 : option Z) (drawn : nat),
       resolve_audio (audio p1) (sr p1) = Ok (u1, r1) ->
       resolve_audio (audio p2) (sr p2) = Ok (u2, r2) ->
       resolve_audio (audio p3) (sr p3) = Ok (u3, r3) ->
       resolve_audio (audio p4) (sr p4) = Ok (u4, r4) ->
       buildable p1 -> buildable p2 -> buildable p3 -> buildable p4 ->
       compare demo_js demo_uuid4_hex [p1; p2; p3; p4] 2 drawn
       = Ok ({| _html :=
                  Html.wrap_in_iframe demo_js
                    ("<div style=" ++ DQ
                     ++ "display: grid; grid-template-columns: repeat(2, 1fr); gap: 8px;"
                     ++ DQ ++ ">"
                     ++ join EmptyString
                          [card_of demo_uuid4_hex p1 u1 drawn;
                           card_of demo_uuid4_hex p2 u2 (S drawn);
                           card_of demo_uuid4_hex p3 u3 (S (S drawn));
                           card_of demo_uuid4_hex p4 u4 (S (S (S drawn)))]
                     ++ "</div>")
                    (2 * Z.max (height_of p1)
                           (Z.max (height_of p2)
                              (Z.max (height_of p3) (height_of p4)))
                     + 8) |},
             (drawn + 4)%nat)).
Proof.
  intros Hall.
  pose (p := url_player (Some "A") sunken_theme).
  specialize (Hall p p p p
                "https://example.com/audio.wav" "https://example.com/audio.wav"
                "https://example.com/audio.wav" "https://example.com/audio.wav"
                None None None None 0%nat
                eq_refl eq_refl eq_refl eq_refl
                eq_refl eq_refl eq_refl eq_refl).
  apply (f_equal
           (fun res =>
              match res with
              | Ok (r, _) => String.length (_html r)
              | Raise _ => 0%nat
              end)) in Hall.
  vm_compute in Hall. discriminate Hall.
Qed.

Example sunken_card_height :
  @height_of demo_codec (url_player (Some "A") sunken_theme) = -56.
Proof. reflexivity. Qed.

End LayoutProps.

(** ** More on the option set *)

Module OptionsMore.
Import Py PyFacts WaveSurferOptions Notions MoreNotions Examples.

Lemma dict_get_filter_known {V : Type} (known : string -> bool) (d : dict V)
  (k : string) :
  known k = true ->
  dict_get (List.filter (fun kv => known (fst kv)) d) k = dict_get d k.
Proof.
  intros Hk. induction d as [|[k' v] d IH]; simpl; [reflexivity|].
  destruct (String.eqb_spec k' k) as [->|Hne].
  - rewrite Hk. simpl. now rewrite String.eqb_refl.
  - destruct (known k'); simpl; [|exact IH].
    destruct (String.eqb_spec k' k); [contradiction|exact IH].
Qed.

(** A field of the instance the constructor builds from keywords. *)
Lemma getattr_of_dict (kw : dict PyVal) (f : string) :
  In f fields -> getattr (of_dict kw) f = dict_get_default kw f VNone.
Proof.
  intros Hin. simpl in Hin.
  repeat (destruct Hin as [<-|Hin]; [reflexivity|]). contradiction.
Qed.

(** The instance is made of its fields. *)
Lemma of_dict_ext (kw kw' : dict PyVal) :
  (forall f, In f fields -> dict_get kw f = dict_get kw' f) ->
  of_dict kw = of_dict kw'.
Proof.
  intros Hext. unfold of_dict, dict_get_default.
  repeat match goal with
         | |- context [dict_get kw ?f] =>
             rewrite (Hext f) by in_list
         end.
  reflexivity.
Qed.

Lemma dict_get_known (d : dict PyVal) (f : string) :
  In f fields ->
  dict_get (List.filter (fun kv => existsb (String.eqb (fst kv)) fields) d) f
  = dict_get d f.
Proof.
  intros Hin.
  apply (dict_get_filter_known (fun k => existsb (String.eqb k) fields)).
  apply existsb_exists. exists f. split; [exact Hin|apply String.eqb_refl].
Qed.

Lemma dict_get_filter_unknown {V : Type} (known : string -> bool)
  (d : dict V) (k : string) :
  known k = false ->
  dict_get (List.filter (fun kv => known (fst kv)) d) k = None.
Proof.
  intros Hk. induction d as [|[k' v] d IH]; simpl; [reflexivity|].
  destruct (known k') eqn:Hk'; simpl; [|exact IH].
  destruct (String.eqb_spec k' k) as [->|Hne]; [congruence|exact IH].
Qed.

(** What [from_kwargs] does, by whether a keyword is named [cls]. *)
Lemma from_kwargs_cases (kwargs : dict PyVal) :
  from_kwargs kwargs
  = if dict_contains kwargs "cls" then
      Raise (TypeError
               ("WaveSurferOptions.from_kwargs() got multiple values for "
                ++ "argument 'cls'"))
    else
      Ok (of_dict
            (List.filter (fun kv => existsb (String.eqb (fst kv)) fields)
               kwargs)).
Proof. reflexivity. Qed.

Lemma getattr_from_kwargs (kwargs : dict PyVal) (options : t) (f : string) :
  from_kwargs kwargs = Ok options ->
  In f fields ->
  getattr options f = dict_get_default kwargs f VNone.
Proof.
  rewrite from_kwargs_cases.
  destruct (dict_contains kwargs "cls"); [discriminate|].
  intros Heq Hin. injection Heq as <-.
  rewrite getattr_of_dict by exact Hin.
  unfold dict_get_default. now rewrite dict_get_known.
Qed.

(** X1: [from_kwargs] raises [TypeError] when a keyword is named [cls],
    the name of its own first parameter, and no other time.  When it
    returns, each field has the value its name has among the keywords,
    [None] when the name is not there, and the keywords that name no
    field are ignored: dropping them gives the same option set. *)
Theorem from_kwargs_fields (kwargs : dict PyVal) :
  if dict_contains kwargs "cls" then
    exists msg, from_kwargs kwargs = Raise (TypeError msg)
  else
    exists options,
      from_kwargs kwargs = Ok options
      /\ (forall f, In f fields ->
            getattr options f = dict_get_default kwargs f VNone)
      /\ from_kwargs
           (List.filter (fun kv => existsb (String.eqb (fst kv)) fields)
              kwargs)
         = Ok options.
Proof.
  destruct (dict_contains kwargs "cls") eqn:Hcls.
  - rewrite from_kwargs_cases, Hcls. eexists. reflexivity.
  - eexists. split; [|split].
    + rewrite from_kwargs_cases, Hcls. reflexivity.
    + intros f Hin. rewrite getattr_of_dict by exact Hin.
      unfold dict_get_default. now rewrite dict_get_known.
    + rewrite from_kwargs_cases. unfold dict_contains.
      rewrite (dict_get_filter_unknown
                 (fun k => existsb (String.eqb k) fields) kwargs "cls")
        by reflexivity.
      f_equal. apply of_dict_ext. intros f Hin. now rewrite !dict_get_known.
Qed.

(** [from_kwargs(bar_width=5, unknown_key="ignored")] *)
Lemma from_kwargs_fields_witness :
  exists options,
    from_kwargs [("bar_width", VInt 5); ("unknown_key", VStr "ignored")]
    = Ok options
    /\ (forall f, In f fields ->
          getattr options f
          = dict_get_default
              [("bar_width", VInt 5); ("unknown_key", VStr "ignored")] f VNone)
    /\ from_kwargs
         (List.filter (fun kv => existsb (String.eqb (fst kv)) fields)
            [("bar_width", VInt 5); ("unknown_key", VStr "ignored")])
       = Ok options.
Proof.
  exact (from_kwargs_fields
           [("bar_width", VInt 5); ("unknown_key", VStr "ignored")]).
Defined.

Lemma dict_get_set_eq {V : Type} (d : dict V) (k : string) (v : V) :
  dict_get (dict_set d k v) k = Some v.
Proof.
  induction d as [|[k' v'] d IH]; simpl.
  - now rewrite String.eqb_refl.
  - destruct (String.eqb_spec k' k) as [->|Hne]; simpl.
    + now rewrite String.eqb_refl.
    + destruct (String.eqb_spec k' k); [contradiction|exact IH].
Qed.

Lemma dict_get_set_ne {V : Type} (d : dict V) (k k0 : string) (v : V) :
  k <> k0 -> dict_get (dict_set d k v) k0 = dict_get d k0.
Proof.
  intros Hne. induction d as [|[k' v'] d IH]; simpl.
  - destruct (String.eqb_spec k k0); [contradiction|reflexivity].
  - destruct (String.eqb_spec k' k) as [->|Hne']; simpl.
    + destruct (String.eqb_spec k k0); [contradiction|reflexivity].
    + destruct (String.eqb_spec k' k0); [reflexivity|exact IH].
Qed.

(** Assigning the entries of a well-formed dictionary, those with a
    permitted key, on top of another dictionary. *)
Lemma dict_get_assign {V : Type} (known : string -> bool) (ov cur : dict V)
  (f : string) :
  well_formed ov -> known f = true ->
  dict_get
    (fold_left
       (fun (current : dict V) (kv : string * V) =>
          if known (fst kv) then dict_set current (fst kv) (snd kv)
          else current)
       ov cur) f
  = match dict_get ov f with
    | Some v => Some v
    | None => dict_get cur f
    end.
Proof.
  unfold well_formed. intros Hwf Hk. revert cur.
  induction ov as [|[k v] ov IH]; intros cur; [reflexivity|].
  inversion Hwf as [|? ? Hfresh Hwf']; subst.
  cbn [fold_left fst snd]. rewrite IH by exact Hwf'. cbn [dict_get].
  destruct (String.eqb_spec k f) as [->|Hne].
  - rewrite (dict_get_not_in ov f Hfresh), Hk. apply dict_get_set_eq.
  - destruct (dict_get ov f); [reflexivity|].
    destruct (known k); [now apply dict_get_set_ne|reflexivity].
Qed.

Lemma fields_NoDup : List.NoDup fields.
Proof.
  apply (NoDup_count_occ' string_dec). intros x Hin. simpl in Hin.
  repeat (destruct Hin as [<-|Hin]; [vm_compute; reflexivity|]).
  contradiction.
Qed.

(** X2: [merge], given overrides with distinct keys as a [dict] has
    them, returns an instance in which a field named by the overrides
    has the value given there ([None] included) and every other field
    keeps the value it has in [self]. *)
Theorem merge_fields (self : t) (overrides : dict PyVal) :
  well_formed overrides ->
  forall f, In f fields ->
    getattr (merge self overrides) f
    = dict_get_default overrides f (getattr self f).
Proof.
  intros Hwf f Hin. unfold merge. rewrite getattr_of_dict by exact Hin.
  unfold dict_get_default.
  rewrite (dict_get_assign (fun k => existsb (String.eqb k) fields)
             overrides _ f Hwf).
  - destruct (dict_get overrides f); [reflexivity|].
    now rewrite (dict_get_map (fun x => x) (getattr self) fields f)
      by (rewrite ?map_id; auto using fields_NoDup).
  - apply existsb_exists. exists f. split; [exact Hin|apply String.eqb_refl].
Qed.

Lemma merge_fields_witness :
  getattr (merge three_set [("height", VInt 120); ("unknown", VStr "value")])
    "height"
  = VInt 120
  /\ getattr (merge three_set [("height", VInt 120); ("unknown", VStr "value")])
       "bar_width"
     = VInt 3.
Proof.
  split.
  - apply (merge_fields three_set
             [("height", VInt 120); ("unknown", VStr "value")]).
    + repeat constructor; simpl; intuition discriminate.
    + in_list.
  - apply (merge_fields three_set
             [("height", VInt 120); ("unknown", VStr "value")]).
    + repeat constructor; simpl; intuition discriminate.
    + in_list.
Defined.

Lemma of_dict_fields (self : t) :
  of_dict (map (fun f_name => (f_name, getattr self f_name)) fields) = self.
Proof. destruct self. reflexivity. Qed.

Lemma assign_unknown {V : Type} (known : string -> bool) (ov cur : dict V) :
  (forall k, In k (dict_keys ov) -> known k = false) ->
  fold_left
    (fun (current : dict V) (kv : string * V) =>
       if known (fst kv) then dict_set current (fst kv) (snd kv) else current)
    ov cur
  = cur.
Proof.
  revert cur. induction ov as [|[k v] ov IH]; intros cur Hunk; [reflexivity|].
  cbn [fold_left fst snd]. rewrite (Hunk k) by now left.
  apply IH. intros k' Hin. apply Hunk. now right.
Qed.

(** X3: [merge] with overrides that name no field, the empty ones
    among them, returns an instance equal to [self]. *)
Theorem merge_unknown_keys (self : t) (overrides : dict PyVal) :
  (forall k, In k (dict_keys overrides) -> ~ In k fields) ->
  merge self overrides = self.
Proof.
  intros Hunk. unfold merge.
  rewrite (assign_unknown (fun k => existsb (String.eqb k) fields)).
  - apply of_dict_fields.
  - intros k Hin. destruct (existsb (String.eqb k) fields) eqn:Hex;
      [|reflexivity].
    apply existsb_exists in Hex. destruct Hex as (f & Hf & Heq).
    apply String.eqb_eq in Heq. subst f. now elim (Hunk k Hin).
Qed.

Lemma merge_unknown_keys_witness :
  merge three_set [("unknown", VStr "value")] = three_set
  /\ merge three_set [] = three_set.
Proof.
  split.
  - apply (merge_unknown_keys three_set [("unknown", VStr "value")]).
    intros k [<-|[]] Hin. simpl in Hin.
    repeat (destruct Hin as [Heq|Hin]; [discriminate Heq|]). contradiction.
  - apply (merge_unknown_keys three_set []). intros k [].
Defined.

(** X4: an option set that [from_kwargs] returns, turned into the wire
    record, has under the wire name of a field the value the keywords
    give the field, when they give one that is not [None]; and every
    key of the record comes from such a keyword, so a keyword that
    names no field leaves no key. *)
Theorem from_kwargs_to_js_dict (kwargs : dict PyVal) (options : t) :
  from_kwargs kwargs = Ok options ->
  (forall f, In f fields ->
     dict_get (to_js_dict options) (camel f)
     = match dict_get kwargs f with
       | Some v => if is_None v then None else Some v
       | None => None
       end)
  /\ (forall k, In k (dict_keys (to_js_dict options)) ->
        exists f v,
          In f fields /\ camel f = k /\ dict_get kwargs f = Some v
          /\ v <> VNone).
Proof.
  intros Hret. split.
  - intros f Hin. rewrite OptionsProps.to_js_dict_get by exact Hin.
    unfold present. rewrite (getattr_from_kwargs kwargs options f Hret Hin).
    unfold dict_get_default. destruct (dict_get kwargs f) as [v|];
      [destruct v|]; reflexivity.
  - intros k Hk. rewrite OptionsProps.to_js_dict_keys in Hk.
    apply in_map_iff in Hk. destruct Hk as (f & Hf & Hin).
    apply filter_In in Hin. destruct Hin as [Hin Hp].
    unfold present in Hp.
    rewrite (getattr_from_kwargs kwargs options f Hret Hin) in Hp.
    unfold dict_get_default in Hp.
    destruct (dict_get kwargs f) as [v|] eqn:Hg; [|discriminate].
    exists f, v. repeat split; try assumption.
    intros ->. discriminate.
Qed.

(** [from_kwargs(bar_width=5, unknown_key=1).to_js_dict()] *)
Lemma from_kwargs_to_js_dict_witness :
  dict_get
    (to_js_dict
       (of_dict
          (List.filter (fun kv => existsb (String.eqb (fst kv)) fields)
             [("bar_width", VInt 5); ("unknown_key", VInt 1)])))
    "barWidth"
  = Some (VInt 5).
Proof.
  apply (proj1 (from_kwargs_to_js_dict
                  [("bar_width", VInt 5); ("unknown_key", VInt 1)] _ eq_refl)
           "bar_width").
  in_list.
Defined.

End OptionsMore.

(** ** More on themes and the registry *)

Module ThemeMore.
Import Py PyFacts Notions MoreNotions Examples.

Lemma filter_andb {A : Type} (p q : A -> bool) (l : list A) :
  List.filter (fun x => p x && q x) l = List.filter q (List.filter p l).
Proof.
  induction l as [|a l IH]; simpl; [reflexivity|].
  destruct (p a); simpl; [destruct (q a); now rewrite IH|exact IH].
Qed.

Lemma waveform_fields_of_theme :
  List.filter (fun f_name => bool_decide (f_name ∈ Theme.waveform_fields))
    Theme.fields
  = waveform_names.
Proof. vm_compute. reflexivity. Qed.

Lemma waveform_overrides_closed (self : Theme.t) :
  Theme.waveform_overrides self
  = map (fun f => (f, Theme.getattr self f))
      (List.filter (fun f => negb (is_None (Theme.getattr self f)))
         waveform_names).
Proof.
  unfold Theme.waveform_overrides.
  rewrite (filter_andb
             (fun f_name => bool_decide (f_name ∈ Theme.waveform_fields))
             (fun f_name => negb (is_None (Theme.getattr self f_name)))).
  now rewrite waveform_fields_of_theme.
Qed.

Lemma waveform_names_NoDup : List.NoDup waveform_names.
Proof.
  unfold waveform_names.
  repeat (constructor; [simpl; intuition discriminate|]). constructor.
Qed.

(** X5: [waveform_overrides] holds entries for waveform fields only,
    never for a field of the chrome, each with the value the theme
    has for it and never [None]; and every waveform field that has a
    value is there. *)
Theorem waveform_overrides_only_waveform (self : Theme.t) :
  (forall k v, In (k, v) (Theme.waveform_overrides self) ->
     In k waveform_names /\ v = Theme.getattr self k /\ v <> VNone)
  /\ (forall k, In k waveform_names -> Theme.getattr self k <> VNone ->
        dict_get (Theme.waveform_overrides self) k
        = Some (Theme.getattr self k))
  /\ List.NoDup (dict_keys (Theme.waveform_overrides self)).
Proof.
  rewrite waveform_overrides_closed. split; [|split].
  - intros k v Hin. apply in_map_iff in Hin.
    destruct Hin as (f & Heq & Hin). injection Heq as <- <-.
    apply filter_In in Hin. destruct Hin as [Hin Hp].
    repeat split; [exact Hin|]. intros Hnone. now rewrite Hnone in Hp.
  - intros k Hin Hval.
    apply (dict_get_map (fun f => f) (Theme.getattr self)).
    + rewrite map_id. apply List.NoDup_filter, waveform_names_NoDup.
    + apply filter_In. split; [exact Hin|].
      destruct (Theme.getattr self k); [now elim Hval|reflexivity..].
  - unfold dict_keys. rewrite map_map. cbn [fst]. rewrite map_id.
    apply List.NoDup_filter, waveform_names_NoDup.
Qed.

Lemma waveform_overrides_only_waveform_witness :
  dict_get (Theme.waveform_overrides Theme.LIGHT) "wave_color"
  = Some (VStr "#555577").
Proof.
  apply (proj1 (proj2 (waveform_overrides_only_waveform Theme.LIGHT))
           "wave_color").
  - in_list.
  - discriminate.
Defined.

End ThemeMore.

Module RegistryMore.
Import Py PyFacts ThemeRegistry Notions MoreNotions Examples.

Lemma contains_lookup (self : t) (name : string) :
  __contains__ self name = match _themes self !! name with
                           | Some _ => true
                           | None => false
                           end.
Proof.
  unfold __contains__. destruct (_themes self !! name) as [th|] eqn:Hl.
  - apply bool_decide_eq_true. eauto.
  - apply bool_decide_eq_false. intros [th Hth]. discriminate.
Qed.

(** X6: [register] of a [Theme] returns, and afterwards the name is in
    the registry and [get], indexing and [resolve] by that name give
    the theme that was registered; the default and every other name
    are as before.  An object that is not a [Theme] is refused with
    [TypeError]. *)
Theorem register_then_lookup `{Unicode} (self : t) (name : string)
  (theme : Theme.t) :
  exists self' : t,
    register self name (ObjTheme theme) = Ok self'
    /\ __setitem__ self name (ObjTheme theme) = Ok self'
    /\ __contains__ self' name = true
    /\ get self' name = Ok theme
    /\ __getitem__ self' name = Ok theme
    /\ resolve self' (ArgName name) = Ok theme
    /\ default self' = default self
    /\ (forall other, other <> name ->
          _themes self' !! other = _themes self !! other
          /\ __contains__ self' other = __contains__ self other)
    /\ (forall type_name,
          register self name (ObjOther type_name)
          = Raise (TypeError
                     ("Expected a Theme instance, got " ++ type_name))).
Proof.
  eexists. split; [reflexivity|]. split; [reflexivity|].
  assert (Hl : <[name := theme]> (_themes self) !! name = Some theme)
    by apply lookup_insert_eq.
  repeat split.
  - rewrite contains_lookup. cbn [_themes]. now rewrite Hl.
  - unfold get. cbn [_themes]. now rewrite Hl.
  - unfold __getitem__, get. cbn [_themes]. now rewrite Hl.
  - unfold resolve, get. cbn [_themes]. now rewrite Hl.
  - cbn [_themes]. now apply lookup_insert_ne.
  - rewrite !contains_lookup. cbn [_themes].
    now rewrite lookup_insert_ne by congruence.
Qed.

Lemma register_then_lookup_witness :
  _themes only_custom !! "dark" = _themes __init__ !! "dark".
Proof.
  destruct (register_then_lookup __init__ "custom" Theme.default)
    as (r & Hreg & _ & _ & _ & _ & _ & _ & Hother & _).
  cbv [register] in Hreg. injection Hreg as <-.
  exact (proj1 (Hother "dark" ltac:(discriminate))).
Defined.

(** X7: a name is in the registry, and then [get] returns its theme
    and [enable] returns a registry with the same themes and that name
    as default; or it is not, and then [get] and [enable] raise
    [KeyError] with a message that holds the [repr] of the name, [get]
    listing the registered names in sorted order. *)
Theorem get_and_enable_guarded `{Unicode} (self : t) (name : string) :
  match _themes self !! name with
  | Some theme =>
      __contains__ self name = true
      /\ get self name = Ok theme
      /\ enable self name
         = Ok {| _themes := _themes self; _default := name |}
  | None =>
      __contains__ self name = false
      /\ get self name
         = Raise (KeyError ("Unknown theme " ++ repr_str name
                            ++ ". Available: " ++ join ", " (names self)))
      /\ enable self name
         = Raise (KeyError ("Cannot set default to unregistered theme "
                            ++ repr_str name))
  end.
Proof.
  unfold enable, set_default, get. rewrite contains_lookup.
  destruct (_themes self !! name); repeat split.
Qed.

(** The name in the message is written as [repr] writes it: with the
    Latin-1 part of the Unicode database, the no-break space of a
    name (the bytes 194 and 160 of its UTF-8 text) comes out as the
    four characters of its escape. *)
Example unknown_name_is_escaped :
  get themes (String "194" (String "160" "x"))
  = Raise (KeyError "Unknown theme '\xa0x'. Available: dark, light").
Proof. vm_compute. reflexivity. Qed.

(** X8: from the module-level registry, whatever calls of [register]
    and [enable] have returned, [resolve(None)] returns the theme
    registered under the current default; it does not raise. *)
Theorem reachable_resolve_None `{Unicode} (self : t) :
  reachable self ->
  exists theme : Theme.t,
    resolve self ArgNone = Ok theme
    /\ get self (default self) = Ok theme.
Proof.
  intros Hreach.
  assert (Hd : default_registered self).
  { induction Hreach as [|r r' name theme _ IH Hreg|r r' name _ _ Hen].
    - apply RegistryProps.themes_default_registered.
    - exact (RegistryProps.register_default_registered _ _ _ _ IH Hreg).
    - exact (RegistryProps.enable_default_registered _ _ _ Hen). }
  destruct Hd as [theme Hth]. exists theme.
  unfold resolve, get, default. now rewrite Hth.
Qed.

Lemma reachable_resolve_None_witness :
  exists theme : Theme.t,
    resolve {| _themes := <["custom" := Theme.default]> (_themes themes);
               _default := "custom" |} ArgNone
    = Ok theme
    /\ get {| _themes := <["custom" := Theme.default]> (_themes themes);
              _default := "custom" |} "custom"
       = Ok theme.
Proof.
  apply (reachable_resolve_None
           {| _themes := <["custom" := Theme.default]> (_themes themes);
              _default := "custom" |}).
  apply (reach_enable
           {| _themes := <["custom" := Theme.default]> (_themes themes);
              _default := "dark" |} _ "custom"); [|reflexivity].
  apply (reach_register themes _ "custom" (ObjTheme Theme.default));
    [apply reach_themes|reflexivity].
Defined.

Lemma Sorted_weaken {A : Type} (R S : A -> A -> Prop) (l : list A) :
  (forall a b, R a b -> S a b) -> Sorted R l -> Sorted S l.
Proof.
  intros Himpl Hs. induction Hs as [|a l Hs IH Hhd]; constructor.
  - exact IH.
  - destruct Hhd; constructor. now apply Himpl.
Qed.

(** X9: [names] lists the registered names, each once, in the order of
    [sorted]. *)
Theorem names_sorted (self : t) :
  Sorted str_le (names self)
  /\ List.NoDup (names self)
  /\ (forall name, In name (names self) <-> __contains__ self name = true).
Proof.
  unfold names.
  assert (Hperm : merge_sort String.leb (map fst (map_to_list (_themes self)))
                  ≡ₚ map fst (map_to_list (_themes self)))
    by apply merge_sort_Permutation.
  split; [|split].
  - apply (Sorted_weaken (fun a b => Is_true (String.leb a b))).
    + intros a b. apply Is_true_true.
    + apply Sorted_merge_sort. intros a b.
      destruct (String.leb_total a b) as [Hab|Hba]; [left|right];
        now apply Is_true_true.
  - apply NoDup_ListNoDup. rewrite Hperm. apply NoDup_fst_map_to_list.
  - intros name. rewrite <- list_elem_of_In, Hperm, contains_lookup.
    change (map fst (map_to_list (_themes self)))
      with ((map_to_list (_themes self)).*1).
    rewrite list_elem_of_fmap. split.
    + intros ([k th] & -> & Hin). apply elem_of_map_to_list in Hin.
      cbn [fst]. now rewrite Hin.
    + destruct (_themes self !! name) as [th|] eqn:Hl; [|discriminate].
      intros _. exists (name, th). split; [reflexivity|].
      now apply elem_of_map_to_list.
Qed.

End RegistryMore.

(** ** More on the controls *)

Module ControlsMore.
Import Py PyFacts Controls Notions MoreNotions Examples.

Lemma element_id_app (tag kind uid rest : string) :
  element_id tag kind uid ++ rest
  = "<" ++ tag ++ " id=" ++ DQ ++ kind ++ "-" ++ uid ++ DQ ++ rest.
Proof. unfold element_id. now rewrite !string_app_assoc. Qed.

(** X10: the control bar is there exactly when some control is shown:
    with none, [build_controls_html] returns the empty text and
    [controls_height] 0; with one or more, the markup is the element
    [controls-uid] and the height is 54. *)
Theorem controls_bar_when_shown (uid : string) (c : t) (theme : Theme.t) :
  if no_controls c then
    build_controls_html uid c theme = EmptyString /\ controls_height c = 0
  else
    (exists rest : string,
       build_controls_html uid c theme = element_id "div" "controls" uid ++ rest)
    /\ controls_height c = 54.
Proof.
  unfold no_controls, controls_height, build_controls_html.
  destruct c as [play time volume rate style layout].
  cbn [show_play_button show_time show_volume show_playback_rate].
  destruct play, time, volume, rate; cbn [orb negb].
  16: split; reflexivity.
  all: split; [|reflexivity].
  all: cbv zeta; unfold effective_style, append.
  all: cbn [app Controls.play_button_style].
  all: repeat match goal with
              | |- context [String.eqb ?a ?b] => destruct (String.eqb a b)
              end.
  all: eexists; rewrite element_id_app; reflexivity.
Qed.

Lemma occurs_skip (p a s : string) : occurs_in p s -> occurs_in p (a ++ s).
Proof.
  intros (pre & post & ->). exists (a ++ pre), post.
  now rewrite string_app_assoc.
Qed.

Lemma occurs_head (p a s : string) : occurs_in p a -> occurs_in p (a ++ s).
Proof.
  intros (pre & post & ->). exists pre, (post ++ s).
  now rewrite !string_app_assoc.
Qed.

Lemma occurs_element (tag kind uid rest : string) :
  occurs_in (element_id tag kind uid)
    ("<" ++ tag ++ " id=" ++ DQ ++ kind ++ "-" ++ uid ++ DQ ++ rest).
Proof.
  exists EmptyString, rest. cbn [String.append]. now rewrite element_id_app.
Qed.

Lemma occurs_lookup (before kind uid rest : string) :
  occurs_in (element_lookup kind uid)
    (before ++ "document.getElementById(" ++ DQ ++ kind ++ "-" ++ uid ++ DQ
     ++ ")" ++ rest).
Proof.
  exists before, rest. unfold element_lookup.
  now rewrite !string_app_assoc.
Qed.

Lemma occurs_join_here (p sep x : string) (l : list string) :
  occurs_in p x -> occurs_in p (join sep (x :: l)).
Proof.
  intros Hx. unfold join. destruct l as [|y l]; cbn [String.concat];
    [exact Hx|now apply occurs_head].
Qed.

Lemma occurs_join_later (p sep x : string) (l : list string) :
  occurs_in p (join sep l) -> occurs_in p (join sep (x :: l)).
Proof.
  intros Hl. unfold join in *. destruct l as [|y l].
  - destruct Hl as (pre & post & Heq). cbn [String.concat] in Heq.
    destruct pre; [|discriminate]. destruct p; [|discriminate].
    exists EmptyString, x. reflexivity.
  - cbn [String.concat] in *. now do 2 apply occurs_skip.
Qed.

(** The first item of a joined list at the head of which [base] finds
    the text. *)
Ltac find_item base :=
  first [ apply occurs_join_here; base
        | apply occurs_join_later; find_item base ].

(** Down a concatenation to the joined list it holds. *)
Ltac to_join :=
  lazymatch goal with
  | |- occurs_in _ (join _ _ ++ _) => apply occurs_head
  | |- occurs_in _ (join _ _) => idtac
  | |- occurs_in _ (_ ++ _) => apply occurs_skip; to_join
  end.

(** X11: every control that is shown has its element in the markup,
    under the identifier made of its kind and of [uid], and the script
    looks that very identifier up. *)
Theorem shown_controls_are_wired (uid : string) (c : t) (theme : Theme.t)
  (ws_var : string) :
  (show_play_button c = true ->
     occurs_in (element_id "button" "play" uid)
       (build_controls_html uid c theme)
     /\ occurs_in (element_lookup "play" uid) (build_controls_js uid c ws_var))
  /\ (show_time c = true ->
        occurs_in (element_id "span" "time" uid)
          (build_controls_html uid c theme)
        /\ occurs_in (element_lookup "time" uid)
             (build_controls_js uid c ws_var))
  /\ (show_volume c = true ->
        occurs_in (element_id "input" "volume" uid)
          (build_controls_html uid c theme)
        /\ occurs_in (element_lookup "volume" uid)
             (build_controls_js uid c ws_var))
  /\ (show_playback_rate c = true ->
        occurs_in (element_id "select" "rate" uid)
          (build_controls_html uid c theme)
        /\ occurs_in (element_lookup "rate" uid)
             (build_controls_js uid c ws_var)).
Proof.
  unfold build_controls_html, build_controls_js.
  destruct c as [play time volume rate style layout].
  cbn [show_play_button show_time show_volume show_playback_rate].
  cbv zeta. unfold effective_style, append, extend.
  cbn [Controls.play_button_style].
  split; [|split; [|split]]; intros ->; split; destruct_all bool;
    repeat match goal with
           | |- context [String.eqb ?a ?b] => destruct (String.eqb a b)
           end;
    cbn [app]; cbv beta iota; to_join;
    unfold _shield_button_html, _minimal_button_html, _circle_button_html;
    cbv zeta;
    lazymatch goal with
    | |- occurs_in (element_id ?tag ?kind _) _ =>
        find_item ltac:(apply (occurs_element tag kind))
    | |- occurs_in (element_lookup "play" _) _ =>
        find_item ltac:(apply (occurs_lookup "var btn = " "play"))
    | |- occurs_in (element_lookup "time" _) _ =>
        find_item ltac:(apply (occurs_lookup "var timeEl = " "time"))
    | |- occurs_in (element_lookup "volume" _) _ =>
        find_item ltac:(apply (occurs_lookup "var volEl = " "volume"))
    | |- occurs_in (element_lookup "rate" _) _ =>
        find_item ltac:(apply (occurs_lookup "var rateEl = " "rate"))
    end.
Qed.

Lemma shown_controls_are_wired_witness :
  occurs_in (element_id "span" "time" "abc")
    (build_controls_html "abc" Controls.default Theme.DARK)
  /\ occurs_in (element_lookup "time" "abc")
       (build_controls_js "abc" Controls.default "ws").
Proof.
  apply (proj1 (proj2 (shown_controls_are_wired "abc" Controls.default
                         Theme.DARK "ws"))).
  reflexivity.
Defined.

End ControlsMore.

(** ** More on events and plugins *)

Module EventsMore.
Import Py PyFacts Notions MoreNotions Examples.

(** X12: the factory class methods and the table of parameters go
    together: in the order of their declaration the factories name the
    events of the table, one each, so the statement of a handler made
    by a factory takes its parameters from the table; and a factory
    keeps the code and the flag it is given. *)
Theorem factories_match_table (js : string) (once : bool) :
  map (fun f => EventHandler.event (f js once)) EventFactories.factories
  = dict_keys EventHandler.EVENT_PARAMS
  /\ List.NoDup (dict_keys EventHandler.EVENT_PARAMS)
  /\ Forall
       (fun f =>
          EventHandler.js (f js once) = js
          /\ EventHandler.once (f js once) = once
          /\ exists params,
               dict_get EventHandler.EVENT_PARAMS
                 (EventHandler.event (f js once))
               = Some params
               /\ forall ws_var,
                    EventHandler.to_js (f js once) ws_var
                    = ws_var ++ "." ++ (if once then "once" else "on") ++ "("
                      ++ DQ ++ EventHandler.event (f js once) ++ DQ
                      ++ ", function(" ++ join ", " params ++ ") { " ++ js
                      ++ " });")
       EventFactories.factories.
Proof.
  split; [reflexivity|]. split.
  - apply (NoDup_count_occ' string_dec). intros x Hin. simpl in Hin.
    repeat (destruct Hin as [<-|Hin]; [vm_compute; reflexivity|]).
    contradiction.
  - unfold EventFactories.factories.
    repeat (constructor;
            [split; [reflexivity|];
             split; [reflexivity|];
             eexists; split; [reflexivity|]; intros ws_var; reflexivity|]).
    constructor.
Qed.

(** X13: the expression [to_js_create] gives is always the name, then
    [.create(], the JSON text of the options and [)]: the branch for
    empty options gives what [json.dumps] gives for them. *)
Theorem to_js_create_is_json (self : PluginConfig.t) :
  PluginConfig.to_js_create self
  = PluginConfig.name self ++ ".create("
    ++ json_dumps (VDict (PluginConfig.options self)) ++ ")".
Proof.
  unfold PluginConfig.to_js_create.
  destruct (PluginConfig.options self); reflexivity.
Qed.

End EventsMore.

(** ** More on the markup *)

Module HtmlMore.
Import Py PyFacts Notions MoreNotions Examples.

(** X14: an empty title is no title: the markup of the player and the
    estimated height are those of a player without a title. *)
Theorem empty_title_is_no_title (uid url : string)
  (options : WaveSurferOptions.t) (theme : Theme.t) (controls : Controls.t)
  (events : option (list EventHandler.t))
  (plugins : option (list PluginConfig.t)) :
  Html.build_player_html uid url (Some EmptyString) options theme controls
    events plugins
  = Html.build_player_html uid url None options theme controls events plugins
  /\ Html.estimate_player_height (Some EmptyString) theme controls
     = Html.estimate_player_height None theme controls.
Proof. split; reflexivity. Qed.

Lemma html_escape_drops (c : ascii) (s : string) :
  In c html_special -> c <> "&"%char -> has_char c (html_escape s) = false.
Proof.
  intros Hin Hamp. unfold html_escape.
  destruct Hin as [<-|[<-|[<-|[<-|[<-|[]]]]]]; [now elim Hamp|..].
  - do 3 (apply HtmlProps.replace_char_keeps_out; [reflexivity|]).
    apply HtmlProps.replace_char_removes. reflexivity.
  - do 2 (apply HtmlProps.replace_char_keeps_out; [reflexivity|]).
    apply HtmlProps.replace_char_removes. reflexivity.
  - apply HtmlProps.replace_char_keeps_out; [reflexivity|].
    apply HtmlProps.replace_char_removes. reflexivity.
  - apply HtmlProps.replace_char_removes. reflexivity.
Qed.

(** X15: the title enters the title block in one place, escaped: the
    block is a text that depends on the theme only, then
    [html.escape(title)], then the closing tag; and the escaped title
    has no angle bracket and no quote. *)
Theorem title_block_escapes_title (theme : Theme.t) :
  exists before : string,
    forall title : string,
      Html._build_title_html title theme
      = before ++ html_escape title ++ "</div>"
      /\ Forall (fun c => has_char c (html_escape title) = false)
           ["<"; ">"; "034"; "'"]%char.
Proof.
  eexists. intros title. split.
  - unfold Html._build_title_html. cbv zeta.
    rewrite <- !string_app_assoc. reflexivity.
  - repeat constructor; apply html_escape_drops;
      (in_list || discriminate).
Qed.

Lemma estimate_split (title : option string) (theme : Theme.t)
  (controls : Controls.t) :
  Html.estimate_player_height title theme controls
  = Html.estimate_player_height None theme hidden_controls
    + (if truthy title then 42 else 0)
    + (if no_controls controls then 0 else 54).
Proof.
  unfold Html.estimate_player_height, Controls.controls_height, no_controls.
  cbn [hidden_controls Controls.show_play_button Controls.show_time
       Controls.show_volume Controls.show_playback_rate orb negb truthy].
  destruct (truthy title);
    destruct (negb (Controls.show_play_button controls
                    || Controls.show_time controls
                    || Controls.show_volume controls
                    || Controls.show_playback_rate controls));
    destruct (Theme.height theme) as [h|]; try destruct (Z.eqb h 0); lia.
Qed.

(** X16: the estimated height grows by 42 with a title that is not
    empty and by 54 with any control shown, whatever the theme; a
    theme with no height, or with the height 0, counts for 80. *)
Theorem estimate_player_height_grows (title : option string)
  (theme : Theme.t) (controls : Controls.t) :
  Html.estimate_player_height title theme controls
  = Html.estimate_player_height None theme controls
    + (if truthy title then 42 else 0)
  /\ Html.estimate_player_height title theme controls
     = Html.estimate_player_height title theme hidden_controls
       + (if no_controls controls then 0 else 54)
  /\ Html.estimate_player_height None theme hidden_controls
     = 48 + match Theme.height theme with
            | Some 0 | None => 80
            | Some h => h
            end.
Proof.
  rewrite (estimate_split title theme controls),
    (estimate_split None theme controls),
    (estimate_split title theme hidden_controls).
  cbn [truthy no_controls hidden_controls Controls.show_play_button
       Controls.show_time Controls.show_volume Controls.show_playback_rate
       orb negb].
  repeat split; try lia.
  unfold Html.estimate_player_height, Controls.controls_height.
  cbn [hidden_controls Controls.show_play_button Controls.show_time
       Controls.show_volume Controls.show_playback_rate orb negb truthy].
  destruct (Theme.height theme) as [[|h|h]|]; cbn [Z.eqb]; lia.
Qed.

Lemma fold_left_append {A B : Type} (g : A -> B) (xs : list A) (l : list B) :
  fold_left (fun lines x => append lines (g x)) xs l = (l ++ map g xs)%list.
Proof.
  revert l. induction xs as [|x xs IH]; intros l; simpl.
  - now rewrite app_nil_r.
  - rewrite IH. unfold append. now rewrite <- app_assoc.
Qed.

(** The script is the lines of the module joined, the second of which
    creates the player with [player_js_opts]. *)
Lemma script_lines (uid url : string) (options : WaveSurferOptions.t)
  (events : option (list EventHandler.t))
  (plugins : option (list PluginConfig.t)) (controls_js : string) :
  exists more : list string,
    Html._build_wavesurfer_js uid url options events plugins controls_js
    = join LF
        ("(function() {"
         :: ("  var ws = WaveSurfer.create("
             ++ json_dumps (VDict (player_js_opts uid url options)) ++ ");")
         :: more).
Proof.
  unfold Html._build_wavesurfer_js, player_js_opts. cbv zeta.
  destruct plugins as [[|p ps]|], events as [[|e es]|],
    controls_js as [|c cs];
    rewrite ?fold_left_append; unfold append; cbn [app];
    eexists; reflexivity.
Qed.

Lemma dict_get_setdefault {V : Type} (d : dict V) (k k0 : string) (v : V) :
  dict_get (dict_setdefault d k v) k0
  = if String.eqb k k0
    then Some (dict_get_default d k v)
    else dict_get d k0.
Proof.
  unfold dict_setdefault, dict_contains, dict_get_default.
  destruct (String.eqb_spec k k0) as [<-|Hne].
  - destruct (dict_get d k) eqn:Hg; [exact Hg|].
    apply OptionsMore.dict_get_set_eq.
  - destruct (dict_get d k); [reflexivity|].
    now apply OptionsMore.dict_get_set_ne.
Qed.

Lemma player_js_opts_get (uid url : string) (options : WaveSurferOptions.t)
  (k : string) :
  dict_get (player_js_opts uid url options) k
  = if String.eqb "cursorWidth" k then
      Some (dict_get_default (WaveSurferOptions.to_js_dict options)
              "cursorWidth" (VInt 2))
    else if String.eqb "hideScrollbar" k then
      Some (dict_get_default (WaveSurferOptions.to_js_dict options)
              "hideScrollbar" (VBool true))
    else if String.eqb "url" k then Some (VStr url)
    else if String.eqb "container" k then Some (VStr ("#waveform-" ++ uid))
    else dict_get (WaveSurferOptions.to_js_dict options) k.
Proof.
  unfold player_js_opts. cbv zeta.
  rewrite dict_get_setdefault.
  destruct (String.eqb_spec "cursorWidth" k) as [<-|Hcw].
  - unfold dict_get_default. rewrite dict_get_setdefault. cbn [String.eqb Ascii.eqb Bool.eqb].
    now rewrite !OptionsMore.dict_get_set_ne by discriminate.
  - rewrite dict_get_setdefault.
    destruct (String.eqb_spec "hideScrollbar" k) as [<-|Hhs].
    + unfold dict_get_default.
      now rewrite !OptionsMore.dict_get_set_ne by discriminate.
    + destruct (String.eqb_spec "url" k) as [<-|Hurl].
      * now rewrite OptionsMore.dict_get_set_eq.
      * rewrite OptionsMore.dict_get_set_ne by exact Hurl.
        destruct (String.eqb_spec "container" k) as [<-|Hco].
        -- now rewrite OptionsMore.dict_get_set_eq.
        -- now rewrite OptionsMore.dict_get_set_ne by exact Hco.
Qed.

(** X17: the script creates the player with the JSON text of a record
    that always has [container], the selector of the mount point of
    this [uid], and [url], the resolved source, whatever the option
    set says for them; [hideScrollbar] and [cursorWidth] are the
    values of the option set, or [true] and 2 when it has none; every
    other option is passed as [to_js_dict] gives it. *)
Theorem player_script_options (uid url : string)
  (options : WaveSurferOptions.t) (events : option (list EventHandler.t))
  (plugins : option (list PluginConfig.t)) (controls_js : string) :
  let opts := player_js_opts uid url options in
  occurs_in ("WaveSurfer.create(" ++ json_dumps (VDict opts) ++ ");")
    (Html._build_wavesurfer_js uid url options events plugins controls_js)
  /\ dict_get opts "container" = Some (VStr ("#waveform-" ++ uid))
  /\ dict_get opts "url" = Some (VStr url)
  /\ dict_get opts "hideScrollbar"
     = Some match WaveSurferOptions.hide_scrollbar options with
            | VNone => VBool true
            | v => v
            end
  /\ dict_get opts "cursorWidth"
     = Some match WaveSurferOptions.cursor_width options with
            | VNone => VInt 2
            | v => v
            end
  /\ (forall k,
        ~ In k ["container"; "url"; "hideScrollbar"; "cursorWidth"] ->
        dict_get opts k = dict_get (WaveSurferOptions.to_js_dict options) k).
Proof.
  intros opts. subst opts. split; [|split; [|split; [|split; [|split]]]].
  - destruct (script_lines uid url options events plugins controls_js)
      as [more ->].
    apply ControlsMore.occurs_join_later, ControlsMore.occurs_join_here.
    exists "  var ws = ", EmptyString.
    rewrite !string_app_assoc. cbn [String.append].
    rewrite ?string_app_nil_r. reflexivity.
  - now rewrite player_js_opts_get.
  - now rewrite player_js_opts_get.
  - rewrite player_js_opts_get. cbn [String.eqb Ascii.eqb Bool.eqb].
    unfold dict_get_default.
    change "hideScrollbar" with (camel "hide_scrollbar").
    rewrite OptionsProps.to_js_dict_get by in_list. unfold present.
    change (WaveSurferOptions.getattr options "hide_scrollbar")
      with (WaveSurferOptions.hide_scrollbar options).
    destruct (WaveSurferOptions.hide_scrollbar options); reflexivity.
  - rewrite player_js_opts_get. cbn [String.eqb Ascii.eqb Bool.eqb].
    unfold dict_get_default.
    change "cursorWidth" with (camel "cursor_width").
    rewrite OptionsProps.to_js_dict_get by in_list. unfold present.
    change (WaveSurferOptions.getattr options "cursor_width")
      with (WaveSurferOptions.cursor_width options).
    destruct (WaveSurferOptions.cursor_width options); reflexivity.
  - intros k Hk. rewrite player_js_opts_get.
    destruct (String.eqb_spec "cursorWidth" k) as [<-|_];
      [elim Hk; in_list|].
    destruct (String.eqb_spec "hideScrollbar" k) as [<-|_];
      [elim Hk; in_list|].
    destruct (String.eqb_spec "url" k) as [<-|_]; [elim Hk; in_list|].
    destruct (String.eqb_spec "container" k) as [<-|_]; [elim Hk; in_list|].
    reflexivity.
Qed.

Lemma player_script_options_witness :
  dict_get (player_js_opts "u1" "https://example.com/audio.wav" three_set)
    "barWidth"
  = dict_get (WaveSurferOptions.to_js_dict three_set) "barWidth".
Proof.
  apply (player_script_options "u1" "https://example.com/audio.wav" three_set
           None None EmptyString).
  simpl. intuition discriminate.
Defined.

End HtmlMore.

(** ** More on the audio *)

Module AudioMore.
Import Py PyFacts Audio Examples.

Section with_codec.
Context `{Codec}.

Lemma data_url_prefix (a : ndarray) (rate : Z) (url : string) :
  audio_to_data_url a rate = Ok url ->
  String.prefix "data:audio/wav;base64," url = true.
Proof.
  unfold audio_to_data_url. destruct (sf_write a rate) as [buf|e];
    [|discriminate].
  cbn [bind]. intros Heq. injection Heq as <-.
  cbn [String.append String.prefix].
  repeat (destruct (ascii_dec _ _) as [_|Hne]; [|now elim Hne]).
  now destruct (b64encode _).
Qed.

(** X18: whatever [resolve_audio] returns is either the text it was
    given, a text that starts with [http://] or [https://], with the
    rate that was passed; or a [data:audio/wav;base64,] URL with a
    rate that is not [None]. *)
Theorem resolve_audio_returns (audio : AudioInput) (sr : option Z)
  (url : string) (rate : option Z) :
  resolve_audio audio sr = Ok (url, rate) ->
  (startswith_any ["http://"; "https://"] url = true
   /\ rate = sr /\ (audio = AudioStr url \/ audio = AudioPath url))
  \/ (String.prefix "data:audio/wav;base64," url = true
      /\ exists r, rate = Some r).
Proof.
  unfold resolve_audio.
  destruct audio as [a|t|s|s|name]; cbn [bind]; [| | | |discriminate].
  - destruct sr as [r|]; [|discriminate].
    destruct (audio_to_data_url a r) as [u|e] eqn:Hurl; [|discriminate].
    cbn [bind]. intros Heq. injection Heq as <- <-. right.
    split; [exact (data_url_prefix _ _ _ Hurl)|now exists r].
  - destruct (_torch_to_numpy t) as [a|e]; [|discriminate]. cbn [bind].
    destruct sr as [r|]; [|discriminate].
    destruct (audio_to_data_url a r) as [u|e] eqn:Hurl; [|discriminate].
    cbn [bind]. intros Heq. injection Heq as <- <-. right.
    split; [exact (data_url_prefix _ _ _ Hurl)|now exists r].
  - destruct (startswith_any _ s) eqn:Hs.
    + intros Heq. injection Heq as <- <-. left. auto.
    + unfold load_audio_file. destruct (sf_read s) as [[data r]|e];
        [|discriminate].
      cbn [bind].
      destruct (audio_to_data_url data r) as [u|e] eqn:Hurl; [|discriminate].
      cbn [bind]. intros Heq. injection Heq as <- <-. right.
      split; [exact (data_url_prefix _ _ _ Hurl)|now exists r].
  - destruct (startswith_any _ s) eqn:Hs.
    + intros Heq. injection Heq as <- <-. left. auto.
    + unfold load_audio_file. destruct (sf_read s) as [[data r]|e];
        [|discriminate].
      cbn [bind].
      destruct (audio_to_data_url data r) as [u|e] eqn:Hurl; [|discriminate].
      cbn [bind]. intros Heq. injection Heq as <- <-. right.
      split; [exact (data_url_prefix _ _ _ Hurl)|now exists r].
Qed.

(** X19: a text that starts with neither prefix is a path, whether it
    comes as a [str] or as a [Path]: the file is read, the rate the
    caller passed is not looked at, the rate returned is that of the
    file, with the [data:] URL of what was read, and an error of the
    reader is the error of the call; so is an error of the writer,
    should it refuse what the reader gave. *)
Theorem resolve_audio_reads_file (s : string) (sr sr' : option Z) :
  startswith_any ["http://"; "https://"] s = false ->
  resolve_audio (AudioStr s) sr = resolve_audio (AudioPath s) sr'
  /\ match sf_read s with
     | Ok (data, file_sr) =>
         match sf_write data file_sr with
         | Ok buf =>
             resolve_audio (AudioStr s) sr
             = Ok ("data:audio/wav;base64," ++ b64encode buf, Some file_sr)
         | Raise e => resolve_audio (AudioStr s) sr = Raise e
         end
     | Raise e => resolve_audio (AudioStr s) sr = Raise e
     end.
Proof.
  intros Hno. unfold resolve_audio, load_audio_file. cbn [bind]. rewrite Hno.
  split; [reflexivity|].
  destruct (sf_read s) as [[data file_sr]|e]; [|reflexivity].
  cbn [bind]. unfold audio_to_data_url.
  destruct (sf_write data file_sr) as [buf|e]; reflexivity.
Qed.

End with_codec.

Lemma resolve_audio_returns_witness :
  (startswith_any ["http://"; "https://"] "https://example.com/audio.wav"
   = true
   /\ Some 8000 = Some 8000
   /\ (@AudioStr demo_codec "https://example.com/audio.wav"
       = AudioStr "https://example.com/audio.wav"
       \/ @AudioStr demo_codec "https://example.com/audio.wav"
          = AudioPath "https://example.com/audio.wav"))
  \/ (String.prefix "data:audio/wav;base64," "https://example.com/audio.wav"
      = true
      /\ exists r, Some 8000 = Some r).
Proof.
  apply (@resolve_audio_returns demo_codec
           (AudioStr "https://example.com/audio.wav") (Some 8000)).
  reflexivity.
Defined.

(** The prefixes are matched as they are written: [HTTP://] is the
    start of a path. *)
Lemma resolve_audio_reads_file_witness :
  @resolve_audio demo_codec (AudioStr "HTTP://example.com/a.wav") (Some 8000)
  = @resolve_audio demo_codec (AudioPath "HTTP://example.com/a.wav") None.
Proof.
  apply (@resolve_audio_reads_file demo_codec "HTTP://example.com/a.wav"
           (Some 8000) None).
  reflexivity.
Defined.

End AudioMore.

(** ** More on the player *)

Module CoreMore.
Import Py PyFacts Audio WaveSurfer Builders Notions MoreNotions Examples.

Lemma dict_get_update {V : Type} (d other : dict V) (k : string) :
  well_formed other ->
  dict_get (dict_update d other) k
  = match dict_get other k with
    | Some v => Some v
    | None => dict_get d k
    end.
Proof.
  intros Hwf.
  exact (OptionsMore.dict_get_assign (fun _ => true) other d k Hwf eq_refl).
Qed.

Lemma dict_set_keys {V : Type} (d : dict V) (k0 k : string) (v : V) :
  In k (dict_keys (dict_set d k0 v)) <-> In k (dict_keys d) \/ k = k0.
Proof.
  induction d as [|[k' v'] d IH]; simpl.
  - intuition.
  - destruct (String.eqb_spec k' k0) as [->|Hne]; simpl.
    + intuition.
    + rewrite IH. intuition.
Qed.

Lemma dict_update_keys {V : Type} (d other : dict V) (k : string) :
  In k (dict_keys (dict_update d other))
  <-> In k (dict_keys d) \/ In k (dict_keys other).
Proof.
  unfold dict_update. revert d.
  induction other as [|[k0 v] other IH]; intros d; cbn [fold_left fst snd].
  - simpl. intuition.
  - rewrite IH, dict_set_keys. simpl. intuition.
Qed.

Lemma dict_get_remove_ne {V : Type} (d : dict V) (k k0 : string) :
  k <> k0 -> dict_get (dict_remove d k) k0 = dict_get d k0.
Proof.
  intros Hne. induction d as [|[k' v'] d IH]; simpl; [reflexivity|].
  destruct (String.eqb_spec k' k) as [->|Hne'].
  - destruct (String.eqb_spec k k0); [contradiction|reflexivity].
  - simpl. now rewrite IH.
Qed.

(** How often a key is in a dictionary: at most once in a [dict], and
    [dict_set] and [dict_update] keep it so. *)
Lemma not_in_count {V : Type} (d : dict V) (k : string) :
  ~ In k (dict_keys d) -> count_occ string_dec (dict_keys d) k = 0%nat.
Proof. intros Hn. now apply count_occ_not_In. Qed.

Lemma dict_set_once {V : Type} (d : dict V) (k0 k : string) (v : V) :
  (count_occ string_dec (dict_keys d) k <= 1)%nat ->
  (count_occ string_dec (dict_keys (dict_set d k0 v)) k <= 1)%nat.
Proof.
  induction d as [|[k' v'] d IH]; cbn [dict_set dict_keys map fst].
  - intros _. cbn [count_occ]. destruct (string_dec k0 k); simpl; lia.
  - destruct (String.eqb_spec k' k0) as [->|Hne];
      cbn [dict_keys map fst count_occ]; [tauto|].
    fold (dict_keys d). fold (dict_keys (dict_set d k0 v)).
    destruct (string_dec k' k) as [->|Hk].
    + intros Hle.
      assert (Hz : count_occ string_dec (dict_keys d) k = 0%nat)
        by (unfold dict_keys in *; lia).
      apply count_occ_not_In in Hz.
      assert (Hz' : ~ In k (dict_keys (dict_set d k0 v))).
      { intros Hin. apply dict_set_keys in Hin.
        destruct Hin as [Hin|Heq]; [now apply Hz|congruence]. }
      apply (count_occ_not_In string_dec) in Hz'.
      unfold dict_keys in *. lia.
    + exact IH.
Qed.

Lemma dict_update_once {V : Type} (d other : dict V) (k : string) :
  (count_occ string_dec (dict_keys d) k <= 1)%nat ->
  (count_occ string_dec (dict_keys (dict_update d other)) k <= 1)%nat.
Proof.
  unfold dict_update. revert d.
  induction other as [|[k0 v] other IH]; intros d Hle; [exact Hle|].
  cbn [fold_left fst snd]. apply IH. now apply dict_set_once.
Qed.

Lemma dict_remove_once {V : Type} (d : dict V) (k : string) :
  (count_occ string_dec (dict_keys d) k <= 1)%nat ->
  ~ In k (dict_keys (dict_remove d k)).
Proof.
  induction d as [|[k' v'] d IH]; cbn [dict_remove dict_keys map fst];
    [tauto|].
  fold (dict_keys d).
  destruct (String.eqb_spec k' k) as [->|Hne]; cbn [count_occ].
  - destruct (string_dec k k) as [_|Hn]; [|now elim Hn].
    intros Hle. apply (count_occ_not_In string_dec).
    unfold dict_keys in *. lia.
  - destruct (string_dec k' k) as [Heq|_]; [contradiction|].
    intros Hle [Heq|Hin]; [contradiction|]. now apply IH.
Qed.

Lemma find_absent {A : Type} (p : A -> bool) (l : list A) :
  (forall x, In x l -> p x = false) -> find p l = None.
Proof.
  induction l as [|a l IH]; simpl; intros Hall; [reflexivity|].
  rewrite (Hall a) by now left. apply IH. intros x Hx. apply Hall. now right.
Qed.

Lemma or_same {A : Type} (l : list A) :
  match Some l with
  | Some ((_ :: _) as l') => l'
  | _ => []
  end = l.
Proof. now destruct l. Qed.

Lemma waveform_overrides_get (theme : Theme.t) (f : string) :
  dict_get_default (Theme.waveform_overrides theme) f VNone
  = if existsb (String.eqb f) waveform_names then Theme.getattr theme f
    else VNone.
Proof.
  unfold dict_get_default. rewrite ThemeMore.waveform_overrides_closed.
  destruct (existsb (String.eqb f) waveform_names) eqn:Hex.
  - apply existsb_exists in Hex. destruct Hex as (g & Hin & Heq).
    apply String.eqb_eq in Heq. subst g.
    destruct (is_None (Theme.getattr theme f)) eqn:Hnone.
    + rewrite dict_get_not_in.
      * now destruct (Theme.getattr theme f).
      * unfold dict_keys. rewrite map_map. cbn [fst]. rewrite map_id.
        intros Hf. apply filter_In in Hf. rewrite Hnone in Hf.
        now destruct Hf.
    + rewrite (dict_get_map (fun x => x) (Theme.getattr theme)); auto.
      * rewrite map_id.
        apply List.NoDup_filter, ThemeMore.waveform_names_NoDup.
      * apply filter_In. now rewrite Hnone.
  - rewrite dict_get_not_in; [reflexivity|].
    unfold dict_keys. rewrite map_map. cbn [fst]. rewrite map_id.
    intros Hf. apply filter_In in Hf. destruct Hf as [Hin _].
    assert (Ht : existsb (String.eqb f) waveform_names = true).
    { apply existsb_exists. exists f. split; [exact Hin|].
      apply String.eqb_refl. }
    congruence.
Qed.

Lemma get_default_update (d other : dict PyVal) (k : string) :
  well_formed other ->
  dict_get_default (dict_update d other) k VNone
  = match dict_get other k with
    | Some v => v
    | None => dict_get_default d k VNone
    end.
Proof.
  intros Hwf. unfold dict_get_default. rewrite dict_get_update by exact Hwf.
  now destruct (dict_get other k).
Qed.

Section with_world.
Context `{Codec} `{Unicode}.
Variable _WAVESURFER_JS : string.
Variable uuid4_hex : nat -> string.

Lemma build_options_getattr (self : t) (options : WaveSurferOptions.t)
  (f : string) :
  _build_options self = Ok options ->
  In f WaveSurferOptions.fields ->
  WaveSurferOptions.getattr options f
  = dict_get_default
      (dict_update (Theme.waveform_overrides (theme self))
         (_extra_options self))
      f VNone.
Proof.
  intros Hret Hin.
  exact (OptionsMore.getattr_from_kwargs
           (dict_update (Theme.waveform_overrides (theme self))
              (_extra_options self))
           options f Hret Hin).
Qed.

(** X20: the constructor does not look at the audio.  With a theme
    given as an instance it returns a player for an audio that cannot
    be resolved, and the error of [resolve_audio] is raised when the
    player is rendered, by [to_html] and by [compare] alike. *)
Theorem audio_checked_at_render (themes : ThemeRegistry.t)
  (audio : AudioInput) (sr : option Z) (title : option string)
  (theme : Theme.t) (controls : option Controls.t)
  (events : option (list EventHandler.t))
  (plugins : option (list PluginConfig.t)) (on_ready : option string)
  (options : dict PyVal) (e : exn) (columns : Z) (drawn : nat) :
  resolve_audio audio sr = Raise e ->
  exists player,
    __init__ themes audio sr title (ThemeRegistry.ArgTheme theme) controls
      events plugins on_ready options
    = Ok player
    /\ to_html _WAVESURFER_JS uuid4_hex player drawn = Raise e
    /\ Layouts.compare _WAVESURFER_JS uuid4_hex [player] columns drawn
       = Raise e.
Proof.
  intros Hres. unfold __init__. cbn [ThemeRegistry.resolve bind].
  eexists. split; [reflexivity|].
  unfold to_html, Layouts.compare, Layouts.loop, Layouts.loop_body.
  cbn [WaveSurfer.audio WaveSurfer.sr Layouts.n_drawn].
  rewrite Hres. split; reflexivity.
Qed.

(** X21: a player that was given the keyword [cls] has no option set:
    [_build_options] raises [TypeError].  For any other player built
    with keywords that are distinct, as the keys of a [dict] are, it
    returns an option set in which a field named by those keywords has
    the value given there, [None] included; any other field has the
    value the theme has for it when it is a field of the waveform, and
    [None] when it is not. *)
Theorem build_options_precedence (self : t) :
  well_formed (_extra_options self) ->
  if dict_contains (_extra_options self) "cls" then
    exists msg, _build_options self = Raise (TypeError msg)
  else
    exists options,
      _build_options self = Ok options
      /\ forall f, In f WaveSurferOptions.fields ->
           WaveSurferOptions.getattr options f
           = match dict_get (_extra_options self) f with
             | Some v => v
             | None =>
                 if existsb (String.eqb f) waveform_names
                 then Theme.getattr (theme self) f
                 else VNone
             end.
Proof.
  intros Hwf. rewrite (BuildFacts.build_options_cases self).
  destruct (dict_contains (_extra_options self) "cls") eqn:Hcls.
  - eexists. reflexivity.
  - eexists. split; [reflexivity|]. intros f Hin.
    rewrite (build_options_getattr self (options_of self) f
               (BuildFacts.build_options_buildable self Hcls) Hin).
    rewrite (get_default_update _ _ f Hwf).
    now rewrite waveform_overrides_get.
Qed.

(** The call of the constructor the builders make, for options that
    bind no parameter. *)
Lemma construct_plain (themes : ThemeRegistry.t) (audio : AudioInput)
  (sr : option Z) (title : option string) (theme : ThemeRegistry.ThemeArg)
  (controls : Controls.t) (events : list EventHandler.t)
  (plugins : list PluginConfig.t) (opts : dict PyVal) :
  (forall k, In k passed_by_keyword -> ~ In k (dict_keys opts)) ->
  construct themes audio sr title theme controls events plugins opts
  = bind (ThemeRegistry.resolve themes theme)
      (fun theme =>
         Ok {| WaveSurfer.audio := audio;
               WaveSurfer.sr := sr;
               WaveSurfer.title := title;
               WaveSurfer.theme := theme;
               WaveSurfer.controls := controls;
               WaveSurfer.events :=
                 (events ++ ready_handlers (dict_get opts "on_ready"))%list;
               WaveSurfer.plugins := plugins;
               WaveSurfer._extra_options := dict_remove opts "on_ready" |}).
Proof.
  intros Hfree. unfold construct. rewrite find_absent.
  - unfold __init__. destruct (ThemeRegistry.resolve themes theme) as [th|e];
      [|reflexivity].
    cbn [bind]. rewrite !or_same. unfold ready_handlers, ready_handler.
    destruct (dict_get opts "on_ready") as [v|]; [|now rewrite app_nil_r].
    destruct (truthy_val v); [|now rewrite app_nil_r].
    destruct (str v) as [|c js]; [now rewrite app_nil_r|reflexivity].
  - intros k Hk. destruct (existsb (String.eqb k) passed_by_keyword) eqn:Hex;
      [|reflexivity].
    apply existsb_exists in Hex. destruct Hex as (g & Hg & Heq).
    apply String.eqb_eq in Heq. subst g. now elim (Hfree k Hg).
Qed.

Lemma plain_free {V : Type} (d : dict V) :
  plain_options d ->
  (forall k, In k passed_by_keyword -> ~ In k (dict_keys d))
  /\ ~ In "on_ready" (dict_keys d).
Proof.
  intros Hplain. split.
  - intros k Hk. apply Hplain. simpl in Hk. simpl. tauto.
  - apply Hplain. in_list.
Qed.

(** X22: for a player whose options hold no name of a parameter of
    the constructor, as the options the constructor collects do not,
    [with_events] and [with_plugins] return a player that differs from
    [self] in one field only: the handlers, or the plugins, of [self]
    followed by the new ones. *)
Theorem with_events_with_plugins_append (themes : ThemeRegistry.t)
  (self : t) (handlers : list EventHandler.t)
  (configs : list PluginConfig.t) :
  plain_options (_extra_options self) ->
  with_events themes self handlers
  = Ok {| WaveSurfer.audio := audio self;
          WaveSurfer.sr := sr self;
          WaveSurfer.title := title self;
          WaveSurfer.theme := theme self;
          WaveSurfer.controls := controls self;
          WaveSurfer.events := (events self ++ handlers)%list;
          WaveSurfer.plugins := plugins self;
          WaveSurfer._extra_options := _extra_options self |}
  /\ with_plugins themes self configs
     = Ok {| WaveSurfer.audio := audio self;
             WaveSurfer.sr := sr self;
             WaveSurfer.title := title self;
             WaveSurfer.theme := theme self;
             WaveSurfer.controls := controls self;
             WaveSurfer.events := events self;
             WaveSurfer.plugins := (plugins self ++ configs)%list;
             WaveSurfer._extra_options := _extra_options self |}.
Proof.
  intros Hplain. destruct (plain_free _ Hplain) as [Hfree Hready].
  unfold with_events, with_plugins.
  rewrite !construct_plain by exact Hfree.
  cbn [ThemeRegistry.resolve bind].
  rewrite (dict_get_not_in _ _ Hready), (dict_remove_not_in _ _ Hready).
  cbn [ready_handlers]. now rewrite !app_nil_r.
Qed.

(** X23: for a player whose options hold no name of a parameter of
    the constructor, [with_theme] returns [self] with the theme
    replaced, by the instance given or by the theme registered under
    the name given; for a name that is not registered it raises the
    [KeyError] of the registry. *)
Theorem with_theme_replaces_theme (themes : ThemeRegistry.t) (self : t)
  (new_theme : Theme.t + string) :
  plain_options (_extra_options self) ->
  with_theme themes self new_theme
  = bind
      match new_theme with
      | inl theme => Ok theme
      | inr name => ThemeRegistry.get themes name
      end
      (fun theme =>
         Ok {| WaveSurfer.audio := audio self;
               WaveSurfer.sr := sr self;
               WaveSurfer.title := title self;
               WaveSurfer.theme := theme;
               WaveSurfer.controls := controls self;
               WaveSurfer.events := events self;
               WaveSurfer.plugins := plugins self;
               WaveSurfer._extra_options := _extra_options self |}).
Proof.
  intros Hplain. destruct (plain_free _ Hplain) as [Hfree Hready].
  unfold with_theme. rewrite construct_plain by exact Hfree.
  rewrite (dict_get_not_in _ _ Hready), (dict_remove_not_in _ _ Hready).
  cbn [ready_handlers]. rewrite app_nil_r.
  destruct new_theme as [th|name]; reflexivity.
Qed.

(** X24: for a player whose options hold no name of a parameter of
    the constructor, [with_options], given distinct keywords none of
    which is [self] or one of the seven parameters the builders pass,
    returns [self] with the keywords laid over its options: a name
    among the keywords has the value given there and any other name
    keeps its value.  The keyword [on_ready] is not made an option,
    the options of the player returned have no such key: a value of
    it that is true, and whose text is not empty, adds a handler of
    [ready], run once. *)
Theorem with_options_merges (themes : ThemeRegistry.t) (self : t)
  (kwargs : dict PyVal) :
  plain_options (_extra_options self) ->
  well_formed kwargs ->
  (forall k, In k ("self" :: passed_by_keyword) ->
     ~ In k (dict_keys kwargs)) ->
  exists options,
    with_options themes self kwargs
    = Ok {| WaveSurfer.audio := audio self;
            WaveSurfer.sr := sr self;
            WaveSurfer.title := title self;
            WaveSurfer.theme := theme self;
            WaveSurfer.controls := controls self;
            WaveSurfer.events :=
              (events self ++ ready_handlers (dict_get kwargs "on_ready"))%list;
            WaveSurfer.plugins := plugins self;
            WaveSurfer._extra_options := options |}
    /\ ~ In "on_ready" (dict_keys options)
    /\ forall k, k <> "on_ready" ->
         dict_get options k
         = match dict_get kwargs k with
           | Some v => Some v
           | None => dict_get (_extra_options self) k
           end.
Proof.
  intros Hplain Hwf Hkw. destruct (plain_free _ Hplain) as [Hfree Hready].
  unfold with_options, dict_contains.
  rewrite (dict_get_not_in kwargs "self") by (apply Hkw; now left).
  unfold dict_merge. rewrite construct_plain.
  - cbn [ThemeRegistry.resolve bind]. eexists. split; [|split].
    + rewrite dict_get_update by exact Hwf.
      rewrite (dict_get_not_in _ _ Hready).
      now destruct (dict_get kwargs "on_ready").
    + apply dict_remove_once, dict_update_once.
      rewrite (not_in_count _ _ Hready). lia.
    + intros k Hk. rewrite dict_get_remove_ne by congruence.
      now apply dict_get_update.
  - intros k Hk Hin. apply dict_update_keys in Hin.
    destruct Hin as [Hin|Hin]; [now apply (Hfree k)|].
    apply (Hkw k); [now right|exact Hin].
Qed.

(** X25: [with_options] cannot change the audio, the rate, the title,
    the theme, the controls, the handlers or the plugins: a keyword
    with one of those names makes the call of the constructor raise
    [TypeError], whatever else is passed. *)
Theorem with_options_reserved_keyword (themes : ThemeRegistry.t) (self : t)
  (kwargs : dict PyVal) (k : string) :
  In k passed_by_keyword -> In k (dict_keys kwargs) ->
  exists msg, with_options themes self kwargs = Raise (TypeError msg).
Proof.
  intros Hk Hin. unfold with_options.
  destruct (dict_contains kwargs "self"); [eexists; reflexivity|].
  unfold construct.
  destruct (find _ _) as [k'|] eqn:Hfind; [eexists; reflexivity|].
  exfalso.
  assert (Hmerged : In k (dict_keys
                            (dict_merge (_extra_options self) kwargs))).
  { unfold dict_merge. apply dict_update_keys. now right. }
  assert (Hfalse := find_none _ _ Hfind k Hmerged).
  cbv beta in Hfalse.
  assert (Ht : existsb (String.eqb k) passed_by_keyword = true).
  { apply existsb_exists. exists k. split; [exact Hk|].
    apply String.eqb_refl. }
  congruence.
Qed.

End with_world.

Lemma audio_checked_at_render_witness :
  exists player : @WaveSurfer.t demo_codec,
    __init__ ThemeRegistry.themes (AudioOther "int") None None
      (ThemeRegistry.ArgTheme Theme.DARK) None None None None []
    = Ok player
    /\ to_html demo_js demo_uuid4_hex player 0
       = Raise (TypeError
                  ("audio must be a numpy array, torch tensor, file path, "
                   ++ "or URL string " ++ EM_DASH ++ " got int"))
    /\ Layouts.compare demo_js demo_uuid4_hex [player] 1 0
       = Raise (TypeError
                  ("audio must be a numpy array, torch tensor, file path, "
                   ++ "or URL string " ++ EM_DASH ++ " got int")).
Proof.
  apply (@audio_checked_at_render demo_codec demo_unicode demo_js
           demo_uuid4_hex
           ThemeRegistry.themes (AudioOther "int") None None Theme.DARK
           None None None None []).
  reflexivity.
Defined.

(** [WaveSurfer(url, theme=DARK, bar_width=5, height=None)] *)
Lemma build_options_precedence_witness :
  exists options,
    _build_options
      (@WaveSurfer.mk demo_codec (AudioStr "https://example.com/audio.wav")
         None None Theme.DARK Controls.default [] []
         [("bar_width", VInt 5); ("height", VNone)])
    = Ok options
    /\ forall f, In f WaveSurferOptions.fields ->
         WaveSurferOptions.getattr options f
         = match
             dict_get [("bar_width", VInt 5); ("height", VNone)] f
           with
           | Some v => v
           | None =>
               if existsb (String.eqb f) waveform_names
               then Theme.getattr Theme.DARK f
               else VNone
           end.
Proof.
  apply (@build_options_precedence demo_codec
           (@WaveSurfer.mk demo_codec
              (AudioStr "https://example.com/audio.wav")
              None None Theme.DARK Controls.default [] []
              [("bar_width", VInt 5); ("height", VNone)])).
  repeat constructor; simpl; intuition discriminate.
Defined.

Lemma url_player_plain (title : option string) (theme : Theme.t) :
  plain_options (_extra_options (url_player title theme)).
Proof. intros k _ []. Qed.

Lemma with_events_with_plugins_append_witness :
  with_events ThemeRegistry.themes (url_player None Theme.DARK)
    [EventFactories.on_finish "console.log(1)" false]
  = Ok {| WaveSurfer.audio := AudioStr "https://example.com/audio.wav";
          WaveSurfer.sr := None;
          WaveSurfer.title := None;
          WaveSurfer.theme := Theme.DARK;
          WaveSurfer.controls := Controls.default;
          WaveSurfer.events :=
            [EventFactories.on_finish "console.log(1)" false];
          WaveSurfer.plugins := [];
          WaveSurfer._extra_options := [] |}.
Proof.
  apply (@with_events_with_plugins_append demo_codec demo_unicode
           ThemeRegistry.themes
           (url_player None Theme.DARK)
           [EventFactories.on_finish "console.log(1)" false] []).
  apply url_player_plain.
Defined.

Lemma with_theme_replaces_theme_witness :
  exists player,
    with_theme ThemeRegistry.themes (url_player None Theme.DARK)
      (inr "light")
    = Ok player
    /\ theme player = Theme.LIGHT.
Proof.
  eexists. split.
  - rewrite (@with_theme_replaces_theme demo_codec demo_unicode
               ThemeRegistry.themes
               (url_player None Theme.DARK) (inr "light")
               (url_player_plain None Theme.DARK)).
    reflexivity.
  - reflexivity.
Defined.

Lemma with_options_merges_witness :
  exists options,
    with_options ThemeRegistry.themes (url_player None Theme.DARK)
      [("bar_width", VInt 5); ("on_ready", VStr "ws.play()")]
    = Ok {| WaveSurfer.audio := AudioStr "https://example.com/audio.wav";
            WaveSurfer.sr := None;
            WaveSurfer.title := None;
            WaveSurfer.theme := Theme.DARK;
            WaveSurfer.controls := Controls.default;
            WaveSurfer.events := [ready_handler "ws.play()"];
            WaveSurfer.plugins := [];
            WaveSurfer._extra_options := options |}
    /\ ~ In "on_ready" (dict_keys options)
    /\ forall k, k <> "on_ready" ->
         dict_get options k
         = match
             dict_get [("bar_width", VInt 5); ("on_ready", VStr "ws.play()")]
               k
           with
           | Some v => Some v
           | None => dict_get [] k
           end.
Proof.
  apply (@with_options_merges demo_codec demo_unicode ThemeRegistry.themes
           (url_player None Theme.DARK)
           [("bar_width", VInt 5); ("on_ready", VStr "ws.play()")]).
  - apply url_player_plain.
  - repeat constructor; simpl; intuition discriminate.
  - intros k Hk Hin. simpl in Hk, Hin. intuition congruence.
Defined.

Lemma with_options_reserved_keyword_witness :
  exists msg,
    with_options ThemeRegistry.themes (url_player None Theme.DARK)
      [("title", VStr "Take 2")]
    = Raise (TypeError msg).
Proof.
  apply (@with_options_reserved_keyword demo_codec demo_unicode
           ThemeRegistry.themes
           (url_player None Theme.DARK) [("title", VStr "Take 2")] "title").
  - in_list.
  - in_list.
Defined.

End CoreMore.

(** ** More on the layouts *)

Module LayoutMore.
Import Py PyFacts Audio WaveSurfer Layouts Notions MoreNotions Examples.

(** [-(-n // c)] is the least number of rows of [c] that hold [n]. *)
Lemma rows_are_ceiling (n c : Z) :
  0 < c -> (- (- n / c) - 1) * c < n <= - (- n / c) * c.
Proof.
  intros Hc.
  assert (Hdm := Z.div_mod (- n) c ltac:(lia)).
  assert (Hr := Z.mod_pos_bound (- n) c Hc).
  nia.
Qed.

Lemma occurs_lt_s (t s : string) :
  occurs_in ("<s" ++ t) s -> no_lt_s s = false.
Proof.
  intros (pre & post & ->).
  induction pre as [|a pre IH]; simpl; [reflexivity|].
  simpl in IH. rewrite IH. apply andb_false_r.
Qed.

Section with_world.
Context `{Codec}.
Variable _WAVESURFER_JS : string.
Variable uuid4_hex : nat -> string.

Lemma cards_of_length (players : list WaveSurfer.t) (urls : list string)
  (drawn : nat) :
  all_render players urls ->
  List.length (cards_of uuid4_hex players urls drawn) = List.length players.
Proof.
  intros Hall. revert drawn.
  induction Hall as [|player url players urls _ _ IH]; intros drawn;
    [reflexivity|].
  cbn [cards_of List.length]. now rewrite IH.
Qed.

Lemma loop_app (before after : list WaveSurfer.t) (st : loop_state) :
  loop uuid4_hex (before ++ after) st
  = bind (loop uuid4_hex before st) (loop uuid4_hex after).
Proof.
  revert st. induction before as [|player before IH]; intros st;
    [reflexivity|].
  cbn [app loop].
  destruct (loop_body uuid4_hex st player) as [st'|e]; [|reflexivity].
  cbn [bind]. apply IH.
Qed.

(** X26: for more than one column and players that can be rendered
    (the audio of each resolves, and none was given the keyword [cls],
    for which its option set is not built), [compare] returns one iframe around a grid of that many columns
    with one card a player, in the order of the players; its height
    is 8 more than the number of rows times the largest estimated
    height of a card (0 when all are below 0), the number of rows
    being the least that holds the cards; and one identifier is drawn
    for each player. *)
Theorem compare_rows_are_ceiling (players : list WaveSurfer.t)
  (urls : list string) (columns : Z) (drawn : nat) :
  1 < columns -> all_render players urls ->
  exists rows,
    (rows - 1) * columns < Z.of_nat (List.length players) <= rows * columns
    /\ compare _WAVESURFER_JS uuid4_hex players columns drawn
       = Ok ({| _html :=
                  Html.wrap_in_iframe _WAVESURFER_JS
                    (grid_body
                       ("display: grid; grid-template-columns: repeat("
                        ++ int_str columns ++ ", 1fr); gap: 8px;")
                       (cards_of uuid4_hex players urls drawn))
                    (rows * fold_left Z.max (map height_of players) 0 + 8) |},
             (drawn + List.length players)%nat).
Proof.
  intros Hcols Hall.
  exists (- (- Z.of_nat (List.length players) / columns)). split.
  - apply rows_are_ceiling. lia.
  - rewrite (LayoutProps.compare_columns _ _ _ _ _ drawn Hcols Hall).
    now rewrite (cards_of_length _ _ _ Hall).
Qed.

(** X27: for one column, and for any number of columns below one,
    and players that can be rendered (the audio of each resolves, and
    none was given the keyword [cls]), [compare] stacks the cards: the container declares no columns, and
    the height of the iframe is the number of players times the
    largest estimated height of a card, with no margin added. *)
Theorem compare_stacks (players : list WaveSurfer.t) (urls : list string)
  (columns : Z) (drawn : nat) :
  columns <= 1 -> all_render players urls ->
  compare _WAVESURFER_JS uuid4_hex players columns drawn
  = Ok ({| _html :=
             Html.wrap_in_iframe _WAVESURFER_JS
               (grid_body "display: grid; gap: 8px;"
                  (cards_of uuid4_hex players urls drawn))
               (Z.of_nat (List.length players)
                * fold_left Z.max (map height_of players) 0) |},
        (drawn + List.length players)%nat).
Proof.
  intros Hcols Hall. unfold compare.
  rewrite (LayoutProps.loop_Ok _ _ _ _ Hall).
  cbn [bind cards max_card_height n_drawn app].
  destruct (Z.ltb_spec 1 columns) as [Hlt|_]; [lia|].
  now rewrite (cards_of_length _ _ _ Hall).
Qed.

(** X28: when the audio of a player does not resolve and the players
    before it can be rendered (the audio of each resolves, and none
    was given the keyword [cls]), [compare] raises the error of that
    player, whatever the players after it are. *)
Theorem compare_first_failure (before after : list WaveSurfer.t)
  (urls : list string) (player : WaveSurfer.t) (e : exn) (columns : Z)
  (drawn : nat) :
  all_render before urls ->
  resolve_audio (audio player) (sr player) = Raise e ->
  compare _WAVESURFER_JS uuid4_hex (before ++ player :: after) columns drawn
  = Raise e.
Proof.
  intros Hall Hres. unfold compare. rewrite loop_app.
  rewrite (LayoutProps.loop_Ok _ _ _ _ Hall). cbn [bind loop].
  unfold loop_body. now rewrite Hres.
Qed.

(** [compare] returns whenever every player can be rendered. *)
Lemma compare_returns (players : list WaveSurfer.t) (urls : list string)
  (columns : Z) (drawn : nat) :
  all_render players urls ->
  exists r : _CompareResult,
    compare _WAVESURFER_JS uuid4_hex players columns drawn
    = Ok (r, (drawn + List.length players)%nat).
Proof.
  intros Hall. unfold compare.
  rewrite (LayoutProps.loop_Ok _ _ _ _ Hall).
  cbn [bind cards max_card_height n_drawn app].
  destruct (Z.ltb 1 columns);
    change (call_kw "wrap_in_iframe" Html.wrap_in_iframe_params
              ["body_html"; "height"] ?b) with b;
    cbn [bind]; eexists; reflexivity.
Qed.

(** X29: what [compare] returns is one iframe.  It starts with the
    opening of the element, and nowhere in it, whatever the titles,
    the addresses and the scripts of the players, is there an
    unescaped opening of a [script], [style], [span] or [svg]
    element, or any other text that starts with [<s]. *)
Theorem compare_is_escaped (players : list WaveSurfer.t) (columns : Z)
  (drawn drawn' : nat) (r : _CompareResult) :
  compare _WAVESURFER_JS uuid4_hex players columns drawn = Ok (r, drawn') ->
  String.prefix ("<iframe srcdoc=" ++ DQ) (_repr_html_ r) = true
  /\ forall t, ~ occurs_in ("<s" ++ t) (_repr_html_ r).
Proof.
  unfold compare.
  destruct (loop uuid4_hex players _) as [st|e]; cbn [bind]; [|discriminate].
  destruct (if Z.ltb 1 columns then _ else _) as [grid_style total_height].
  change (call_kw "wrap_in_iframe" Html.wrap_in_iframe_params
            ["body_html"; "height"] ?b) with b.
  cbn [bind]. intros Heq. injection Heq as <- _. cbn [_repr_html_ _html].
  split.
  - reflexivity.
  - intros t Hocc. apply occurs_lt_s in Hocc.
    rewrite HtmlProps.wrap_in_iframe_no_lt_s in Hocc. discriminate.
Qed.

End with_world.

Lemma three_resolve :
  all_render
    [url_player (Some "A") Theme.DARK; url_player (Some "B") Theme.DARK;
     url_player (Some "C") Theme.DARK]
    ["https://example.com/audio.wav"; "https://example.com/audio.wav";
     "https://example.com/audio.wav"].
Proof. repeat constructor; exists None; reflexivity. Qed.

(** Three players in two columns: two rows. *)
Lemma compare_rows_are_ceiling_witness :
  exists rows,
    (rows - 1) * 2 < 3 <= rows * 2
    /\ exists r : _CompareResult,
         @compare demo_codec demo_js demo_uuid4_hex
           [url_player (Some "A") Theme.DARK;
            url_player (Some "B") Theme.DARK;
            url_player (Some "C") Theme.DARK]
           2 0
         = Ok (r, 3%nat).
Proof.
  destruct (@compare_rows_are_ceiling demo_codec demo_js demo_uuid4_hex
              [url_player (Some "A") Theme.DARK;
               url_player (Some "B") Theme.DARK;
               url_player (Some "C") Theme.DARK]
              ["https://example.com/audio.wav";
               "https://example.com/audio.wav";
               "https://example.com/audio.wav"]
              2 0%nat ltac:(lia) three_resolve)
    as (rows & Hrows & Heq).
  exists rows. split; [exact Hrows|]. eexists. exact Heq.
Defined.

Lemma compare_stacks_witness :
  exists r : _CompareResult,
    @compare demo_codec demo_js demo_uuid4_hex
      [url_player (Some "A") Theme.DARK; url_player (Some "B") Theme.DARK;
       url_player (Some "C") Theme.DARK]
      0 0
    = Ok (r, 3%nat).
Proof.
  eexists.
  apply (@compare_stacks demo_codec demo_js demo_uuid4_hex
           [url_player (Some "A") Theme.DARK;
            url_player (Some "B") Theme.DARK;
            url_player (Some "C") Theme.DARK]
           ["https://example.com/audio.wav"; "https://example.com/audio.wav";
            "https://example.com/audio.wav"]
           0 0%nat ltac:(lia) three_resolve).
Defined.

(** The second of three players has an array and no rate. *)
Lemma compare_first_failure_witness :
  @compare demo_codec demo_js demo_uuid4_hex
    ([url_player (Some "A") Theme.DARK]
     ++ WaveSurfer.mk (@AudioArray demo_codec [0; 1; 0]) None (Some "B")
          Theme.DARK Controls.default [] [] []
        :: [url_player (Some "C") Theme.DARK])
    2 0
  = Raise (ValueError
             "sr (sample rate) is required when passing a numpy array").
Proof.
  apply (@compare_first_failure demo_codec demo_js demo_uuid4_hex
           [url_player (Some "A") Theme.DARK]
           [url_player (Some "C") Theme.DARK]
           ["https://example.com/audio.wav"]).
  - repeat constructor. exists None. reflexivity.
  - reflexivity.
Defined.

(** A player whose title is the one of the escaping test. *)
Lemma compare_is_escaped_witness :
  exists r : _CompareResult,
    @compare demo_codec demo_js demo_uuid4_hex
      [url_player (Some xss_title) Theme.DARK] 1 0
    = Ok (r, 1%nat)
    /\ ~ occurs_in "<script>alert" (_repr_html_ r).
Proof.
  destruct (@compare_returns demo_codec demo_js demo_uuid4_hex
              [url_player (Some xss_title) Theme.DARK]
              ["https://example.com/audio.wav"] 1 0%nat)
    as [r Heq].
  { repeat constructor. exists None. reflexivity. }
  exists r. split; [exact Heq|].
  exact (proj2
           (@compare_is_escaped demo_codec demo_js demo_uuid4_hex
              [url_player (Some xss_title) Theme.DARK] 1 0%nat 1%nat r Heq)
           "cript>alert").
Defined.

End LayoutMore.
